(** * game-analyze: the skeleton renderer and the HTTP glue around it

    A shallow embedding of [main.py] (desktop frame picker) and
    [web_app_backend.py] (Flask backend).  Python floats are IEEE-754
    binary64 values ([spec_float] at precision 53), NumPy buffers live
    in a store indexed by references, and the calls made to OpenCV and
    to the pose model are recorded in a trace. *)

From Stdlib Require Import ZArith List String Bool Lia.
From Stdlib Require Import Ascii.
From Stdlib Require Import Floats.SpecFloat.
From stdpp Require Import base option gmap list strings pretty.

Local Open Scope Z_scope.

(** ** Python exceptions and results *)

Inductive exn :=
  | IndexError
  | ValueError
  | OverflowError
  | TypeError
  | RuntimeError (msg : string)
  (* no Python counterpart: a reference always points to a live object.
     Only reachable when the model is run on an unallocated reference. *)
  | DanglingRef.

Inductive result (A : Type) :=
  | Ok (a : A)
  | Raise (e : exn).
Arguments Ok {A} a.
Arguments Raise {A} e.

Definition is_ok {A} (r : result A) : bool :=
  match r with Ok _ => true | Raise _ => false end.

(** ** Python floats *)

Module PyFloat.

Definition prec : Z := 53.
Definition emax : Z := 1024.

Definition mul (a b : spec_float) : spec_float := SFmul prec emax a b.

(** [a > b] on floats; false as soon as one side is a NaN. *)
Definition gt (a b : spec_float) : bool := SFltb b a.

(** The float denoted by [m * 2^e], rounded to nearest even. *)
Definition of_scaled (m e : Z) : spec_float :=
  binary_normalize prec emax m e false.

(** Conversion of a Python int operand, as [float * int] performs it:
    OverflowError when the integer is too large for a double. *)
Definition of_int (n : Z) : result spec_float :=
  match of_scaled n 0 with
  | S754_infinity _ => Raise OverflowError
  | f => Ok f
  end.

(** [a * n] with [a] a float and [n] an int. *)
Definition mul_int (a : spec_float) (n : Z) : result spec_float :=
  match of_int n with
  | Ok f => Ok (mul a f)
  | Raise e => Raise e
  end.

(** Magnitude of a finite float cut towards zero. *)
Definition trunc_mag (m : positive) (e : Z) : Z := Z.shiftl (Z.pos m) e.

(** [int(f)]: truncation towards zero; ValueError on NaN,
    OverflowError on an infinity. *)
Definition to_int (f : spec_float) : result Z :=
  match f with
  | S754_zero _ => Ok 0
  | S754_finite s m e => Ok (cond_Zopp s (trunc_mag m e))
  | S754_infinity _ => Raise OverflowError
  | S754_nan => Raise ValueError
  end.

Definition is_finite (f : spec_float) : bool :=
  match f with
  | S754_zero _ | S754_finite _ _ _ => true
  | _ => false
  end.

(** Rounding to the nearest integer as the specification words it
    ([round(v)]); a tie goes to the even neighbour, as Python's
    built-in does.  Not used by the program. *)
Definition round_nearest (f : spec_float) : result Z :=
  match f with
  | S754_zero _ => Ok 0
  | S754_finite s m e =>
      let q := trunc_mag m e in
      (* the part cut off by [q], compared with one half *)
      let rest_cmp :=
        if 0 <=? e then Lt
        else Z.compare (2 * (Z.pos m - Z.shiftl q (- e))) (Z.shiftl 1 (- e)) in
      let up := match rest_cmp with
                | Lt => false
                | Eq => Z.odd q
                | Gt => true
                end in
      Ok (cond_Zopp s (if up then q + 1 else q))
  | S754_infinity _ => Raise OverflowError
  | S754_nan => Raise ValueError
  end.

Definition zero : spec_float := S754_zero false.
Definition half : spec_float := Eval vm_compute in of_scaled 1 (-1).
Definition one : spec_float := Eval vm_compute in of_scaled 1 0.

(** The exact value of a finite float is [numer f / denom f]. *)
Definition numer (f : spec_float) : Z :=
  match f with
  | S754_finite s m e => cond_Zopp s (Z.pos m * 2 ^ Z.max e 0)
  | _ => 0
  end.

Definition denom (f : spec_float) : Z :=
  match f with
  | S754_finite _ _ e => 2 ^ Z.max (- e) 0
  | _ => 1
  end.

End PyFloat.

(** ** NumPy buffers, the store and the trace of external calls *)

Definition pixel : Type := Z * Z * Z.

(** An image array of shape [(h, w, 3)], row-major. *)
Record ndarray := { shape : Z * Z; data : list pixel }.

Definition loc := nat.

Record landmark := {
  lm_x : spec_float;
  lm_y : spec_float;
  lm_z : spec_float;
  lm_visibility : spec_float
}.

(** Calls that leave the program: to the pose model, to the OpenCV
    drawing primitives and to the video decoder. *)
Inductive event :=
  | EvProcess (image_rgb : ndarray)
  | EvLine (buf : loc) (pt1 pt2 : Z * Z) (color : pixel) (thickness : Z)
  | EvCircle (buf : loc) (center : Z * Z) (radius : Z) (color : pixel) (thickness : Z)
  | EvRead (path : string) (pos : Z).

Record state := { heap : gmap loc ndarray; trace : list event }.

Definition M (A : Type) : Type := state -> result A * state.

#[export] Instance M_ret : MRet M := fun A a s => (Ok a, s).
#[export] Instance M_bind : MBind M := fun A B k m s =>
  match m s with
  | (Ok a, s') => k a s'
  | (Raise e, s') => (Raise e, s')
  end.

Definition raise {A} (e : exn) : M A := fun s => (Raise e, s).

Definition lift {A} (r : result A) : M A := fun s => (r, s).

Definition emit (ev : event) : M unit :=
  fun s => (Ok tt, {| heap := heap s; trace := trace s ++ [ev] |}).

(** A new array object. *)
Definition alloc (a : ndarray) : M loc :=
  fun s => let l := fresh (dom (heap s)) in
           (Ok l, {| heap := <[l := a]> (heap s); trace := trace s |}).

Definition load (l : loc) : M ndarray :=
  fun s => match heap s !! l with
           | Some a => (Ok a, s)
           | None => (Raise DanglingRef, s)
           end.

Definition store (l : loc) (a : ndarray) : M unit :=
  fun s => (Ok tt, {| heap := <[l := a]> (heap s); trace := trace s |}).

(** [for x in l: body(x)] *)
Fixpoint for_each {A} (l : list A) (body : A -> M unit) : M unit :=
  match l with
  | [] => mret tt
  | a :: l' => body a ≫= fun _ => for_each l' body
  end.

(** [[f(x) for x in l]], left to right. *)
Fixpoint map_result {A B} (f : A -> result B) (l : list A) : result (list B) :=
  match l with
  | [] => Ok []
  | a :: l' =>
      match f a with
      | Raise e => Raise e
      | Ok b => match map_result f l' with
                | Raise e => Raise e
                | Ok bs => Ok (b :: bs)
                end
      end
  end.

(** [l[i]] on a Python sequence, for an index that is not negative. *)
Definition getitem {A} (l : list A) (i : nat) : result A :=
  match l !! i with
  | Some a => Ok a
  | None => Raise IndexError
  end.

Definition result_bind {A B} (r : result A) (k : A -> result B) : result B :=
  match r with
  | Ok a => k a
  | Raise e => Raise e
  end.

#[export] Instance result_ret : MRet result := fun A a => Ok a.
#[export] Instance result_mbind : MBind result := fun A B k r => result_bind r k.

(** ** External collaborators *)

(** The members of [mediapipe.solutions.pose.PoseLandmark], the full
    landmark enumeration of the pose model, in the order of their values. *)
Inductive PoseLandmark :=
  | NOSE | LEFT_EYE_INNER | LEFT_EYE | LEFT_EYE_OUTER
  | RIGHT_EYE_INNER | RIGHT_EYE | RIGHT_EYE_OUTER
  | LEFT_EAR | RIGHT_EAR | MOUTH_LEFT | MOUTH_RIGHT
  | LEFT_SHOULDER | RIGHT_SHOULDER | LEFT_ELBOW | RIGHT_ELBOW
  | LEFT_WRIST | RIGHT_WRIST | LEFT_PINKY | RIGHT_PINKY
  | LEFT_INDEX | RIGHT_INDEX | LEFT_THUMB | RIGHT_THUMB
  | LEFT_HIP | RIGHT_HIP | LEFT_KNEE | RIGHT_KNEE
  | LEFT_ANKLE | RIGHT_ANKLE | LEFT_HEEL | RIGHT_HEEL
  | LEFT_FOOT_INDEX | RIGHT_FOOT_INDEX.

Definition all_landmarks : list PoseLandmark :=
  [ NOSE; LEFT_EYE_INNER; LEFT_EYE; LEFT_EYE_OUTER;
    RIGHT_EYE_INNER; RIGHT_EYE; RIGHT_EYE_OUTER;
    LEFT_EAR; RIGHT_EAR; MOUTH_LEFT; MOUTH_RIGHT;
    LEFT_SHOULDER; RIGHT_SHOULDER; LEFT_ELBOW; RIGHT_ELBOW;
    LEFT_WRIST; RIGHT_WRIST; LEFT_PINKY; RIGHT_PINKY;
    LEFT_INDEX; RIGHT_INDEX; LEFT_THUMB; RIGHT_THUMB;
    LEFT_HIP; RIGHT_HIP; LEFT_KNEE; RIGHT_KNEE;
    LEFT_ANKLE; RIGHT_ANKLE; LEFT_HEEL; RIGHT_HEEL;
    LEFT_FOOT_INDEX; RIGHT_FOOT_INDEX ].

(** [member.value] *)
Definition value (p : PoseLandmark) : nat :=
  match p with
  | NOSE => 0 | LEFT_EYE_INNER => 1 | LEFT_EYE => 2 | LEFT_EYE_OUTER => 3
  | RIGHT_EYE_INNER => 4 | RIGHT_EYE => 5 | RIGHT_EYE_OUTER => 6
  | LEFT_EAR => 7 | RIGHT_EAR => 8 | MOUTH_LEFT => 9 | MOUTH_RIGHT => 10
  | LEFT_SHOULDER => 11 | RIGHT_SHOULDER => 12
  | LEFT_ELBOW => 13 | RIGHT_ELBOW => 14
  | LEFT_WRIST => 15 | RIGHT_WRIST => 16
  | LEFT_PINKY => 17 | RIGHT_PINKY => 18
  | LEFT_INDEX => 19 | RIGHT_INDEX => 20
  | LEFT_THUMB => 21 | RIGHT_THUMB => 22
  | LEFT_HIP => 23 | RIGHT_HIP => 24
  | LEFT_KNEE => 25 | RIGHT_KNEE => 26
  | LEFT_ANKLE => 27 | RIGHT_ANKLE => 28
  | LEFT_HEEL => 29 | RIGHT_HEEL => 30
  | LEFT_FOOT_INDEX => 31 | RIGHT_FOOT_INDEX => 32
  end%nat.

(** Length of the landmark list the pose model returns. *)
Definition NUM_LANDMARKS : nat := length all_landmarks.

(** A pose-model handle: [pose.process(image)] gives the landmark list,
    or nothing when no pose is found. *)
Record Pose := { process : ndarray -> option (list landmark) }.

(** The OpenCV entry points the program calls on pixel data.  The
    drawing primitives take the buffer contents and give the contents
    after the call. *)
Class OpenCV := {
  cv2_line : ndarray -> Z * Z -> Z * Z -> pixel -> Z -> ndarray;
  cv2_circle : ndarray -> Z * Z -> Z -> pixel -> Z -> ndarray;
  (** [base64.b64encode(cv2.imencode('.jpg', a)[1]).decode('utf-8')] *)
  jpg_base64 : ndarray -> string
}.

(** A video container as the decoder sees it. *)
Class VideoSource := {
  video : Type;
  is_opened : video -> bool;
  frame_count : video -> Z;
  (** the frame [read()] yields after a seek to the position *)
  frame_at : video -> Z -> option ndarray;
  frame_past_end : forall v i, frame_count v <= i -> frame_at v i = None;
  frame_unopened : forall v i, is_opened v = false -> frame_at v i = None
}.

(** ** Static tables *)

Definition SIMPLE_CONNECTIONS : list (PoseLandmark * PoseLandmark) :=
  [ (NOSE, LEFT_SHOULDER);
    (NOSE, RIGHT_SHOULDER);
    (LEFT_SHOULDER, RIGHT_SHOULDER);
    (LEFT_SHOULDER, LEFT_HIP);
    (RIGHT_SHOULDER, RIGHT_HIP);
    (LEFT_HIP, RIGHT_HIP);
    (LEFT_SHOULDER, LEFT_ELBOW);
    (LEFT_ELBOW, LEFT_WRIST);
    (RIGHT_SHOULDER, RIGHT_ELBOW);
    (RIGHT_ELBOW, RIGHT_WRIST);
    (LEFT_HIP, LEFT_KNEE);
    (LEFT_KNEE, LEFT_ANKLE);
    (RIGHT_HIP, RIGHT_KNEE);
    (RIGHT_KNEE, RIGHT_ANKLE) ].

Definition KEY_LANDMARKS : list PoseLandmark :=
  [ NOSE;
    LEFT_SHOULDER; RIGHT_SHOULDER;
    LEFT_ELBOW; RIGHT_ELBOW;
    LEFT_WRIST; RIGHT_WRIST;
    LEFT_HIP; RIGHT_HIP;
    LEFT_KNEE; RIGHT_KNEE;
    LEFT_ANKLE; RIGHT_ANKLE ].

Definition RED : pixel := (0, 0, 255).
Definition GREEN : pixel := (0, 255, 0).

(** ** The skeleton renderer *)

Record keypoint := {
  kp_x : spec_float;
  kp_y : spec_float;
  kp_z : spec_float;
  kp_visibility : spec_float
}.

(** [lm.visibility > 0.5] *)
Definition visible (lm : landmark) : bool :=
  PyFloat.gt (lm_visibility lm) PyFloat.half.

(** [(int(p.x * w), int(p.y * h))] *)
Definition pixel_of (p : landmark) (w h : Z) : result (Z * Z) :=
  fx ← PyFloat.mul_int (lm_x p) w;
  px ← PyFloat.to_int fx;
  fy ← PyFloat.mul_int (lm_y p) h;
  py ← PyFloat.to_int fy;
  mret (px, py).

(** The dictionary appended for one landmark. *)
Definition keypoint_of (w h : Z) (lm : landmark) : result keypoint :=
  kx ← PyFloat.mul_int (lm_x lm) w;
  ky ← PyFloat.mul_int (lm_y lm) h;
  kz ← PyFloat.mul_int (lm_z lm) w;
  mret {| kp_x := kx; kp_y := ky; kp_z := kz;
          kp_visibility := lm_visibility lm |}.

(** [cv2.cvtColor(a, cv2.COLOR_BGR2RGB)] on the contents. *)
Definition BGR2RGB (a : ndarray) : ndarray :=
  {| shape := shape a;
     data := map (fun '(b, g, r) => (r, g, b)) (data a) |}.

Section Renderer.
Context `{OpenCV}.

Definition cvtColor_BGR2RGB (src : loc) : M loc :=
  a ← load src; alloc (BGR2RGB a).

(** [a.copy()] *)
Definition copy (src : loc) : M loc :=
  a ← load src; alloc a.

Definition pose_process (pose : Pose) (image : loc) : M (option (list landmark)) :=
  a ← load image; emit (EvProcess a);; mret (process pose a).

(** [cv2.line(img, pt1, pt2, color, thickness)], in place. *)
Definition line (img : loc) (pt1 pt2 : Z * Z) (color : pixel) (thickness : Z) : M unit :=
  a ← load img;
  store img (cv2_line a pt1 pt2 color thickness);;
  emit (EvLine img pt1 pt2 color thickness).

(** [cv2.circle(img, center, radius, color, thickness)], in place. *)
Definition circle (img : loc) (center : Z * Z) (radius : Z) (color : pixel) (thickness : Z) : M unit :=
  a ← load img;
  store img (cv2_circle a center radius color thickness);;
  emit (EvCircle img center radius color thickness).

(** Body of the loop over [SIMPLE_CONNECTIONS]. *)
Definition draw_connection (landmark : list landmark) (annotated : loc) (w h : Z)
    (connection : PoseLandmark * PoseLandmark) : M unit :=
  let start_idx := value (fst connection) in
  let end_idx := value (snd connection) in
  start_point ← lift (getitem landmark start_idx);
  end_point ← lift (getitem landmark end_idx);
  if visible start_point && visible end_point then
    start ← lift (pixel_of start_point w h);
    end_ ← lift (pixel_of end_point w h);
    line annotated start end_ RED 2
  else mret tt.

(** Body of the loop over [KEY_LANDMARKS]. *)
Definition draw_landmark (landmark : list landmark) (annotated : loc) (w h : Z)
    (landmark_idx : PoseLandmark) : M unit :=
  lm ← lift (getitem landmark (value landmark_idx));
  if visible lm then
    xy ← lift (pixel_of lm w h);
    circle annotated xy 3 GREEN (-1)
  else mret tt.

(** [web_app_backend.analyze_frame] *)
Definition analyze_frame (frame : loc) (pose : Pose) : M (loc * list keypoint * bool) :=
  image_rgb ← cvtColor_BGR2RGB frame;
  result ← pose_process pose image_rgb;
  annotated ← copy frame;
  a ← load frame;
  let '(h, w) := shape a in
  match result with
  | Some landmark =>
      for_each SIMPLE_CONNECTIONS (draw_connection landmark annotated w h);;
      for_each KEY_LANDMARKS (draw_landmark landmark annotated w h);;
      keypoints ← lift (map_result (keypoint_of w h) landmark);
      mret (annotated, keypoints, true)
  | None => mret (annotated, [], false)
  end.

(** [main.analyze_and_annotate_frame] *)
Definition analyze_and_annotate_frame (frame : loc) (pose : Pose) : M (loc * bool) :=
  image_rgb ← cvtColor_BGR2RGB frame;
  result ← pose_process pose image_rgb;
  annotated ← copy frame;
  a ← load frame;
  let '(h, w) := shape a in
  match result with
  | Some landmark =>
      for_each SIMPLE_CONNECTIONS (draw_connection landmark annotated w h);;
      for_each KEY_LANDMARKS (draw_landmark landmark annotated w h);;
      mret (annotated, true)
  | None => mret (annotated, false)
  end.

End Renderer.

(** The keypoint rows built at the end of [main.main]:
    [(lm.x * w, lm.y * h, lm.visibility)] for every landmark. *)
Definition main_keypoints (landmark : list landmark) (w h : Z)
    : result (list (spec_float * spec_float * spec_float)) :=
  map_result (fun lm =>
    kx ← PyFloat.mul_int (lm_x lm) w;
    ky ← PyFloat.mul_int (lm_y lm) h;
    mret (kx, ky, lm_visibility lm)) landmark.

(** ** Video access *)

(** The files on disk, by path. *)
Abbreviation filesystem := (gmap string video).

(** A [cv2.VideoCapture] handle: the container it was opened on (none
    when the path does not exist) and the position of the next frame. *)
Record VideoCapture `{VideoSource} := {
  cap_path : string;
  cap_src : option video;
  cap_pos : Z
}.

Section Capture.
Context `{VideoSource}.

(** [cv2.VideoCapture(path)] *)
Definition open_capture (fs : filesystem) (path : string) : VideoCapture :=
  {| cap_path := path; cap_src := fs !! path; cap_pos := 0 |}.

(** [cap.isOpened()] *)
Definition isOpened (cap : VideoCapture) : bool :=
  match cap_src cap with
  | Some v => is_opened v
  | None => false
  end.

(** [cap.set(cv2.CAP_PROP_POS_FRAMES, i)] *)
Definition set_pos_frames (cap : VideoCapture) (i : Z) : VideoCapture :=
  {| cap_path := cap_path cap; cap_src := cap_src cap; cap_pos := i |}.

(** [cap.read()]: the decoded frame as a new array, or nothing. *)
Definition read (cap : VideoCapture) : M (option loc * VideoCapture) :=
  emit (EvRead (cap_path cap) (cap_pos cap));;
  match cap_src cap ≫= fun v => frame_at v (cap_pos cap) with
  | Some a =>
      frame ← alloc a;
      mret (Some frame, set_pos_frames cap (cap_pos cap + 1))
  | None => mret (None, cap)
  end.

(** [main.read_frame] *)
Definition read_frame (fs : filesystem) (path : string) (frame_idx : Z) : M loc :=
  let cap := open_capture fs path in
  if negb (isOpened cap) then
    raise (RuntimeError ("Cannot open video: " +:+ path))
  else
    let cap := set_pos_frames cap frame_idx in
    '(frame, cap) ← read cap;
    match frame with
    | None => raise (RuntimeError ("Could not grab frame " +:+ pretty frame_idx))
    | Some frame => mret frame
    end.

End Capture.

(** ** The Flask backend *)

(** Values of the request fields the endpoints read.  Numbers are
    integers; objects do not occur as field values. *)
#[local] Unset Elimination Schemes.
Inductive json :=
  | JNull
  | JInt (n : Z)
  | JStr (s : string)
  | JList (l : list json).
#[local] Set Elimination Schemes.

(** [len(v)] *)
Definition py_len (v : json) : result Z :=
  match v with
  | JList l => Ok (Z.of_nat (length l))
  | JStr s => Ok (Z.of_nat (String.length s))
  | _ => Raise TypeError
  end.

(** The items [for x in v] runs through. *)
Definition py_iter (v : json) : result (list json) :=
  match v with
  | JList l => Ok l
  | JStr s => Ok (map (fun c => JStr (String c EmptyString)) (list_ascii_of_string s))
  | _ => Raise TypeError
  end.

Record analysis := {
  a_frame_index : json;
  a_has_pose : bool;
  a_keypoints : list keypoint;
  a_annotated_image : string
}.

(** What [jsonify] is given. *)
Inductive payload :=
  | PError (error : string)
  | PFrame (frame_index : N) (image : string)
  | PAnalysis (a : analysis)
  | PResults (results : list analysis).

(** A response: the payload and the HTTP status. *)
Definition response : Type := payload * Z.

Definition UPLOAD_FOLDER : string := "uploads".

(** [os.path.join(a, b)] for a relative [b]. *)
Definition path_join (a b : string) : string := a +:+ "/" +:+ b.

Definition data_url (b64 : string) : string := "data:image/jpeg;base64," +:+ b64.

(** [werkzeug.utils.secure_filename] and the [mp_pose.Pose] constructor
    (arguments [static_image_mode] and [model_complexity]). *)
Class Libraries := {
  secure_filename : string -> string;
  mp_pose_Pose : bool -> Z -> Pose
}.

Section Backend.
Context `{OpenCV} `{VideoSource} `{Libraries}.

(** [os.path.exists(path)] *)
Definition path_exists (fs : filesystem) (path : string) : bool :=
  bool_decide (is_Some (fs !! path)).

(** [cap.set(cv2.CAP_PROP_POS_FRAMES, v)] with a value taken from the
    request: only a number is accepted. *)
Definition cap_set (cap : VideoCapture) (v : json) : result VideoCapture :=
  match v with
  | JInt i => Ok (set_pos_frames cap i)
  | _ => Raise TypeError
  end.

(** [GET /api/video/<filename>/frame/<int:frame_index>] *)
Definition get_frame (fs : filesystem) (filename : string) (frame_index : N) : M response :=
  let filepath := path_join UPLOAD_FOLDER (secure_filename filename) in
  if negb (path_exists fs filepath) then
    mret (PError "Video not found", 404)
  else
    let cap := open_capture fs filepath in
    let cap := set_pos_frames cap (Z.of_N frame_index) in
    '(frame, cap) ← read cap;
    match frame with
    | None => mret (PError "Frame not found", 404)
    | Some frame =>
        a ← load frame;
        mret (PFrame frame_index (data_url (jpg_base64 a)), 200)
    end.

(** [POST /api/video/<filename>/analyze] *)
Definition analyze_frame_endpoint (fs : filesystem) (filename : string)
    (data : gmap string json) : M response :=
  let frame_index := default (JInt 0) (data !! "frame_index") in
  let filepath := path_join UPLOAD_FOLDER (secure_filename filename) in
  if negb (path_exists fs filepath) then
    mret (PError "Video not found", 404)
  else
    let cap := open_capture fs filepath in
    cap ← lift (cap_set cap frame_index);
    '(frame, cap) ← read cap;
    match frame with
    | None => mret (PError "Frame not found", 404)
    | Some frame =>
        let pose := mp_pose_Pose true 2 in
        '(annotated_frame, keypoints, has_pose) ← analyze_frame frame pose;
        a ← load annotated_frame;
        mret (PAnalysis {| a_frame_index := frame_index;
                           a_has_pose := has_pose;
                           a_keypoints := keypoints;
                           a_annotated_image := data_url (jpg_base64 a) |}, 200)
    end.

(** The loop of [analyze_batch_frames] over the requested indices. *)
Fixpoint batch_loop (cap : VideoCapture) (pose : Pose) (frame_indices : list json)
    (results : list analysis) : M (list analysis) :=
  match frame_indices with
  | [] => mret results
  | frame_index :: rest =>
      cap ← lift (cap_set cap frame_index);
      '(frame, cap) ← read cap;
      match frame with
      | Some frame =>
          '(annotated_frame, keypoints, has_pose) ← analyze_frame frame pose;
          a ← load annotated_frame;
          batch_loop cap pose rest
            (results ++ [ {| a_frame_index := frame_index;
                             a_has_pose := has_pose;
                             a_keypoints := keypoints;
                             a_annotated_image := data_url (jpg_base64 a) |} ])
      | None => batch_loop cap pose rest results
      end
  end.

(** [POST /api/video/<filename>/analyze-batch] *)
Definition analyze_batch_frames (fs : filesystem) (filename : string)
    (data : gmap string json) : M response :=
  let frame_indices := default (JList []) (data !! "frame_indices") in
  let filepath := path_join UPLOAD_FOLDER (secure_filename filename) in
  if negb (path_exists fs filepath) then
    mret (PError "Video not found", 404)
  else
    n ← lift (py_len frame_indices);
    if 50 <? n then
      mret (PError "Too many frames (max 50)", 400)
    else
      let cap := open_capture fs filepath in
      let pose := mp_pose_Pose true 2 in
      items ← lift (py_iter frame_indices);
      results ← batch_loop cap pose items [];
      mret (PResults results, 200).

End Backend.

(** ** Vocabulary of the statements *)

(** One call to a drawing primitive, as the loops issue them. *)
Inductive draw_op :=
  | DLine (pt1 pt2 : Z * Z)
  | DCircle (center : Z * Z).

(** What one pass through the body of the connection loop decides:
    an exception, nothing to draw, or one segment. *)
Definition connection_step (landmark : list landmark) (w h : Z)
    (connection : PoseLandmark * PoseLandmark) : result (option draw_op) :=
  start_point ← getitem landmark (value (fst connection));
  end_point ← getitem landmark (value (snd connection));
  if visible start_point && visible end_point then
    start ← pixel_of start_point w h;
    end_ ← pixel_of end_point w h;
    mret (Some (DLine start end_))
  else mret None.

(** The same for the body of the joint loop. *)
Definition landmark_step (landmark : list landmark) (w h : Z)
    (landmark_idx : PoseLandmark) : result (option draw_op) :=
  lm ← getitem landmark (value landmark_idx);
  if visible lm then
    xy ← pixel_of lm w h;
    mret (Some (DCircle xy))
  else mret None.

(** The calls a loop issues up to its end or to its first exception. *)
Fixpoint plan {A} (step : A -> result (option draw_op)) (l : list A)
    : list draw_op * option exn :=
  match l with
  | [] => ([], None)
  | a :: l' =>
      match step a with
      | Raise e => ([], Some e)
      | Ok o =>
          let '(ops, err) := plan step l' in
          (match o with Some op => op :: ops | None => ops end, err)
      end
  end.

Definition event_of (buf : loc) (op : draw_op) : event :=
  match op with
  | DLine pt1 pt2 => EvLine buf pt1 pt2 RED 2
  | DCircle center => EvCircle buf center 3 GREEN (-1)
  end.

Definition outcome (err : option exn) : result unit :=
  match err with
  | None => Ok tt
  | Some e => Raise e
  end.

Section Painting.
Context `{OpenCV}.

Definition paint1 (a : ndarray) (op : draw_op) : ndarray :=
  match op with
  | DLine pt1 pt2 => cv2_line a pt1 pt2 RED 2
  | DCircle center => cv2_circle a center 3 GREEN (-1)
  end.

Definition paint (a : ndarray) (ops : list draw_op) : ndarray :=
  fold_left paint1 ops a.

Definition perform (buf : loc) (op : draw_op) : M unit :=
  match op with
  | DLine pt1 pt2 => line buf pt1 pt2 RED 2
  | DCircle center => circle buf center 3 GREEN (-1)
  end.

(** The state after the calls [ops] on the buffer [buf]. *)
Definition painted (buf : loc) (a : ndarray) (ops : list draw_op) (s : state) : state :=
  {| heap := <[buf := paint a ops]> (heap s);
     trace := trace s ++ map (event_of buf) ops |}.

End Painting.

(** The calls one table entry contributes. *)
Definition step_ops {A} (step : A -> result (option draw_op)) (a : A) : list draw_op :=
  match step a with
  | Ok (Some op) => [op]
  | _ => []
  end.

(** Both loops in sequence: the calls issued, and the exception that
    stopped them if one did. *)
Definition rendering (landmark : list landmark) (w h : Z) : list draw_op * option exn :=
  let '(segments, err) := plan (connection_step landmark w h) SIMPLE_CONNECTIONS in
  match err with
  | Some e => (segments, Some e)
  | None =>
      let '(markers, err') := plan (landmark_step landmark w h) KEY_LANDMARKS in
      (segments ++ markers, err')
  end.

(** The reference of the RGB copy and of the annotated copy, and the
    state once the pose model has run and the frame has been copied. *)
Definition staged (a : ndarray) (s : state) : loc * loc * state :=
  let image_rgb := fresh (dom (heap s)) in
  let heap1 := <[image_rgb := BGR2RGB a]> (heap s) in
  let annotated := fresh (dom heap1) in
  (image_rgb, annotated,
   {| heap := <[annotated := a]> heap1;
      trace := trace s ++ [EvProcess (BGR2RGB a)] |}).

(** The entry [keypoint_of] builds once width and height convert. *)
Definition scaled (fw fh : spec_float) (lm : landmark) : keypoint :=
  {| kp_x := PyFloat.mul (lm_x lm) fw;
     kp_y := PyFloat.mul (lm_y lm) fh;
     kp_z := PyFloat.mul (lm_z lm) fw;
     kp_visibility := lm_visibility lm |}.

(** The buffer a drawing call writes to. *)
Definition target (ev : event) : option loc :=
  match ev with
  | EvLine buf _ _ _ _ | EvCircle buf _ _ _ _ => Some buf
  | _ => None
  end.

(** What a run [r] of a renderer from the state [s] owes to its input
    [frame]: the contents of the input are as before, every drawing
    call goes to an array that did not exist before the run, and the
    annotated frame handed back is such a new array. *)
Definition leaves_input {A} (annotated_of : A -> loc) (frame : loc) (s : state)
    (r : result A * state) : Prop :=
  heap (snd r) !! frame = heap s !! frame /\
  (exists evs, trace (snd r) = trace s ++ evs /\
     forall ev buf, In ev evs -> target ev = Some buf ->
       buf <> frame /\ heap s !! buf = None) /\
  (forall v, fst r = Ok v ->
     annotated_of v <> frame /\ heap s !! annotated_of v = None /\
     is_Some (heap (snd r) !! annotated_of v)).




(** The pixel coordinate as the specification states it:
    [x_px = round(x * W)], [y_px = round(y * H)].  Not what the program
    computes; kept for comparison with [pixel_of]. *)
Definition spec_pixel_of (p : landmark) (w h : Z) : result (Z * Z) :=
  fx ← PyFloat.mul_int (lm_x p) w;
  px ← PyFloat.round_nearest fx;
  fy ← PyFloat.mul_int (lm_y p) h;
  py ← PyFloat.round_nearest fy;
  mret (px, py).

(** [pt] is the landmark position scaled to the frame, each coordinate
    cut towards zero. *)
Definition truncated_pixel (lm : landmark) (w h : Z) (pt : Z * Z) : Prop :=
  exists fx fy,
    PyFloat.mul_int (lm_x lm) w = Ok fx /\
    PyFloat.mul_int (lm_y lm) h = Ok fy /\
    PyFloat.is_finite fx = true /\ PyFloat.is_finite fy = true /\
    fst pt = PyFloat.numer fx ÷ PyFloat.denom fx /\
    snd pt = PyFloat.numer fy ÷ PyFloat.denom fy.

(** The index the stream can deliver a frame for. *)
Definition readable `{VideoSource} (v : video) (i : Z) : bool :=
  match frame_at v i with
  | Some _ => true
  | None => false
  end.


(** ** A small world to run the model in *)

Module Demo.

(** Writing one pixel, clipped to the array. *)
Definition set_pixel (a : ndarray) (pt : Z * Z) (c : pixel) : ndarray :=
  let '(h, w) := shape a in
  let '(px, py) := pt in
  if (0 <=? px) && (px <? w) && (0 <=? py) && (py <? h) then
    {| shape := shape a; data := <[Z.to_nat (py * w + px) := c]> (data a) |}
  else a.

Definition show_pixel (p : pixel) : string :=
  let '(b, g, r) := p in pretty b +:+ "," +:+ pretty g +:+ "," +:+ pretty r +:+ ";".

(** A stand-in rasteriser: a segment marks its two end points, a
    disc its centre; the encoder lists the pixel values. *)
Definition cv : OpenCV :=
  {| cv2_line a pt1 pt2 color _ := set_pixel (set_pixel a pt1 color) pt2 color;
     cv2_circle a center _ color _ := set_pixel a center color;
     jpg_base64 a := String.concat "" (map show_pixel (data a)) |}.

Definition clip_frame_at (v : list ndarray) (i : Z) : option ndarray :=
  if i <? 0 then None else v !! Z.to_nat i.

Lemma clip_past_end (v : list ndarray) (i : Z) :
  Z.of_nat (length v) <= i -> clip_frame_at v i = None.
Proof.
  intros Hi. unfold clip_frame_at.
  destruct (i <? 0) eqn:E; [reflexivity|].
  apply lookup_ge_None_2. lia.
Qed.

Lemma clip_unopened (v : list ndarray) (i : Z) :
  bool_decide (v <> []) = false -> clip_frame_at v i = None.
Proof.
  intros Hv. apply bool_decide_eq_false in Hv.
  destruct v as [|a v]; [|exfalso; apply Hv; discriminate].
  unfold clip_frame_at. destruct (i <? 0); [reflexivity|apply lookup_nil].
Qed.

(** A container is the list of its frames; an empty one does not open. *)
Definition clips : VideoSource :=
  {| video := list ndarray;
     is_opened v := bool_decide (v <> []);
     frame_count v := Z.of_nat (length v);
     frame_at := clip_frame_at;
     frame_past_end := clip_past_end;
     frame_unopened := clip_unopened |}.

Definition at_rest (x y : spec_float) (vis : spec_float) : landmark :=
  {| lm_x := x; lm_y := y; lm_z := PyFloat.zero; lm_visibility := vis |}.

(** A full landmark list with every point at the frame centre. *)
Definition centred (vis : spec_float) : list landmark :=
  replicate NUM_LANDMARKS (at_rest PyFloat.half PyFloat.half vis).

(** A full list at the frame centre in which only the landmarks of
    even index are visible. *)
Definition half_seen : list landmark :=
  map (fun i => at_rest PyFloat.half PyFloat.half
                  (if Nat.even i then PyFloat.one else PyFloat.zero))
      (seq 0 NUM_LANDMARKS).

(** The float 3.0. *)
Definition three : spec_float := Eval vm_compute in PyFloat.of_scaled 3 0.

(** A pose model that answers the same for every image. *)
Definition fixed_pose (r : option (list landmark)) : Pose :=
  {| process _ := r |}.

Definition libs (r : option (list landmark)) : Libraries :=
  {| secure_filename name := name;
     mp_pose_Pose _ _ := fixed_pose r |}.

Definition black : pixel := (0, 0, 0).

(** A black frame of 3 by 3 pixels. *)
Definition frame3 : ndarray := {| shape := (3, 3); data := replicate 9 black |}.

(** One frame already decoded into the store. *)
Definition st0 : state := {| heap := {[ 0%nat := frame3 ]}; trace := [] |}.

Definition empty_state : state := {| heap := ∅; trace := [] |}.

(** An upload directory holding one clip of two frames. *)
Definition uploads : gmap string (@video clips) :=
  {[ "uploads/clip.mp4" := [frame3; frame3] ]}.

End Demo.

(** ** Vocabulary of the further statements *)

(** What rendering the contents [a] comes to, whatever the store: the
    pixels of the annotated frame, the keypoints and the flag, or the
    exception that ends the run. *)
Definition analysis_of `{OpenCV} (pose : Pose) (a : ndarray)
    : result (ndarray * list keypoint * bool) :=
  let '(h, w) := shape a in
  match process pose (BGR2RGB a) with
  | None => Ok (a, [], false)
  | Some landmark =>
      let '(ops, err) := rendering landmark w h in
      match err with
      | Some e => Raise e
      | None =>
          match map_result (keypoint_of w h) landmark with
          | Ok keypoints => Ok (paint a ops, keypoints, true)
          | Raise e => Raise e
          end
      end
  end.

(** Two runs of the backend renderer have the same outcome: the same
    exception, or the same keypoints and flag with annotated frames of
    equal contents. *)
Definition same_rendering (r1 r2 : result (loc * list keypoint * bool) * state) : Prop :=
  match fst r1, fst r2 with
  | Ok (ann1, kps1, flag1), Ok (ann2, kps2, flag2) =>
      kps1 = kps2 /\ flag1 = flag2 /\
      is_Some (heap (snd r1) !! ann1) /\
      heap (snd r1) !! ann1 = heap (snd r2) !! ann2
  | Raise e1, Raise e2 => e1 = e2
  | _, _ => False
  end.

(** ** Uploads *)

(** File names are strings of characters with code point below 256. *)

(** [c in s] for a one-character [c]. *)
Fixpoint contains_char (c : Ascii.ascii) (s : string) : bool :=
  match s with
  | EmptyString => false
  | String c' s' => Ascii.eqb c' c || contains_char c s'
  end.

(** The two sides of the last [sep] in [s], if there is one. *)
Fixpoint rsplit_last (sep : Ascii.ascii) (s : string) : option (string * string) :=
  match s with
  | EmptyString => None
  | String c s' =>
      match rsplit_last sep s' with
      | Some (head, tail) => Some (String c head, tail)
      | None => if Ascii.eqb c sep then Some (EmptyString, s') else None
      end
  end.

(** [s.rsplit(sep, 1)] *)
Definition rsplit1 (sep : Ascii.ascii) (s : string) : list string :=
  match rsplit_last sep s with
  | Some (head, tail) => [head; tail]
  | None => [s]
  end.

(** [c.lower()]: the capital letters A to Z, and the accented capitals
    of the upper half (all of 192 to 222 but the multiplication sign),
    move 32 places up. *)
Definition lower_char (c : Ascii.ascii) : Ascii.ascii :=
  let n := Ascii.nat_of_ascii c in
  if ((65 <=? n) && (n <=? 90))%nat
     || ((192 <=? n) && (n <=? 222) && negb (n =? 215))%nat
  then Ascii.ascii_of_nat (n + 32) else c.

(** [s.lower()] *)
Fixpoint py_lower (s : string) : string :=
  match s with
  | EmptyString => EmptyString
  | String c s' => String (lower_char c) (py_lower s')
  end.

Definition ALLOWED_EXTENSIONS : gset string :=
  {[ "mp4"; "avi"; "mov"; "mkv" ]}.

(** [web_app_backend.allowed_file] *)
Definition allowed_file (filename : string) : result bool :=
  if contains_char "."%char filename then
    ext ← getitem (rsplit1 "."%char filename) 1;
    mret (bool_decide (py_lower ext ∈ ALLOWED_EXTENSIONS))
  else mret false.

(** A part of a multipart request: the name the client gave and the
    bytes, here the container they decode to. *)
Record FileStorage `{VideoSource} := {
  fs_filename : string;
  fs_stream : video
}.

(** The capture properties the upload endpoint asks for. *)
Inductive cap_prop :=
  | CAP_PROP_FRAME_COUNT
  | CAP_PROP_FPS
  | CAP_PROP_FRAME_WIDTH
  | CAP_PROP_FRAME_HEIGHT.

(** What the decoder reports for an opened container. *)
Class VideoProperties `{VideoSource} := {
  get_property : video -> cap_prop -> spec_float
}.

(** Exceptions beyond those of the renderer. *)
Inductive py_exn :=
  | IsADirectoryError
  | ZeroDivisionError
  | Builtin (e : exn).

Inductive attempt (A : Type) :=
  | Done (a : A)
  | Failed (e : py_exn).
Arguments Done {A} a.
Arguments Failed {A} e.

(** A JSON number as Python has it: an int or a float. *)
Inductive number :=
  | NumInt (n : Z)
  | NumFloat (f : spec_float).

Record metadata := {
  m_filename : string;
  m_total_frames : Z;
  m_fps : spec_float;
  m_width : Z;
  m_height : Z;
  m_duration : number
}.

Inductive upload_payload :=
  | UError (error : string)
  | UMetadata (m : metadata).

(** [n / f] with [n] an int and [f] a float. *)
Definition truediv_int_float (n : Z) (f : spec_float) : attempt spec_float :=
  match PyFloat.of_int n with
  | Raise e => Failed (Builtin e)
  | Ok fn =>
      match f with
      | S754_zero _ => Failed ZeroDivisionError
      | _ => Done (SFdiv PyFloat.prec PyFloat.emax fn f)
      end
  end.

Definition lift_builtin {A} (r : result A) : attempt A :=
  match r with
  | Ok a => Done a
  | Raise e => Failed (Builtin e)
  end.

Definition attempt_bind {A B} (r : attempt A) (k : A -> attempt B)
    : attempt B :=
  match r with
  | Done a => k a
  | Failed e => Failed e
  end.

#[export] Instance attempt_ret : MRet attempt := fun A a => Done a.
#[export] Instance attempt_mbind : MBind attempt :=
  fun A B k r => attempt_bind r k.

Section Upload.
Context `{VideoProperties} `{Libraries}.

(** [cap.get(prop)]: 0.0 on a capture that is not opened. *)
Definition cap_get (cap : VideoCapture) (prop : cap_prop) : spec_float :=
  match cap_src cap with
  | Some v => if is_opened v then get_property v prop else PyFloat.zero
  | None => PyFloat.zero
  end.

(** [file.save(filepath)]: writes the file; a path that ends in the
    separator names a directory and cannot be written. *)
Definition save (file : FileStorage) (folder name : string) (fs : gmap string video)
    : attempt (gmap string video) :=
  match name with
  | EmptyString => Failed IsADirectoryError
  | _ => Done (<[path_join folder name := fs_stream file]> fs)
  end.

(** [POST /api/upload]: the response and the files on disk after it. *)
Definition upload_video (files : gmap string FileStorage) (fs : gmap string video)
    : attempt (upload_payload * Z) * gmap string video :=
  match files !! "video" with
  | None => (Done (UError "No video file", 400), fs)
  | Some file =>
      if String.eqb (fs_filename file) "" then
        (Done (UError "No file selected", 400), fs)
      else
        match allowed_file (fs_filename file) with
        | Raise e => (Failed (Builtin e), fs)
        | Ok false => (Done (UError "Invalid file type", 400), fs)
        | Ok true =>
            let filename := secure_filename (fs_filename file) in
            let filepath := path_join UPLOAD_FOLDER filename in
            match save file UPLOAD_FOLDER filename fs with
            | Failed e => (Failed e, fs)
            | Done fs' =>
                let cap := open_capture fs' filepath in
                (total_frames ← lift_builtin (PyFloat.to_int (cap_get cap CAP_PROP_FRAME_COUNT));
                 let fps := cap_get cap CAP_PROP_FPS in
                 width ← lift_builtin (PyFloat.to_int (cap_get cap CAP_PROP_FRAME_WIDTH));
                 height ← lift_builtin (PyFloat.to_int (cap_get cap CAP_PROP_FRAME_HEIGHT));
                 duration ← (if PyFloat.gt fps PyFloat.zero
                             then d ← truediv_int_float total_frames fps;
                                  mret (NumFloat d)
                             else mret (NumInt 0));
                 mret (UMetadata {| m_filename := filename;
                                    m_total_frames := total_frames;
                                    m_fps := fps;
                                    m_width := width;
                                    m_height := height;
                                    m_duration := duration |}, 200),
                 fs')
            end
        end
  end.

End Upload.

Section Describe.
Context `{VideoProperties}.

(** The part of [upload_video] after the file is written. *)
Definition describe (filename : string) (cap : VideoCapture)
    : attempt (upload_payload * Z) :=
  total_frames ← lift_builtin (PyFloat.to_int (cap_get cap CAP_PROP_FRAME_COUNT));
  let fps := cap_get cap CAP_PROP_FPS in
  width ← lift_builtin (PyFloat.to_int (cap_get cap CAP_PROP_FRAME_WIDTH));
  height ← lift_builtin (PyFloat.to_int (cap_get cap CAP_PROP_FRAME_HEIGHT));
  duration ← (if PyFloat.gt fps PyFloat.zero
              then d ← truediv_int_float total_frames fps;
                   mret (NumFloat d)
              else mret (NumInt 0));
  mret (UMetadata {| m_filename := filename;
                     m_total_frames := total_frames;
                     m_fps := fps;
                     m_width := width;
                     m_height := height;
                     m_duration := duration |}, 200).

End Describe.

(** ** A decoder with properties, to run the upload endpoint *)

Module Studio.

(** The float of a small natural number. *)
Definition float_of_nat (n : nat) : spec_float := PyFloat.of_scaled (Z.of_nat n) 0.

(** Clips play at 25 frames per second; the size is that of the first
    frame. *)
Definition clip_property (v : list ndarray) (prop : cap_prop) : spec_float :=
  match prop with
  | CAP_PROP_FRAME_COUNT => float_of_nat (length v)
  | CAP_PROP_FPS => float_of_nat 25
  | CAP_PROP_FRAME_WIDTH =>
      match v with a :: _ => PyFloat.of_scaled (snd (shape a)) 0 | [] => PyFloat.zero end
  | CAP_PROP_FRAME_HEIGHT =>
      match v with a :: _ => PyFloat.of_scaled (fst (shape a)) 0 | [] => PyFloat.zero end
  end.

Definition props : @VideoProperties Demo.clips :=
  @Build_VideoProperties Demo.clips clip_property.


(** A request whose file has no allowed extension. *)
Definition text_upload : @FileStorage Demo.clips :=
  @Build_FileStorage Demo.clips "notes.txt" [].

(** A file with an allowed name that is not a video. *)
Definition broken_upload : @FileStorage Demo.clips :=
  @Build_FileStorage Demo.clips "broken.avi" [].

End Studio.

(** ** The desktop tool *)

(** [a / b] on two ints: the quotient, correctly rounded. *)
Definition truediv_int_int (a b : Z) : attempt spec_float :=
  match b with
  | Z0 => Failed ZeroDivisionError
  | _ =>
      match a with
      | Z0 => Done (S754_zero (b <? 0))
      | _ =>
          let '(q, e, l) :=
            SFdiv_core_binary PyFloat.prec PyFloat.emax (Z.abs a) 0 (Z.abs b) 0 in
          match binary_round_aux PyFloat.prec PyFloat.emax
                  (xorb (a <? 0) (b <? 0)) q e l with
          | S754_infinity _ => Failed (Builtin OverflowError)
          | f => Done f
          end
      end
  end.

Fixpoint zeros (n : nat) : string :=
  match n with
  | O => ""
  | S n' => String "0" (zeros n')
  end.

(** [f"{n:05d}"] *)
Definition format_05d (n : Z) : string :=
  if n <? 0 then
    let digits := pretty (- n) in
    "-" +:+ zeros (4 - String.length digits) +:+ digits
  else
    let digits := pretty n in
    zeros (5 - String.length digits) +:+ digits.

(** What the tool does to the screen, the disk and the terminal. *)
Inductive ui_event :=
  | UiPrint (line : string)
  | UiPutText (img : loc) (text : string) (org : Z * Z)
  | UiRectangle (img : loc) (pt1 pt2 : Z * Z) (color : pixel) (thickness : Z)
  | UiShow (window : string) (contents : ndarray)
  | UiWaitKey (delay : Z)
  | UiWrite (filename : string) (contents : ndarray)
  | UiDestroyAllWindows
  | UiInput (prompt : string).

(** The store, the record of what was shown, and the lines still to
    come on standard input ([None]: the read raises). *)
Record desk := { mem : state; screen : list ui_event; stdin : list (option string) }.

Definition D (A : Type) : Type := desk -> attempt A * desk.

#[export] Instance D_ret : MRet D := fun A a d => (Done a, d).
#[export] Instance D_bind : MBind D := fun A B k m d =>
  match m d with
  | (Done a, d') => k a d'
  | (Failed e, d') => (Failed e, d')
  end.

(** A computation on the store alone. *)
Definition on_store {A} (m : M A) : D A :=
  fun d => let '(r, s) := m (mem d) in
           (lift_builtin r, {| mem := s; screen := screen d; stdin := stdin d |}).

Definition attempted {A} (r : attempt A) : D A := fun d => (r, d).

Definition record (ev : ui_event) : D unit :=
  fun d => (Done tt, {| mem := mem d; screen := screen d ++ [ev]; stdin := stdin d |}).

(** [input(prompt)] *)
Definition input (prompt : string) : D (option string) :=
  fun d => match stdin d with
           | line :: rest =>
               (Done line, {| mem := mem d;
                              screen := screen d ++ [UiInput prompt];
                              stdin := rest |})
           | [] =>
               (Done None, {| mem := mem d;
                              screen := screen d ++ [UiInput prompt];
                              stdin := [] |})
           end.

Fixpoint for_each_D {A} (l : list A) (body : A -> D unit) : D unit :=
  match l with
  | [] => mret tt
  | a :: l' => body a ≫= fun _ => for_each_D l' body
  end.

(** [enumerate(l)] *)
Definition enumerate {A} (l : list A) : list (Z * A) :=
  zip (map Z.of_nat (seq 0 (length l))) l.

(** The screen and terminal functions the tool calls. *)
Class HighGUI := {
  (** [cv2.putText(img, text, org, font, scale, color, thickness)] on the contents *)
  cv2_putText : ndarray -> string -> Z * Z -> Z -> spec_float -> pixel -> Z -> ndarray;
  (** [cv2.rectangle(img, pt1, pt2, color, thickness)] *)
  cv2_rectangle : ndarray -> Z * Z -> Z * Z -> pixel -> Z -> ndarray;
  (** [f"{x:.2f}"] *)
  format_2f : spec_float -> string;
  (** [int(s)] on a string: nothing when it raises ValueError *)
  int_of_str : string -> option Z;
  (** [str(np.array(rows))] *)
  str_array : list (spec_float * spec_float * spec_float) -> string
}.

Definition VIDEO_PATH : string := "./video2.mp4".
Definition USE_INTERACTIVE_PICKER : bool := true.
Definition FRAME_INDEX : Z := 895.

Definition WHITE : pixel := (255, 255, 255).
Definition FONT_HERSHEY_SIMPLEX : Z := 0.

(** The float 0.6. *)
Definition six_tenths : spec_float := S754_finite false 5404319552844595 (-53).

Definition NL : string := String (Ascii.ascii_of_nat 10) "".

Definition WINDOW : string := "Video Frame Picker - Press 'a' to analyze, 'q' to quit".

Definition CONTROLS : string :=
  "Controls: [Space]Play [,/.]Nav [-]/[=]Jump10 [a]Analyze [t]Toggle [q]Quit".

(** The local variables of [pick_frame_interactive]. *)
Record picker := {
  current_frame : Z;
  playing : bool;
  show_overlay : bool;
  selected_frame : option Z
}.

(** How a turn of the loop ends. *)
Inductive flow :=
  | Continue (p : picker)
  | Break (p : picker).

Definition with_frame (p : picker) (n : Z) : picker :=
  {| current_frame := n; playing := false;
     show_overlay := show_overlay p; selected_frame := selected_frame p |}.

(** The auto-advance at the end of a turn. *)
Definition advance (total_frames : Z) (p : picker) : picker :=
  if playing p then
    let next := current_frame p + 1 in
    {| current_frame := if total_frames <=? next then 0 else next;
       playing := playing p;
       show_overlay := show_overlay p;
       selected_frame := selected_frame p |}
  else p.

Section Desktop.
Context `{OpenCV} `{HighGUI} `{VideoProperties} `{Libraries}.

Definition print (line : string) : D unit := record (UiPrint line).

Definition putText (img : loc) (text : string) (org : Z * Z) : D unit :=
  a ← on_store (load img);
  on_store (store img (cv2_putText a text org FONT_HERSHEY_SIMPLEX six_tenths GREEN 2));;
  record (UiPutText img text org).

Definition rectangle (img : loc) (pt1 pt2 : Z * Z) (color : pixel) (thickness : Z) : D unit :=
  a ← on_store (load img);
  on_store (store img (cv2_rectangle a pt1 pt2 color thickness));;
  record (UiRectangle img pt1 pt2 color thickness).

Definition imshow (window : string) (img : loc) : D unit :=
  a ← on_store (load img); record (UiShow window a).

Definition imwrite (filename : string) (img : loc) : D unit :=
  a ← on_store (load img); record (UiWrite filename a).

(** The info text, the frame bar and the [imshow] of the picker. *)
Definition draw_info (display : loc) (current total_frames : Z) (fps : spec_float)
    (overlay_status : string) : D unit :=
  a ← on_store (load display);
  let '(h, w) := shape a in
  seconds ← attempted (truediv_int_float current fps);
  let info_text :=
    [ "Frame: " +:+ pretty current +:+ "/" +:+ pretty total_frames;
      "Time: " +:+ format_2f seconds +:+ "s";
      "Pose Overlay: " +:+ overlay_status;
      CONTROLS ] in
  for_each_D (enumerate info_text)
    (fun '(i, text) => putText display text (10, 30 + i * 25));;
  ratio ← attempted (truediv_int_int current total_frames);
  filled ← attempted (lift_builtin (PyFloat.mul_int ratio w));
  bar_width ← attempted (lift_builtin (PyFloat.to_int filled));
  rectangle display (0, h - 10) (bar_width, h) GREEN (-1);;
  rectangle display (0, h - 10) (w, h) WHITE 2;;
  imshow WINDOW display.

(** The first half of a turn: seek, read, build the display. *)
Definition present (cap : VideoCapture) (pose : Pose) (total_frames : Z)
    (fps : spec_float) (p : picker) : D (option loc) :=
  '(frame, _) ← on_store (read (set_pos_frames cap (current_frame p)));
  match frame with
  | None => mret None
  | Some frame =>
      display ← (if show_overlay p then
                   '(annotated_frame, has_pose) ←
                     (on_store (analyze_and_annotate_frame frame pose) : D (loc * bool));
                   if has_pose : bool then mret annotated_frame
                   else on_store (copy frame)
                 else on_store (copy frame));
      draw_info display (current_frame p) total_frames fps
        (if show_overlay p then "ON" else "OFF");;
      mret (Some frame)
  end.

(** The [g] command: ask for a frame number. *)
Definition go_to (total_frames : Z) (p : picker) : D picker :=
  record UiDestroyAllWindows;;
  frame_input ← input (NL +:+ "Enter frame number (0-" +:+ pretty (total_frames - 1) +:+ "): ");
  match frame_input with
  | None => mret p
  | Some text =>
      match int_of_str text with
      | None => print "Invalid input. Please enter a number.";; mret p
      | Some frame_num =>
          if (0 <=? frame_num) && (frame_num <? total_frames) then
            mret (with_frame p frame_num)
          else
            print ("Invalid frame number. Must be between 0 and "
                   +:+ pretty (total_frames - 1));;
            mret p
      end
  end.

(** The [a] command: analyze the frame on display and save it. *)
Definition analyze_and_save (pose : Pose) (total_frames : Z) (fps : spec_float)
    (frame : loc) (p : picker) : D picker :=
  '(annotated_frame, has_pose) ←
    (on_store (analyze_and_annotate_frame frame pose) : D (loc * bool));
  if has_pose : bool then
    let output_filename := "frame_" +:+ format_05d (current_frame p) +:+ ".jpg" in
    imwrite output_filename annotated_frame;;
    print ("Analyzed and saved frame " +:+ pretty (current_frame p)
           +:+ " to " +:+ output_filename);;
    draw_info annotated_frame (current_frame p) total_frames fps "ON";;
    mret {| current_frame := current_frame p; playing := playing p;
            show_overlay := true; selected_frame := selected_frame p |}
  else
    print ("No pose detected in frame " +:+ pretty (current_frame p));;
    mret p.

(** The second half of a turn: the key and what it commands. *)
Definition on_key (pose : Pose) (total_frames : Z) (fps : spec_float)
    (frame : loc) (raw : Z) (p : picker) : D flow :=
  let key := Z.land raw 255 in
  if (key =? 113) || (key =? 27) then
    mret (Break {| current_frame := current_frame p; playing := playing p;
                   show_overlay := show_overlay p;
                   selected_frame := Some (current_frame p) |})
  else
    p' ← (if (key =? 32) || (key =? 13) then
            mret {| current_frame := current_frame p; playing := negb (playing p);
                    show_overlay := show_overlay p;
                    selected_frame := selected_frame p |}
          else if key =? 97 then analyze_and_save pose total_frames fps frame p
          else if key =? 116 then
            print ("Pose overlay: " +:+ (if negb (show_overlay p) then "ON" else "OFF"));;
            mret {| current_frame := current_frame p; playing := playing p;
                    show_overlay := negb (show_overlay p);
                    selected_frame := selected_frame p |}
          else if (key =? 91) || (key =? 44) then
            mret (with_frame p (Z.max 0 (current_frame p - 1)))
          else if (key =? 93) || (key =? 46) then
            mret (with_frame p (Z.min (total_frames - 1) (current_frame p + 1)))
          else if (key =? 45) || (key =? 95) then
            mret (with_frame p (Z.max 0 (current_frame p - 10)))
          else if (key =? 61) || (key =? 43) then
            mret (with_frame p (Z.min (total_frames - 1) (current_frame p + 10)))
          else if key =? 103 then go_to total_frames p
          else mret p);
    mret (Continue (advance total_frames p')).

(** The [while True] loop, fed with the values [waitKey] returns one
    after the other; it gives the variables at the exit and the values
    not yet consumed, or nothing when it is left waiting for a key
    that does not come. *)
Fixpoint picker_loop (cap : VideoCapture) (pose : Pose) (total_frames : Z)
    (fps : spec_float) (keys : list Z) (p : picker) : D (option (picker * list Z)) :=
  shown ← present cap pose total_frames fps p;
  match shown with
  | None => mret (Some (p, keys))
  | Some frame =>
      record (UiWaitKey (if playing p then 30 else 0));;
      match keys with
      | [] => mret None
      | raw :: keys' =>
          next ← on_key pose total_frames fps frame raw p;
          match next with
          | Break p' => mret (Some (p', keys'))
          | Continue p' => picker_loop cap pose total_frames fps keys' p'
          end
      end
  end.

(** [main.pick_frame_interactive]: the frame number returned and the
    key values left. *)
Definition pick_frame_interactive (fs : gmap string video) (video_path : string)
    (keys : list Z) : D (option (Z * list Z)) :=
  let cap := open_capture fs video_path in
  if negb (isOpened cap) then
    attempted (Failed (Builtin (RuntimeError ("Cannot open video: " +:+ video_path))))
  else
    total_frames ← attempted (lift_builtin (PyFloat.to_int (cap_get cap CAP_PROP_FRAME_COUNT)));
    let fps := cap_get cap CAP_PROP_FPS in
    let pose := mp_pose_Pose true 2 in
    print (NL +:+ "=== Video Frame Picker ===");;
    print ("Total frames: " +:+ pretty total_frames);;
    print ("FPS: " +:+ format_2f fps);;
    print (NL +:+ "Controls:");;
    print "  Space/Enter: Play/Pause";;
    print "  [,] or [.]: Previous/Next frame (single step)";;
    print "  [-] or [=]: Jump 10 frames backward/forward";;
    print "  'g': Go to specific frame number";;
    print "  'a': Analyze & save current frame (toggles overlay)";;
    print "  't': Toggle pose overlay on/off";;
    print "  'q' or ESC: Quit and return frame number";;
    print ("========================" +:+ NL);;
    ended ← picker_loop cap pose total_frames fps keys
               {| current_frame := 0; playing := false;
                  show_overlay := false; selected_frame := None |};
    match ended with
    | None => mret None
    | Some (p, rest) =>
        record UiDestroyAllWindows;;
        match selected_frame p with
        | Some n =>
            print (NL +:+ "Selected frame: " +:+ pretty n);; mret (Some (n, rest))
        | None => mret (Some (current_frame p, rest))
        end
    end.

(** [main.main] from [read_frame] on, with the key values the last
    [waitKey] still finds; nothing is returned when it waits for a
    key that does not come. *)
Definition show_frame (fs : gmap string video) (frame_index : Z) (keys : list Z)
    : D (option unit) :=
  frame ← on_store (read_frame fs VIDEO_PATH frame_index);
  image_rgb ← on_store (cvtColor_BGR2RGB frame);
  let pose := mp_pose_Pose true 2 in
  result ← on_store (pose_process pose image_rgb);
  match result with
  | None => print "No athlete detected.";; mret (Some tt)
  | Some landmark =>
      annotated ← on_store (copy frame);
      a ← on_store (load frame);
      let '(h, w) := shape a in
      on_store (for_each SIMPLE_CONNECTIONS (draw_connection landmark annotated w h));;
      on_store (for_each KEY_LANDMARKS (draw_landmark landmark annotated w h));;
      keypoints ← attempted (lift_builtin (main_keypoints landmark w h));
      print (str_array keypoints);;
      imshow "MediaPipe Pose" annotated;;
      record (UiWaitKey 0);;
      match keys with
      | [] => mret None
      | _ :: _ => record UiDestroyAllWindows;; mret (Some tt)
      end
  end.

(** [main.main] *)
Definition main (fs : gmap string video) (keys : list Z) : D (option unit) :=
  if USE_INTERACTIVE_PICKER then
    selected_frame ← pick_frame_interactive fs VIDEO_PATH keys;
    match selected_frame with
    | None => mret None
    | Some (frame_index, rest) => show_frame fs frame_index rest
    end
  else
    print ("Using predefined frame: " +:+ pretty FRAME_INDEX);;
    show_frame fs FRAME_INDEX keys.

End Desktop.

(** ** A screen and a keyboard to run the desktop tool *)

Module Desk.

(** Reading a decimal numeral: digits only. *)
Fixpoint digits_value (s : string) (acc : Z) : option Z :=
  match s with
  | EmptyString => Some acc
  | String c s' =>
      let n := Z.of_nat (Ascii.nat_of_ascii c) in
      if (48 <=? n) && (n <=? 57) then digits_value s' (10 * acc + (n - 48))
      else None
  end.

Definition read_int (s : string) : option Z :=
  match s with
  | EmptyString => None
  | _ => digits_value s 0
  end.

(** A stand-in screen: text marks the top left corner, a rectangle its
    two corners; floats are printed by their integer part. *)
Definition gui : HighGUI :=
  {| cv2_putText a text org _ _ color _ := Demo.set_pixel a (0, 0) color;
     cv2_rectangle a pt1 pt2 color _ :=
       Demo.set_pixel (Demo.set_pixel a pt1 color) pt2 color;
     format_2f f := match PyFloat.to_int f with
                    | Ok n => pretty n +:+ ".??"
                    | Raise _ => "nan"
                    end;
     int_of_str := read_int;
     str_array rows := pretty (length rows) +:+ " rows" |}.

Definition half_seen_libs : Libraries := Demo.libs (Some Demo.half_seen).

(** The clip of two frames as the only file, nothing typed yet. *)
Definition start (typed : list (option string)) : desk :=
  {| mem := Demo.empty_state; screen := []; stdin := typed |}.

Definition run (keys : list Z) (typed : list (option string))
    : attempt (option (Z * list Z)) * desk :=
  @pick_frame_interactive Demo.cv gui Demo.clips Studio.props half_seen_libs
    Demo.uploads "uploads/clip.mp4" keys (start typed).

(** A decoder that reports a frame rate of zero. *)
Definition stalled : @VideoProperties Demo.clips :=
  @Build_VideoProperties Demo.clips
    (fun v prop => match prop with
                   | CAP_PROP_FPS => PyFloat.zero
                   | _ => Studio.clip_property v prop
                   end).

(** The working directory of the desktop tool: the same clip. *)
Definition disk : gmap string (@video Demo.clips) :=
  {[ VIDEO_PATH := [Demo.frame3; Demo.frame3] ]}.

Definition run_main (keys : list Z) (typed : list (option string))
    : attempt (option unit) * desk :=
  @main Demo.cv gui Demo.clips Studio.props half_seen_libs disk keys (start typed).

End Desk.

(** ** Vocabulary of the statements on the desktop tool *)

(** The outcome of a run from [d]: the desk it leaves is related to
    [d] by [R], and a value it returns satisfies [Q]. *)
Definition satisfies {A} (R : desk -> desk -> Prop) (m : D A)
    (Q : A -> desk -> Prop) (d : desk) : Prop :=
  R d (snd (m d)) /\ forall a, fst (m d) = Done a -> Q a (snd (m d)).

(** The list [field] of the desk has grown by entries that satisfy [P]. *)
Definition grows {E} (field : desk -> list E) (P : E -> Prop) (d d' : desk) : Prop :=
  exists evs, field d' = field d ++ evs /\ Forall P evs.

(** Anything but a call to the decoder. *)
Definition silent (ev : event) : Prop :=
  match ev with
  | EvRead _ _ => False
  | _ => True
  end.

(** A call to the decoder, if it is one, is on the file [path] at a
    position from 0 up to [total], excluded. *)
Definition seeks_within (path : string) (total : Z) (ev : event) : Prop :=
  match ev with
  | EvRead p pos => p = path /\ 0 <= pos < total
  | _ => True
  end.

(** Anything but an [imwrite]. *)
Definition quiet (ev : ui_event) : Prop :=
  match ev with
  | UiWrite _ _ => False
  | _ => True
  end.

(** Drawing on the buffer [display] and showing it: no other buffer
    changes, nothing is decoded, typed or written to disk. *)
Definition redraws (display : loc) (d d' : desk) : Prop :=
  trace (mem d') = trace (mem d) /\
  stdin d' = stdin d /\
  (forall l, l <> display -> heap (mem d') !! l = heap (mem d) !! l) /\
  grows screen quiet d d'.

(** [img] is what [analyze_and_annotate_frame] returns, with a pose
    found, for a frame of contents [a]. *)
Definition overlay_of `{OpenCV} (pose : Pose) (a img : ndarray) : Prop :=
  forall s frame, heap s !! frame = Some a ->
    exists annotated s',
      analyze_and_annotate_frame frame pose s = (Ok (annotated, true), s') /\
      heap s' !! annotated = Some img.

(** An [imwrite], if it is one, saves a frame of [v] with its overlay
    under the name made of the frame number. *)
Definition saves_overlay `{OpenCV} `{VideoSource} (v : video) (pose : Pose)
    (ev : ui_event) : Prop :=
  match ev with
  | UiWrite name img =>
      exists n a, frame_at v n = Some a /\
                  name = "frame_" +:+ format_05d n +:+ ".jpg" /\
                  overlay_of pose a img
  | _ => True
  end.

Definition in_range (total_frames : Z) (p : picker) : Prop :=
  0 <= current_frame p < total_frames.

(** What the tool may do between two desks: call the decoder or the
    model as [P] allows, and write only frames of [v] with their
    overlay. *)
Definition behaves `{OpenCV} `{VideoSource} (P : event -> Prop) (v : video)
    (pose : Pose) (d d' : desk) : Prop :=
  grows (fun d => trace (mem d)) P d d' /\
  grows screen (saves_overlay v pose) d d'.

(** Where the loop of the picker stands when it is left: on the frame
    the user selected, which was on display, or on a frame that could
    not be read. *)
Definition left_on `{VideoSource} (v : video) (p : picker) : Prop :=
  match selected_frame p with
  | Some n => n = current_frame p /\ is_Some (frame_at v n)
  | None => frame_at v (current_frame p) = None
  end.

(** A string that does not begin with a zero or a minus sign. *)
Definition leading (s : string) : Prop :=
  match s with
  | EmptyString => True
  | String c _ => c <> "0"%char /\ c <> "-"%char
  end.

(** An external call that is a read of the decoder. *)
Definition decodes (ev : event) : Prop :=
  match ev with
  | EvRead _ _ => True
  | _ => False
  end.

(** A key value that commands neither [a] nor [t]. *)
Definition browsing (raw : Z) : bool :=
  negb ((Z.land raw 255 =? 97) || (Z.land raw 255 =? 116)).

(** * Proofs *)

(** ** The two drawing loops *)

Ltac run_monad :=
  unfold mbind, M_bind, mret, M_ret, lift, raise, emit, alloc, load, store in *;
  simpl in *.

Lemma state_eta (s : state) : {| heap := heap s; trace := trace s |} = s.
Proof. destruct s; reflexivity. Qed.

Section PaintingFacts.
Context `{OpenCV}.

Lemma painted_nil buf a s :
  heap s !! buf = Some a -> painted buf a [] s = s.
Proof.
  intros Hb. unfold painted. simpl.
  rewrite insert_id by exact Hb. rewrite app_nil_r. apply state_eta.
Qed.

Lemma painted_cons buf a op ops s :
  painted buf a (op :: ops) s
  = painted buf (paint1 a op) ops
      {| heap := <[buf := paint1 a op]> (heap s);
         trace := trace s ++ [event_of buf op] |}.
Proof.
  unfold painted. simpl. rewrite insert_insert_eq.
  rewrite <- app_assoc. reflexivity.
Qed.

Lemma perform_run buf a op s :
  heap s !! buf = Some a ->
  perform buf op s
  = (Ok tt, {| heap := <[buf := paint1 a op]> (heap s);
               trace := trace s ++ [event_of buf op] |}).
Proof.
  intros Hb. destruct op; unfold perform, line, circle; run_monad;
    rewrite Hb; reflexivity.
Qed.

Lemma draw_connection_step landmark annotated w h connection s :
  draw_connection landmark annotated w h connection s
  = match connection_step landmark w h connection with
    | Raise e => (Raise e, s)
    | Ok None => (Ok tt, s)
    | Ok (Some op) => perform annotated op s
    end.
Proof.
  unfold draw_connection, connection_step. run_monad.
  unfold result_mbind, result_bind.
  destruct (getitem landmark (value connection.1)) as [sp|]; [|reflexivity].
  destruct (getitem landmark (value connection.2)) as [ep|]; [|reflexivity].
  destruct (visible sp && visible ep); [|reflexivity].
  destruct (pixel_of sp w h) as [p1|]; [|reflexivity].
  destruct (pixel_of ep w h) as [p2|]; reflexivity.
Qed.

Lemma draw_landmark_step landmark annotated w h idx s :
  draw_landmark landmark annotated w h idx s
  = match landmark_step landmark w h idx with
    | Raise e => (Raise e, s)
    | Ok None => (Ok tt, s)
    | Ok (Some op) => perform annotated op s
    end.
Proof.
  unfold draw_landmark, landmark_step. run_monad.
  unfold result_mbind, result_bind.
  destruct (getitem landmark (value idx)) as [lm|]; [|reflexivity].
  destruct (visible lm); [|reflexivity].
  destruct (pixel_of lm w h) as [p|]; reflexivity.
Qed.

(** A loop whose body follows [step] issues the calls of [plan]. *)
Lemma for_each_plan {A} (step : A -> result (option draw_op)) (body : A -> M unit) buf :
  (forall a s, body a s = match step a with
                          | Raise e => (Raise e, s)
                          | Ok None => (Ok tt, s)
                          | Ok (Some op) => perform buf op s
                          end) ->
  forall l a s,
    heap s !! buf = Some a ->
    for_each l body s
    = (outcome (snd (plan step l)), painted buf a (fst (plan step l)) s).
Proof.
  intros Hbody. induction l as [|x l IH]; intros a s Hb.
  - simpl. rewrite painted_nil by exact Hb. reflexivity.
  - simpl. unfold mbind, M_bind. rewrite Hbody.
    destruct (step x) as [[op|]|e].
    + rewrite (perform_run _ a) by exact Hb.
      rewrite (IH (paint1 a op)) by (simpl; apply lookup_insert_eq).
      destruct (plan step l) as [ops err]. simpl.
      rewrite painted_cons. reflexivity.
    + rewrite (IH a) by exact Hb.
      destruct (plan step l) as [ops err]. reflexivity.
    + simpl. rewrite painted_nil by exact Hb. reflexivity.
Qed.

End PaintingFacts.

Section RendererFacts.
Context `{OpenCV}.

Lemma painted_app buf a ops1 ops2 s :
  painted buf (paint a ops1) ops2 (painted buf a ops1 s)
  = painted buf a (ops1 ++ ops2) s.
Proof.
  unfold painted, paint. simpl.
  rewrite insert_insert_eq, fold_left_app, map_app, app_assoc. reflexivity.
Qed.

Lemma painted_lookup buf a ops s :
  heap (painted buf a ops s) !! buf = Some (paint a ops).
Proof. simpl. apply lookup_insert_eq. Qed.

Lemma painted_lookup_ne buf a ops s l :
  l <> buf -> heap (painted buf a ops s) !! l = heap s !! l.
Proof. intros Hne. simpl. apply lookup_insert_ne. congruence. Qed.

Lemma staged_fresh a s :
  let '(image_rgb, annotated, s1) := staged a s in
  heap s !! image_rgb = None /\ heap s !! annotated = None /\
  image_rgb <> annotated /\
  heap s1 !! annotated = Some a /\
  heap s1 !! image_rgb = Some (BGR2RGB a) /\
  forall l, l <> image_rgb -> l <> annotated -> heap s1 !! l = heap s !! l.
Proof.
  unfold staged. simpl.
  set (l1 := fresh (dom (heap s))).
  set (l2 := fresh (dom (<[l1 := BGR2RGB a]> (heap s)))).
  assert (H1 : heap s !! l1 = None).
  { apply not_elem_of_dom. apply is_fresh. }
  assert (H2 : (<[l1 := BGR2RGB a]> (heap s)) !! l2 = None).
  { apply not_elem_of_dom. apply is_fresh. }
  assert (Hne : l1 <> l2).
  { intros E. rewrite <- E, lookup_insert_eq in H2. discriminate. }
  rewrite lookup_insert_ne in H2 by exact Hne.
  repeat split; try assumption.
  - apply lookup_insert_eq.
  - rewrite lookup_insert_ne by congruence. apply lookup_insert_eq.
  - intros l Hl1 Hl2. rewrite !lookup_insert_ne by congruence. reflexivity.
Qed.

Lemma staged_frame frame a s :
  heap s !! frame = Some a ->
  frame <> (staged a s).1.1 /\ frame <> (staged a s).1.2 /\
  heap (staged a s).2 !! frame = Some a.
Proof.
  intros Hf. pose proof (staged_fresh a s) as Hs.
  destruct (staged a s) as [[l1 l2] s1]. simpl.
  destruct Hs as (H1 & H2 & _ & _ & _ & Hother).
  assert (frame <> l1) by congruence.
  assert (frame <> l2) by congruence.
  repeat split; try assumption. rewrite Hother; assumption.
Qed.

(** The steps both renderers share, up to the test on the result. *)
Lemma prologue_run {A} frame pose a s (k : option (list landmark) -> loc -> ndarray -> M A) :
  heap s !! frame = Some a ->
  (image_rgb ← cvtColor_BGR2RGB frame;
   result ← pose_process pose image_rgb;
   annotated ← copy frame;
   b ← load frame;
   k result annotated b) s
  = k (process pose (BGR2RGB a)) (staged a s).1.2 a (staged a s).2.
Proof.
  intros Hf.
  pose proof (staged_frame frame a s Hf) as (Hn1 & Hn2 & Hf').
  unfold staged in *. simpl in *.
  unfold cvtColor_BGR2RGB, pose_process, copy. run_monad.
  rewrite Hf. simpl. rewrite lookup_insert_eq. simpl.
  rewrite lookup_insert_ne by congruence. rewrite Hf. simpl.
  rewrite Hf'. reflexivity.
Qed.

Lemma loops_run {B} landmark annotated w h a s (k : unit -> M B) :
  heap s !! annotated = Some a ->
  (for_each SIMPLE_CONNECTIONS (draw_connection landmark annotated w h) ≫= fun _ =>
   for_each KEY_LANDMARKS (draw_landmark landmark annotated w h) ≫= k) s
  = match snd (rendering landmark w h) with
    | None => k tt (painted annotated a (fst (rendering landmark w h)) s)
    | Some e => (Raise e, painted annotated a (fst (rendering landmark w h)) s)
    end.
Proof.
  intros Ha. unfold mbind, M_bind, rendering.
  generalize KEY_LANDMARKS as joints. generalize SIMPLE_CONNECTIONS as bones.
  intros bones joints.
  rewrite (for_each_plan (connection_step landmark w h) _ annotated
             (draw_connection_step landmark annotated w h) _ a s Ha).
  destruct (plan (connection_step landmark w h) bones) as [ops1 [e|]];
    simpl; [reflexivity|].
  rewrite (for_each_plan (landmark_step landmark w h) _ annotated
             (draw_landmark_step landmark annotated w h) _ (paint a ops1))
    by apply painted_lookup.
  destruct (plan (landmark_step landmark w h) joints) as [ops2 err2]; simpl fst; simpl snd.
  rewrite painted_app. destruct err2; reflexivity.
Qed.

(** [analyze_frame] on an allocated frame, step by step. *)
Lemma analyze_frame_run frame pose a s :
  heap s !! frame = Some a ->
  analyze_frame frame pose s
  = let '(_, annotated, s1) := staged a s in
    let '(h, w) := shape a in
    match process pose (BGR2RGB a) with
    | None => (Ok (annotated, [], false), s1)
    | Some landmark =>
        let '(ops, err) := rendering landmark w h in
        let s2 := painted annotated a ops s1 in
        match err with
        | Some e => (Raise e, s2)
        | None =>
            match map_result (keypoint_of w h) landmark with
            | Ok keypoints => (Ok (annotated, keypoints, true), s2)
            | Raise e => (Raise e, s2)
            end
        end
    end.
Proof.
  intros Hf. unfold analyze_frame.
  rewrite (prologue_run frame pose a s _ Hf).
  pose proof (staged_fresh a s) as Hs.
  destruct (staged a s) as [[l1 l2] s1]. simpl fst; simpl snd.
  destruct Hs as (_ & _ & _ & Ha & _).
  destruct (shape a) as [h w].
  destruct (process pose (BGR2RGB a)) as [landmark|]; [|reflexivity].
  rewrite (loops_run landmark l2 w h a s1 _ Ha).
  destruct (rendering landmark w h) as [ops [e|]]; simpl fst; simpl snd; [reflexivity|].
  run_monad. destruct (map_result (keypoint_of w h) landmark); reflexivity.
Qed.

Lemma analyze_and_annotate_frame_run frame pose a s :
  heap s !! frame = Some a ->
  analyze_and_annotate_frame frame pose s
  = let '(_, annotated, s1) := staged a s in
    let '(h, w) := shape a in
    match process pose (BGR2RGB a) with
    | None => (Ok (annotated, false), s1)
    | Some landmark =>
        let '(ops, err) := rendering landmark w h in
        let s2 := painted annotated a ops s1 in
        match err with
        | Some e => (Raise e, s2)
        | None => (Ok (annotated, true), s2)
        end
    end.
Proof.
  intros Hf. unfold analyze_and_annotate_frame.
  rewrite (prologue_run frame pose a s _ Hf).
  pose proof (staged_fresh a s) as Hs.
  destruct (staged a s) as [[l1 l2] s1]. simpl fst; simpl snd.
  destruct Hs as (_ & _ & _ & Ha & _).
  destruct (shape a) as [h w].
  destruct (process pose (BGR2RGB a)) as [landmark|]; [|reflexivity].
  rewrite (loops_run landmark l2 w h a s1 _ Ha).
  destruct (rendering landmark w h) as [ops [e|]]; reflexivity.
Qed.

(** On a reference that is not allocated nothing happens. *)
Lemma analyze_frame_dangling frame pose s :
  heap s !! frame = None ->
  analyze_frame frame pose s = (Raise DanglingRef, s).
Proof.
  intros Hf. unfold analyze_frame, cvtColor_BGR2RGB. run_monad.
  rewrite Hf. reflexivity.
Qed.

Lemma analyze_and_annotate_frame_dangling frame pose s :
  heap s !! frame = None ->
  analyze_and_annotate_frame frame pose s = (Raise DanglingRef, s).
Proof.
  intros Hf. unfold analyze_and_annotate_frame, cvtColor_BGR2RGB. run_monad.
  rewrite Hf. reflexivity.
Qed.

End RendererFacts.

(** ** Facts about the pure parts *)

Section PlanFacts.
Context {A : Type} (step : A -> result (option draw_op)).

Lemma plan_complete (l : list A) :
  Forall (fun a => is_ok (step a) = true) l ->
  plan step l = (flat_map (step_ops step) l, None).
Proof.
  induction 1 as [|a l Ha _ IH]; [reflexivity|].
  simpl. unfold step_ops at 1.
  destruct (step a) as [o|e]; [|discriminate].
  rewrite IH. destruct o; reflexivity.
Qed.

Lemma plan_no_error (l : list A) :
  snd (plan step l) = None ->
  Forall (fun a => is_ok (step a) = true) l.
Proof.
  induction l as [|a l IH]; intros Hp; [constructor|].
  simpl in Hp. destruct (step a) as [o|e] eqn:E; [|discriminate].
  destruct (plan step l) as [ops err]. simpl in *.
  constructor; [rewrite E; reflexivity|auto].
Qed.

Lemma plan_error (l : list A) e :
  snd (plan step l) = Some e ->
  exists a, In a l /\ step a = Raise e.
Proof.
  induction l as [|a l IH]; intros Hp; [discriminate|].
  simpl in Hp. destruct (step a) as [o|e'] eqn:E.
  - destruct (plan step l) as [ops err]. simpl in *.
    destruct (IH Hp) as (b & Hb & Hs). exists b. split; [right|]; assumption.
  - simpl in Hp. injection Hp as Hp. subst e'.
    exists a. split; [left; reflexivity|assumption].
Qed.

End PlanFacts.


Lemma map_result_raise {A B} (f : A -> result B) (l : list A) e :
  map_result f l = Raise e -> exists a, In a l /\ f a = Raise e.
Proof.
  induction l as [|a l IH]; intros Hm; [discriminate|].
  simpl in Hm. destruct (f a) as [b|e'] eqn:E.
  - destruct (map_result f l) as [bs|e'']; [discriminate|].
    injection Hm as Hm. subst e''. destruct (IH eq_refl) as (c & Hc & Hfc).
    exists c. split; [right|]; assumption.
  - injection Hm as Hm. subst e'. exists a. split; [left; reflexivity|assumption].
Qed.

Lemma map_result_each {A B} (f : A -> result B) (l : list A) bs :
  map_result f l = Ok bs -> Forall2 (fun a b => f a = Ok b) l bs.
Proof.
  revert bs. induction l as [|a l IH]; intros bs Hm.
  - injection Hm as <-. constructor.
  - simpl in Hm. destruct (f a) as [b|] eqn:E; [|discriminate].
    destruct (map_result f l) as [bs'|]; [|discriminate].
    injection Hm as <-. constructor; auto.
Qed.

Module PyFloatFacts.
Import PyFloat.

Lemma denom_pos f : 0 < denom f.
Proof. destruct f; simpl; lia. Qed.

(** [int(f)] is the quotient rounded towards zero. *)
Lemma to_int_quot f :
  is_finite f = true -> to_int f = Ok (numer f ÷ denom f).
Proof.
  destruct f as [s|s| |s m e]; simpl; try discriminate; intros _.
  - reflexivity.
  - f_equal. unfold trunc_mag.
    destruct (Z.le_gt_cases 0 e) as [He|He].
    + rewrite Z.max_l, Z.max_r by lia. simpl (2 ^ 0).
      rewrite Z.quot_1_r, Z.shiftl_mul_pow2 by lia. reflexivity.
    + rewrite Z.max_r, Z.max_l by lia. simpl (2 ^ 0). rewrite Z.mul_1_r.
      rewrite <- (Z.opp_involutive e) at 1.
      rewrite Z.shiftl_opp_r, Z.shiftr_div_pow2 by lia.
      assert (Hd : 0 < 2 ^ (- e)) by (apply Z.pow_pos_nonneg; lia).
      destruct s; simpl.
      * rewrite Z.quot_opp_l by lia. f_equal.
        symmetry. apply Z.quot_div_nonneg; lia.
      * symmetry. apply Z.quot_div_nonneg; lia.
Qed.

Lemma to_int_ok f n : to_int f = Ok n -> is_finite f = true.
Proof. destruct f; simpl; congruence. Qed.

Lemma to_int_raises f e :
  to_int f = Raise e -> e = ValueError \/ e = OverflowError.
Proof. destruct f; simpl; intros E; inversion E; auto. Qed.

Lemma of_int_raises n e : of_int n = Raise e -> e = OverflowError.
Proof.
  unfold of_int. destruct (of_scaled n 0); intros E; inversion E; reflexivity.
Qed.

Lemma mul_int_ok a n fn : of_int n = Ok fn -> mul_int a n = Ok (mul a fn).
Proof. unfold mul_int. intros ->. reflexivity. Qed.

Lemma mul_int_inv a n f :
  mul_int a n = Ok f -> exists fn, of_int n = Ok fn /\ f = mul a fn.
Proof.
  unfold mul_int. destruct (of_int n) as [fn|]; [|discriminate].
  intros E. injection E as <-. eauto.
Qed.

Lemma mul_int_raises a n e : mul_int a n = Raise e -> e = OverflowError.
Proof.
  unfold mul_int. destruct (of_int n) as [fn|e'] eqn:E; [discriminate|].
  intros E'. injection E' as <-. eapply of_int_raises; eauto.
Qed.

Lemma not_gt_zero_half : gt zero half = false.
Proof. reflexivity. Qed.

End PyFloatFacts.

Section StepFacts.
Import PyFloatFacts.

Lemma value_in_range p : (value p < NUM_LANDMARKS)%nat.
Proof. destruct p; vm_compute; lia. Qed.

Lemma getitem_lookup {A} (l : list A) i a :
  l !! i = Some a -> getitem l i = Ok a.
Proof. unfold getitem. intros ->. reflexivity. Qed.

Lemma getitem_in_range (lms : list landmark) p :
  length lms = NUM_LANDMARKS ->
  exists lm, lms !! value p = Some lm /\ getitem lms (value p) = Ok lm.
Proof.
  intros Hlen.
  destruct (lookup_lt_is_Some_2 lms (value p)) as [lm Hlm].
  { rewrite Hlen. apply value_in_range. }
  exists lm. split; [exact Hlm|apply getitem_lookup; exact Hlm].
Qed.

Lemma pixel_of_raises p w h e :
  pixel_of p w h = Raise e -> e = ValueError \/ e = OverflowError.
Proof.
  unfold pixel_of, mbind, result_mbind, result_bind.
  destruct (PyFloat.mul_int (lm_x p) w) as [fx|e1] eqn:E1.
  2:{ intros E. injection E as <-. right. eapply mul_int_raises; eauto. }
  destruct (PyFloat.to_int fx) as [px|e2] eqn:E2.
  2:{ intros E. injection E as <-. eapply to_int_raises; eauto. }
  destruct (PyFloat.mul_int (lm_y p) h) as [fy|e3] eqn:E3.
  2:{ intros E. injection E as <-. right. eapply mul_int_raises; eauto. }
  destruct (PyFloat.to_int fy) as [py|e4] eqn:E4.
  2:{ intros E. injection E as <-. eapply to_int_raises; eauto. }
  discriminate.
Qed.

(** A pixel coordinate is the scaled coordinate cut towards zero. *)
Lemma pixel_of_inv p w h pt :
  pixel_of p w h = Ok pt ->
  exists fx fy,
    PyFloat.mul_int (lm_x p) w = Ok fx /\ PyFloat.mul_int (lm_y p) h = Ok fy /\
    PyFloat.to_int fx = Ok (fst pt) /\ PyFloat.to_int fy = Ok (snd pt).
Proof.
  unfold pixel_of, mbind, result_mbind, result_bind.
  destruct (PyFloat.mul_int (lm_x p) w) as [fx|]; [|discriminate].
  destruct (PyFloat.to_int fx) as [px|] eqn:E2; [|discriminate].
  destruct (PyFloat.mul_int (lm_y p) h) as [fy|]; [|discriminate].
  destruct (PyFloat.to_int fy) as [py|] eqn:E4; [|discriminate].
  intros E. injection E as <-. exists fx, fy. auto.
Qed.

Lemma keypoint_of_raises w h lm e :
  keypoint_of w h lm = Raise e -> e = OverflowError.
Proof.
  unfold keypoint_of, mbind, result_mbind, result_bind.
  destruct (PyFloat.mul_int (lm_x lm) w) as [fx|e1] eqn:E1.
  2:{ intros E. injection E as <-. eapply mul_int_raises; eauto. }
  destruct (PyFloat.mul_int (lm_y lm) h) as [fy|e2] eqn:E2.
  2:{ intros E. injection E as <-. eapply mul_int_raises; eauto. }
  destruct (PyFloat.mul_int (lm_z lm) w) as [fz|e3] eqn:E3.
  2:{ intros E. injection E as <-. eapply mul_int_raises; eauto. }
  discriminate.
Qed.


Lemma keypoint_of_inv w h lm k :
  keypoint_of w h lm = Ok k ->
  exists fw fh, PyFloat.of_int w = Ok fw /\ PyFloat.of_int h = Ok fh /\
                k = scaled fw fh lm.
Proof.
  unfold keypoint_of, mbind, result_mbind, result_bind.
  destruct (PyFloat.mul_int (lm_x lm) w) as [fx|] eqn:E1; [|discriminate].
  destruct (PyFloat.mul_int (lm_y lm) h) as [fy|] eqn:E2; [|discriminate].
  destruct (PyFloat.mul_int (lm_z lm) w) as [fz|] eqn:E3; [|discriminate].
  intros E. injection E as <-.
  apply mul_int_inv in E1 as (fw & Hw & ->).
  apply mul_int_inv in E2 as (fh & Hh & ->).
  apply mul_int_inv in E3 as (fw' & Hw' & ->).
  assert (fw' = fw) by congruence. subst fw'.
  exists fw, fh. auto.
Qed.

Lemma connection_step_at lms w h c sp ep :
  lms !! value (fst c) = Some sp -> lms !! value (snd c) = Some ep ->
  connection_step lms w h c
  = if visible sp && visible ep then
      match pixel_of sp w h with
      | Raise e => Raise e
      | Ok p1 => match pixel_of ep w h with
                 | Raise e => Raise e
                 | Ok p2 => Ok (Some (DLine p1 p2))
                 end
      end
    else Ok None.
Proof.
  intros Hs He. unfold connection_step, mbind, result_mbind, result_bind.
  rewrite (getitem_lookup _ _ _ Hs), (getitem_lookup _ _ _ He).
  destruct (visible sp && visible ep); reflexivity.
Qed.

Lemma landmark_step_at lms w h idx lm :
  lms !! value idx = Some lm ->
  landmark_step lms w h idx
  = if visible lm then
      match pixel_of lm w h with
      | Raise e => Raise e
      | Ok xy => Ok (Some (DCircle xy))
      end
    else Ok None.
Proof.
  intros Hl. unfold landmark_step, mbind, result_mbind, result_bind.
  rewrite (getitem_lookup _ _ _ Hl). destruct (visible lm); reflexivity.
Qed.

Lemma connection_step_raises lms w h c e :
  length lms = NUM_LANDMARKS ->
  connection_step lms w h c = Raise e -> e = ValueError \/ e = OverflowError.
Proof.
  intros Hlen.
  destruct (getitem_in_range lms (fst c) Hlen) as (sp & Hs & _).
  destruct (getitem_in_range lms (snd c) Hlen) as (ep & He & _).
  rewrite (connection_step_at _ _ _ _ _ _ Hs He).
  destruct (visible sp && visible ep); [|discriminate].
  destruct (pixel_of sp w h) as [p1|e1] eqn:E1.
  - destruct (pixel_of ep w h) as [p2|e2] eqn:E2; [discriminate|].
    intros E. injection E as <-. eapply pixel_of_raises; eauto.
  - intros E. injection E as <-. eapply pixel_of_raises; eauto.
Qed.

Lemma landmark_step_raises lms w h idx e :
  length lms = NUM_LANDMARKS ->
  landmark_step lms w h idx = Raise e -> e = ValueError \/ e = OverflowError.
Proof.
  intros Hlen.
  destruct (getitem_in_range lms idx Hlen) as (lm & Hl & _).
  rewrite (landmark_step_at _ _ _ _ _ Hl).
  destruct (visible lm); [|discriminate].
  destruct (pixel_of lm w h) as [p|e1] eqn:E1; [discriminate|].
  intros E. injection E as <-. eapply pixel_of_raises; eauto.
Qed.

Lemma rendering_error lms w h e :
  snd (rendering lms w h) = Some e ->
  (exists c, In c SIMPLE_CONNECTIONS /\ connection_step lms w h c = Raise e) \/
  (exists i, In i KEY_LANDMARKS /\ landmark_step lms w h i = Raise e).
Proof.
  unfold rendering.
  generalize SIMPLE_CONNECTIONS as bones. generalize KEY_LANDMARKS as joints.
  intros joints bones.
  destruct (plan (connection_step lms w h) bones) as [ops1 err1] eqn:P1.
  destruct err1 as [e1|].
  - simpl. intros E. injection E as <-. left.
    apply (plan_error (connection_step lms w h)). rewrite P1. reflexivity.
  - destruct (plan (landmark_step lms w h) joints) as [ops2 err2] eqn:P2.
    simpl. intros ->. right.
    apply (plan_error (landmark_step lms w h)). rewrite P2. reflexivity.
Qed.

Lemma rendering_complete lms w h :
  Forall (fun c => is_ok (connection_step lms w h c) = true) SIMPLE_CONNECTIONS ->
  Forall (fun i => is_ok (landmark_step lms w h i) = true) KEY_LANDMARKS ->
  rendering lms w h
  = (flat_map (step_ops (connection_step lms w h)) SIMPLE_CONNECTIONS
     ++ flat_map (step_ops (landmark_step lms w h)) KEY_LANDMARKS, None).
Proof.
  intros H1 H2. unfold rendering.
  rewrite (plan_complete _ _ H1), (plan_complete _ _ H2). reflexivity.
Qed.

Lemma rendering_no_error lms w h :
  snd (rendering lms w h) = None ->
  Forall (fun c => is_ok (connection_step lms w h c) = true) SIMPLE_CONNECTIONS /\
  Forall (fun i => is_ok (landmark_step lms w h i) = true) KEY_LANDMARKS.
Proof.
  unfold rendering.
  generalize SIMPLE_CONNECTIONS as bones. generalize KEY_LANDMARKS as joints.
  intros joints bones.
  destruct (plan (connection_step lms w h) bones) as [ops1 err1] eqn:P1.
  destruct err1 as [e1|]; [discriminate|].
  destruct (plan (landmark_step lms w h) joints) as [ops2 err2] eqn:P2.
  simpl. intros ->. split.
  - apply plan_no_error. rewrite P1. reflexivity.
  - apply plan_no_error. rewrite P2. reflexivity.
Qed.

End StepFacts.

(** ** The renderer and its buffers *)

Section BufferFacts.
Context `{OpenCV}.

Lemma target_event_of buf op : target (event_of buf op) = Some buf.
Proof. destruct op; reflexivity. Qed.

Lemma leaves_input_dangling {A} (annotated_of : A -> loc) frame s e :
  leaves_input annotated_of frame s (Raise e, s).
Proof.
  unfold leaves_input. simpl. split; [reflexivity|]. split.
  - exists []. split; [symmetry; apply app_nil_r|]. intros ev buf [].
  - discriminate.
Qed.

Lemma leaves_input_painted {A} (annotated_of : A -> loc) frame a s ops (r : result A) :
  heap s !! frame = Some a ->
  (forall v, r = Ok v -> annotated_of v = (staged a s).1.2) ->
  leaves_input annotated_of frame s
    (r, painted (staged a s).1.2 a ops (staged a s).2).
Proof.
  intros Hf Hann.
  pose proof (staged_frame frame a s Hf) as (Hn1 & Hn2 & Hf').
  pose proof (staged_fresh a s) as Hs.
  destruct (staged a s) as [[l1 l2] s1] eqn:Es. simpl in *.
  destruct Hs as (H1 & H2 & Hne & Ha & Hrgb & Hother).
  unfold leaves_input. simpl. repeat split.
  - rewrite lookup_insert_ne by congruence. rewrite Hf', Hf. reflexivity.
  - exists (EvProcess (BGR2RGB a) :: map (event_of l2) ops). split.
    + unfold staged in Es. injection Es as _ _ <-. simpl.
      rewrite <- app_assoc. reflexivity.
    + intros ev buf [<-|Hin] Ht; [discriminate|].
      apply in_map_iff in Hin as (op & <- & _).
      rewrite target_event_of in Ht. injection Ht as <-.
      split; [congruence|assumption].
  - rewrite (Hann v) by assumption. congruence.
  - rewrite (Hann v) by assumption. assumption.
  - rewrite (Hann v) by assumption. rewrite lookup_insert_eq. eauto.
Qed.

Lemma analyze_frame_state frame pose a s :
  heap s !! frame = Some a ->
  exists ops,
    snd (analyze_frame frame pose s)
    = painted (staged a s).1.2 a ops (staged a s).2 /\
    forall v, fst (analyze_frame frame pose s) = Ok v ->
              v.1.1 = (staged a s).1.2.
Proof.
  intros Hf. rewrite (analyze_frame_run frame pose a s Hf).
  pose proof (staged_fresh a s) as Hs.
  destruct (staged a s) as [[l1 l2] s1]. simpl.
  destruct Hs as (_ & _ & _ & Ha & _).
  destruct (shape a) as [h w].
  destruct (process pose (BGR2RGB a)) as [lms|].
  - destruct (rendering lms w h) as [ops [e|]].
    + exists ops. split; [reflexivity|discriminate].
    + exists ops. destruct (map_result (keypoint_of w h) lms); simpl.
      * split; [reflexivity|]. intros v E. injection E as <-. reflexivity.
      * split; [reflexivity|discriminate].
  - exists []. simpl. rewrite painted_nil by exact Ha.
    split; [reflexivity|]. intros v E. injection E as <-. reflexivity.
Qed.

Lemma analyze_and_annotate_frame_state frame pose a s :
  heap s !! frame = Some a ->
  exists ops,
    snd (analyze_and_annotate_frame frame pose s)
    = painted (staged a s).1.2 a ops (staged a s).2 /\
    forall v, fst (analyze_and_annotate_frame frame pose s) = Ok v ->
              v.1 = (staged a s).1.2.
Proof.
  intros Hf. rewrite (analyze_and_annotate_frame_run frame pose a s Hf).
  pose proof (staged_fresh a s) as Hs.
  destruct (staged a s) as [[l1 l2] s1]. simpl.
  destruct Hs as (_ & _ & _ & Ha & _).
  destruct (shape a) as [h w].
  destruct (process pose (BGR2RGB a)) as [lms|].
  - destruct (rendering lms w h) as [ops [e|]]; exists ops; simpl.
    + split; [reflexivity|discriminate].
    + split; [reflexivity|]. intros v E. injection E as <-. reflexivity.
  - exists []. simpl. rewrite painted_nil by exact Ha.
    split; [reflexivity|]. intros v E. injection E as <-. reflexivity.
Qed.

End BufferFacts.

(** C8. For every invocation of the renderer (backend and desktop), the
    input frame buffer is left unchanged: all drawing goes to a freshly
    allocated copy, and the annotated frame handed back is that new
    buffer, distinct from the input. *)
Theorem renderer_leaves_input_untouched `{OpenCV} (frame : loc) (pose : Pose) (s : state) :
  leaves_input (fun v => v.1.1) frame s (analyze_frame frame pose s) /\
  leaves_input (fun v => v.1) frame s (analyze_and_annotate_frame frame pose s).
Proof.
  destruct (heap s !! frame) as [a|] eqn:Hf.
  - split.
    + destruct (analyze_frame_state frame pose a s Hf) as (ops & Hst & Hann).
      rewrite (surjective_pairing (analyze_frame frame pose s)), Hst.
      apply leaves_input_painted; assumption.
    + destruct (analyze_and_annotate_frame_state frame pose a s Hf) as (ops & Hst & Hann).
      rewrite (surjective_pairing (analyze_and_annotate_frame frame pose s)), Hst.
      apply leaves_input_painted; assumption.
  - rewrite (analyze_frame_dangling frame pose s Hf).
    rewrite (analyze_and_annotate_frame_dangling frame pose s Hf).
    split; apply leaves_input_dangling.
Qed.

(** C4. When the pose model gives the "no landmarks" signal, the
    renderer returns normally: the annotated frame is a copy with the
    contents of the input, the keypoint list is empty and the flag is
    false; nothing is drawn.  The desktop renderer returns the same
    copy and flag. *)
Theorem no_landmarks_gives_plain_copy `{OpenCV} (frame : loc) (pose : Pose)
    (a : ndarray) (s : state) :
  heap s !! frame = Some a ->
  process pose (BGR2RGB a) = None ->
  exists annotated s',
    analyze_frame frame pose s = (Ok (annotated, [], false), s') /\
    analyze_and_annotate_frame frame pose s = (Ok (annotated, false), s') /\
    heap s' !! annotated = Some a /\
    heap s' !! frame = Some a /\
    annotated <> frame /\
    trace s' = trace s ++ [EvProcess (BGR2RGB a)].
Proof.
  intros Hf Hnone.
  rewrite (analyze_frame_run frame pose a s Hf).
  rewrite (analyze_and_annotate_frame_run frame pose a s Hf).
  pose proof (staged_frame frame a s Hf) as (_ & Hn2 & Hf').
  pose proof (staged_fresh a s) as Hs.
  destruct (staged a s) as [[l1 l2] s1] eqn:Es. simpl in *.
  destruct Hs as (_ & _ & _ & Ha & _).
  destruct (shape a) as [h w]. rewrite Hnone.
  exists l2, s1. repeat split; try assumption; try congruence.
  unfold staged in Es. injection Es as _ _ <-. reflexivity.
Qed.

Lemma no_landmarks_gives_plain_copy_witness :
  exists annotated s',
    @analyze_frame Demo.cv 0%nat (Demo.fixed_pose None) Demo.st0
      = (Ok (annotated, [], false), s') /\
    @analyze_and_annotate_frame Demo.cv 0%nat (Demo.fixed_pose None) Demo.st0
      = (Ok (annotated, false), s') /\
    heap s' !! annotated = Some Demo.frame3 /\
    heap s' !! 0%nat = Some Demo.frame3 /\
    annotated <> 0%nat /\
    trace s' = trace Demo.st0 ++ [EvProcess (BGR2RGB Demo.frame3)].
Proof.
  apply (@no_landmarks_gives_plain_copy Demo.cv 0%nat (Demo.fixed_pose None)
           Demo.frame3 Demo.st0); reflexivity.
Defined.

(** C9. Every index named by the Joint Set and by the Bone Set is a
    valid index of the full landmark enumeration, so on a landmark list
    of that length every lookup the renderer performs succeeds and no
    rendering ends in an IndexError. *)
Theorem table_indices_in_bounds `{OpenCV} (pose : Pose) :
  (forall image lms, process pose image = Some lms -> length lms = NUM_LANDMARKS) ->
  Forall (fun i => (value i < NUM_LANDMARKS)%nat) KEY_LANDMARKS /\
  Forall (fun c => (value (fst c) < NUM_LANDMARKS)%nat /\
                   (value (snd c) < NUM_LANDMARKS)%nat) SIMPLE_CONNECTIONS /\
  (forall (lms : list landmark) i, length lms = NUM_LANDMARKS ->
     exists lm, getitem lms (value i) = Ok lm) /\
  forall frame s,
    fst (analyze_frame frame pose s) <> Raise IndexError /\
    fst (analyze_and_annotate_frame frame pose s) <> Raise IndexError.
Proof.
  intros Hpose. split; [|split; [|split]].
  - apply Forall_forall. intros i _. apply value_in_range.
  - apply Forall_forall. intros c _. split; apply value_in_range.
  - intros lms i Hlen. destruct (getitem_in_range lms i Hlen) as (lm & _ & Hg).
    exists lm. exact Hg.
  - intros frame s.
    assert (Hrender : forall lms w h, length lms = NUM_LANDMARKS ->
              snd (rendering lms w h) <> Some IndexError).
    { intros lms w h Hlen Herr.
      apply rendering_error in Herr as [(c & _ & Hc)|(i & _ & Hi)].
      - apply connection_step_raises in Hc as [?|?]; [discriminate..|exact Hlen].
      - apply landmark_step_raises in Hi as [?|?]; [discriminate..|exact Hlen]. }
    destruct (heap s !! frame) as [a|] eqn:Hf.
    + rewrite (analyze_frame_run frame pose a s Hf).
      rewrite (analyze_and_annotate_frame_run frame pose a s Hf).
      destruct (staged a s) as [[l1 l2] s1]. destruct (shape a) as [h w].
      destruct (process pose (BGR2RGB a)) as [lms|] eqn:Hp;
        [|split; discriminate].
      specialize (Hrender lms w h (Hpose _ _ Hp)).
      destruct (rendering lms w h) as [ops [e|]]; simpl in *.
      * split; congruence.
      * split; [|discriminate].
        destruct (map_result (keypoint_of w h) lms) as [kps|e] eqn:Hk;
          [discriminate|].
        apply map_result_raise in Hk as (lm & _ & Hk).
        apply keypoint_of_raises in Hk as ->. discriminate.
    + rewrite (analyze_frame_dangling frame pose s Hf).
      rewrite (analyze_and_annotate_frame_dangling frame pose s Hf).
      split; discriminate.
Qed.

Lemma table_indices_in_bounds_witness :
  Forall (fun i => (value i < NUM_LANDMARKS)%nat) KEY_LANDMARKS /\
  Forall (fun c => (value (fst c) < NUM_LANDMARKS)%nat /\
                   (value (snd c) < NUM_LANDMARKS)%nat) SIMPLE_CONNECTIONS /\
  (forall (lms : list landmark) i, length lms = NUM_LANDMARKS ->
     exists lm, getitem lms (value i) = Ok lm) /\
  forall frame s,
    fst (@analyze_frame Demo.cv frame
           (Demo.fixed_pose (Some (Demo.centred PyFloat.one))) s)
      <> Raise IndexError /\
    fst (@analyze_and_annotate_frame Demo.cv frame
           (Demo.fixed_pose (Some (Demo.centred PyFloat.one))) s)
      <> Raise IndexError.
Proof.
  apply (@table_indices_in_bounds Demo.cv
           (Demo.fixed_pose (Some (Demo.centred PyFloat.one)))).
  intros image lms E. simpl in E. injection E as <-. reflexivity.
Defined.

(** ** What is drawn, and the keypoints *)

Section DrawingFacts.


Lemma concat_all_nil {A B} (P : A -> list B -> Prop) (l : list A) (ls : list (list B)) :
  Forall2 P l ls -> (forall a bs, In a l -> P a bs -> bs = []) -> concat ls = [].
Proof.
  induction 1 as [|a bs l ls Hab _ IH]; intros Hnil; [reflexivity|].
  simpl. rewrite (Hnil a bs) by (auto; left; reflexivity).
  apply IH. intros a' bs' Hin. apply Hnil. right. exact Hin.
Qed.



End DrawingFacts.



(** The threshold is strict: a visibility of exactly 0.5 is not drawn. *)
Example threshold_is_strict :
  visible (Demo.at_rest PyFloat.half PyFloat.half PyFloat.half) = false /\
  visible (Demo.at_rest PyFloat.half PyFloat.half (PyFloat.of_scaled 3 (-2))) = true.
Proof. split; reflexivity. Qed.


(** C2. Whenever the backend renderer returns for a frame in which a
    pose was found, the keypoint list has one entry per landmark of the
    list the model produced, in the same order: x scaled by the frame
    width, y by the height, z by the width, and the visibility copied
    as it is, whether or not the landmark is above the drawing
    threshold.  The rows built by the desktop tool are the same without
    z. *)
Theorem keypoints_cover_every_landmark `{OpenCV} (frame : loc) (pose : Pose)
    (a : ndarray) (h w : Z) (lms : list landmark) (s s' : state)
    (annotated : loc) (keypoints : list keypoint) (flag : bool) :
  heap s !! frame = Some a ->
  shape a = (h, w) ->
  process pose (BGR2RGB a) = Some lms ->
  analyze_frame frame pose s = (Ok (annotated, keypoints, flag), s') ->
  flag = true /\
  length keypoints = length lms /\
  (length lms = NUM_LANDMARKS -> length keypoints = NUM_LANDMARKS) /\
  Forall2 (fun lm k =>
             exists fw fh,
               PyFloat.of_int w = Ok fw /\ PyFloat.of_int h = Ok fh /\
               kp_x k = PyFloat.mul (lm_x lm) fw /\
               kp_y k = PyFloat.mul (lm_y lm) fh /\
               kp_z k = PyFloat.mul (lm_z lm) fw /\
               kp_visibility k = lm_visibility lm) lms keypoints /\
  exists rows,
    main_keypoints lms w h = Ok rows /\
    Forall2 (fun k row => row = (kp_x k, kp_y k, kp_visibility k)) keypoints rows.
Proof.
  intros Hf Hsh Hp Hrun.
  rewrite (analyze_frame_run frame pose a s Hf) in Hrun.
  destruct (staged a s) as [[l1 l2] s1]. rewrite Hsh, Hp in Hrun.
  destruct (rendering lms w h) as [ops [e|]]; [discriminate|].
  destruct (map_result (keypoint_of w h) lms) as [kps|] eqn:Hk; [|discriminate].
  injection Hrun as _ <- <- _.
  apply map_result_each in Hk.
  assert (Hlen : length kps = length lms)
    by (symmetry; eapply Forall2_length; eauto).
  split; [reflexivity|]. split; [exact Hlen|].
  split; [intros <-; exact Hlen|].
  split.
  - eapply Forall2_impl; [exact Hk|]. intros lm k Hkp. simpl in Hkp.
    apply keypoint_of_inv in Hkp as (fw & fh & Hw & Hh & ->).
    exists fw, fh. repeat split; assumption.
  - exists (map (fun k => (kp_x k, kp_y k, kp_visibility k)) kps). split.
    + unfold main_keypoints.
      clear -Hk. induction Hk as [|lm k lms kps Hkp _ IH]; [reflexivity|].
      simpl. rewrite IH.
      apply keypoint_of_inv in Hkp as (fw & fh & Hw & Hh & ->).
      unfold mbind, result_mbind, result_bind.
      rewrite (PyFloatFacts.mul_int_ok _ _ _ Hw), (PyFloatFacts.mul_int_ok _ _ _ Hh).
      reflexivity.
    + apply Forall2_fmap_r, Forall_Forall2_diag, Forall_forall. auto.
Qed.

(** ** Pixel coordinates *)

Lemma pixel_of_truncated lm w h pt :
  pixel_of lm w h = Ok pt -> truncated_pixel lm w h pt.
Proof.
  intros Hpx. apply pixel_of_inv in Hpx as (fx & fy & Hx & Hy & Tx & Ty).
  pose proof (PyFloatFacts.to_int_ok _ _ Tx) as Fx.
  pose proof (PyFloatFacts.to_int_ok _ _ Ty) as Fy.
  rewrite (PyFloatFacts.to_int_quot _ Fx) in Tx.
  rewrite (PyFloatFacts.to_int_quot _ Fy) in Ty.
  exists fx, fy. repeat split; try assumption; congruence.
Qed.

(** C1, as the program has it.  The renderer converts normalised
    coordinates to pixels by cutting towards zero, [x_px = int(x * W)]
    and [y_px = int(y * H)]: every segment and marker it draws is at
    the truncated pixel of its landmarks; so a landmark at (0.5, 0.5)
    is drawn at [(int(0.5 * W), int(0.5 * H))]. *)
Theorem pixels_are_truncated `{OpenCV} (frame : loc) (pose : Pose)
    (a : ndarray) (h w : Z) (lms : list landmark) (s s' : state)
    (annotated : loc) (keypoints : list keypoint) (flag : bool) :
  heap s !! frame = Some a ->
  shape a = (h, w) ->
  process pose (BGR2RGB a) = Some lms ->
  analyze_frame frame pose s = (Ok (annotated, keypoints, flag), s') ->
  (forall c sp ep,
     In c SIMPLE_CONNECTIONS ->
     lms !! value (fst c) = Some sp -> lms !! value (snd c) = Some ep ->
     visible sp = true -> visible ep = true ->
     exists p1 p2,
       pixel_of sp w h = Ok p1 /\ pixel_of ep w h = Ok p2 /\
       truncated_pixel sp w h p1 /\ truncated_pixel ep w h p2 /\
       In (EvLine annotated p1 p2 RED 2) (trace s')) /\
  (forall i lm,
     In i KEY_LANDMARKS ->
     lms !! value i = Some lm -> visible lm = true ->
     exists xy,
       pixel_of lm w h = Ok xy /\ truncated_pixel lm w h xy /\
       In (EvCircle annotated xy 3 GREEN (-1)) (trace s')).
Proof.
  intros Hf Hsh Hp Hrun.
  rewrite (analyze_frame_run frame pose a s Hf) in Hrun.
  destruct (staged a s) as [[l1 l2] s1]. rewrite Hsh, Hp in Hrun.
  destruct (rendering lms w h) as [ops err] eqn:Hr.
  destruct err as [e|]; [discriminate|].
  destruct (map_result (keypoint_of w h) lms) as [kps|]; [|discriminate].
  injection Hrun as <- _ _ <-.
  destruct (rendering_no_error lms w h) as [Hcs His]; [rewrite Hr; reflexivity|].
  rewrite (rendering_complete lms w h Hcs His) in Hr. injection Hr as <-.
  split.
  - intros c sp ep Hin Hs He Vs Ve.
    pose proof (proj1 (Forall_forall _ _) Hcs c) as Hok.
    specialize (Hok ltac:(apply list_elem_of_In; exact Hin)). cbv beta in Hok.
    assert (Hops : step_ops (connection_step lms w h) c
                   = match connection_step lms w h c with
                     | Ok (Some op) => [op] | _ => [] end) by reflexivity.
    rewrite (connection_step_at _ _ _ _ _ _ Hs He), Vs, Ve in Hok, Hops.
    cbn [andb] in Hok, Hops.
    destruct (pixel_of sp w h) as [p1|] eqn:E1; [|discriminate].
    destruct (pixel_of ep w h) as [p2|] eqn:E2; [|discriminate].
    exists p1, p2. repeat split; try reflexivity;
      try (apply pixel_of_truncated; assumption).
    unfold painted. cbn [trace]. apply in_or_app. right.
    apply (in_map (event_of l2) _ (DLine p1 p2)).
    apply in_or_app. left.
    apply (proj2 (in_flat_map (step_ops (connection_step lms w h))
                    SIMPLE_CONNECTIONS (DLine p1 p2))). exists c.
    split; [exact Hin|]. rewrite Hops. left. reflexivity.
  - intros i lm Hin Hl V.
    pose proof (proj1 (Forall_forall _ _) His i) as Hok.
    specialize (Hok ltac:(apply list_elem_of_In; exact Hin)). cbv beta in Hok.
    assert (Hops : step_ops (landmark_step lms w h) i
                   = match landmark_step lms w h i with
                     | Ok (Some op) => [op] | _ => [] end) by reflexivity.
    rewrite (landmark_step_at _ _ _ _ _ Hl), V in Hok, Hops.
    destruct (pixel_of lm w h) as [xy|] eqn:E1; [|discriminate].
    exists xy. repeat split; try reflexivity;
      try (apply pixel_of_truncated; assumption).
    unfold painted. cbn [trace]. apply in_or_app. right.
    apply (in_map (event_of l2) _ (DCircle xy)).
    apply in_or_app. right.
    apply (proj2 (in_flat_map (step_ops (landmark_step lms w h))
                    KEY_LANDMARKS (DCircle xy))). exists i.
    split; [exact Hin|]. rewrite Hops. left. reflexivity.
Qed.



Lemma keypoints_cover_every_landmark_witness :
  let run := @analyze_frame Demo.cv 0%nat (Demo.fixed_pose (Some Demo.half_seen)) Demo.st0 in
  let keypoints := map (scaled Demo.three Demo.three) Demo.half_seen in
  true = true /\
  length keypoints = length Demo.half_seen /\
  (length Demo.half_seen = NUM_LANDMARKS -> length keypoints = NUM_LANDMARKS) /\
  Forall2 (fun lm k =>
             exists fw fh,
               PyFloat.of_int 3 = Ok fw /\ PyFloat.of_int 3 = Ok fh /\
               kp_x k = PyFloat.mul (lm_x lm) fw /\
               kp_y k = PyFloat.mul (lm_y lm) fh /\
               kp_z k = PyFloat.mul (lm_z lm) fw /\
               kp_visibility k = lm_visibility lm) Demo.half_seen keypoints /\
  exists rows,
    main_keypoints Demo.half_seen 3 3 = Ok rows /\
    Forall2 (fun k row => row = (kp_x k, kp_y k, kp_visibility k)) keypoints rows.
Proof.
  intros run keypoints.
  apply (@keypoints_cover_every_landmark Demo.cv 0%nat
           (Demo.fixed_pose (Some Demo.half_seen)) Demo.frame3 3 3
           Demo.half_seen Demo.st0 (snd run) 2%nat keypoints true);
    vm_compute; reflexivity.
Defined.

Lemma pixels_are_truncated_witness :
  let run := @analyze_frame Demo.cv 0%nat (Demo.fixed_pose (Some Demo.half_seen)) Demo.st0 in
  (forall c sp ep,
     In c SIMPLE_CONNECTIONS ->
     Demo.half_seen !! value (fst c) = Some sp ->
     Demo.half_seen !! value (snd c) = Some ep ->
     visible sp = true -> visible ep = true ->
     exists p1 p2,
       pixel_of sp 3 3 = Ok p1 /\ pixel_of ep 3 3 = Ok p2 /\
       truncated_pixel sp 3 3 p1 /\ truncated_pixel ep 3 3 p2 /\
       In (EvLine 2%nat p1 p2 RED 2) (trace (snd run))) /\
  (forall i lm,
     In i KEY_LANDMARKS ->
     Demo.half_seen !! value i = Some lm -> visible lm = true ->
     exists xy,
       pixel_of lm 3 3 = Ok xy /\ truncated_pixel lm 3 3 xy /\
       In (EvCircle 2%nat xy 3 GREEN (-1)) (trace (snd run))).
Proof.
  intros run.
  apply (@pixels_are_truncated Demo.cv 0%nat
           (Demo.fixed_pose (Some Demo.half_seen)) Demo.frame3 3 3
           Demo.half_seen Demo.st0 (snd run) 2%nat
           (map (scaled Demo.three Demo.three) Demo.half_seen) true);
    vm_compute; reflexivity.
Defined.

(** C1 as the specification states it fails: on a frame of 3 by 3, the
    landmark at (0.5, 0.5) is drawn at pixel (1, 1), whereas rounding
    to nearest gives (2, 2).  Away from a tie too: at (0.75, 0.75) on a
    frame of 1 by 1 the pixel is (0, 0), and rounding gives (1, 1). *)
Lemma rounding_counterexample :
  let lm := Demo.at_rest PyFloat.half PyFloat.half PyFloat.one in
  let off := Demo.at_rest (PyFloat.of_scaled 3 (-2)) (PyFloat.of_scaled 3 (-2))
               PyFloat.one in
  let run := @analyze_frame Demo.cv 0%nat
               (Demo.fixed_pose (Some (Demo.centred PyFloat.one))) Demo.st0 in
  Demo.centred PyFloat.one !! value NOSE = Some lm /\
  visible lm = true /\
  spec_pixel_of lm 3 3 = Ok (2, 2) /\
  pixel_of lm 3 3 = Ok (1, 1) /\
  spec_pixel_of off 1 1 = Ok (1, 1) /\
  pixel_of off 1 1 = Ok (0, 0) /\
  is_ok (fst run) = true /\
  In (EvCircle 2%nat (1, 1) 3 GREEN (-1)) (trace (snd run)) /\
  ~ In (EvCircle 2%nat (2, 2) 3 GREEN (-1)) (trace (snd run)).
Proof.
  vm_compute. repeat split.
  - do 15 right. left. reflexivity.
  - intros Hin. repeat (destruct Hin as [Hin|Hin]; [discriminate Hin|]). exact Hin.
Qed.

(** ** The endpoints *)

Section ReadFacts.
Context `{VideoSource}.

Lemma read_run (cap : VideoCapture) (s : state) :
  read cap s
  = let s1 := {| heap := heap s;
                 trace := trace s ++ [EvRead (cap_path cap) (cap_pos cap)] |} in
    match cap_src cap ≫= fun v => frame_at v (cap_pos cap) with
    | Some a =>
        (Ok (Some (fresh (dom (heap s))), set_pos_frames cap (cap_pos cap + 1)),
         {| heap := <[fresh (dom (heap s)) := a]> (heap s); trace := trace s1 |})
    | None => (Ok (None, cap), s1)
    end.
Proof.
  unfold read. run_monad.
  destruct (cap_src cap) as [v|]; simpl;
    [destruct (frame_at v (cap_pos cap))|]; reflexivity.
Qed.

Lemma open_capture_src (fs : filesystem) path :
  cap_src (open_capture fs path) = fs !! path.
Proof. reflexivity. Qed.

Lemma path_exists_true (fs : filesystem) path v :
  fs !! path = Some v -> bool_decide (is_Some (fs !! path)) = true.
Proof. intros ->. apply bool_decide_eq_true. eauto. Qed.

Lemma path_exists_false (fs : filesystem) path :
  fs !! path = None -> bool_decide (is_Some (fs !! path)) = false.
Proof.
  intros ->. apply bool_decide_eq_false. intros [v Hv]. discriminate.
Qed.

End ReadFacts.



Section EndpointFacts.
Context `{OpenCV} `{VideoSource} `{Libraries}.


(** The analyze endpoint once the file exists and the frame is read. *)
Lemma analyze_endpoint_run (fs : gmap string video) filename data v i a s :
  fs !! path_join UPLOAD_FOLDER (secure_filename filename) = Some v ->
  default (JInt 0) (data !! "frame_index") = JInt i ->
  frame_at v i = Some a ->
  analyze_frame_endpoint fs filename data s
  = let frame := fresh (dom (heap s)) in
    let s1 := {| heap := <[frame := a]> (heap s);
                 trace := trace s ++
                   [EvRead (path_join UPLOAD_FOLDER (secure_filename filename)) i] |} in
    match analyze_frame frame (mp_pose_Pose true 2) s1 with
    | (Ok (annotated_frame, keypoints, has_pose), s2) =>
        match heap s2 !! annotated_frame with
        | Some b =>
            (Ok (PAnalysis {| a_frame_index := JInt i;
                              a_has_pose := has_pose;
                              a_keypoints := keypoints;
                              a_annotated_image := data_url (jpg_base64 b) |}, 200),
             s2)
        | None => (Raise DanglingRef, s2)
        end
    | (Raise e, s2) => (Raise e, s2)
    end.
Proof.
  intros Hv Hd Ha. unfold analyze_frame_endpoint, path_exists.
  rewrite (path_exists_true _ _ _ Hv), Hd. cbn [negb cap_set].
  unfold mbind at 1. unfold M_bind at 1. unfold lift at 1.
  unfold mbind at 1. unfold M_bind at 1. rewrite read_run.
  cbn [set_pos_frames cap_src cap_pos cap_path open_capture].
  rewrite Hv. cbn [mbind option_bind]. rewrite Ha.
  cbv zeta. cbn [heap trace].
  unfold mbind at 1. unfold M_bind at 1.
  destruct (analyze_frame _ _ _) as [[[[ann kps] hp]|e] s2]; [|reflexivity].
  run_monad. destruct (heap s2 !! ann); reflexivity.
Qed.

End EndpointFacts.



(** ** The batch endpoint *)

Section BatchFacts.
Context `{OpenCV} `{VideoSource} `{Libraries}.


(** One turn of the batch loop. *)
Lemma batch_step (cap : VideoCapture) pose i rest acc s :
  batch_loop cap pose (JInt i :: rest) acc s
  = let s1 := {| heap := heap s; trace := trace s ++ [EvRead (cap_path cap) i] |} in
    match cap_src cap ≫= fun v => frame_at v i with
    | None => batch_loop (set_pos_frames cap i) pose rest acc s1
    | Some a =>
        let frame := fresh (dom (heap s)) in
        let s2 := {| heap := <[frame := a]> (heap s); trace := trace s1 |} in
        match analyze_frame frame pose s2 with
        | (Ok (annotated_frame, keypoints, has_pose), s3) =>
            match heap s3 !! annotated_frame with
            | Some b =>
                batch_loop (set_pos_frames cap (i + 1)) pose rest
                  (acc ++ [ {| a_frame_index := JInt i;
                               a_has_pose := has_pose;
                               a_keypoints := keypoints;
                               a_annotated_image := data_url (jpg_base64 b) |} ]) s3
            | None => (Raise DanglingRef, s3)
            end
        | (Raise e, s3) => (Raise e, s3)
        end
    end.
Proof.
  cbn [batch_loop cap_set].
  unfold mbind at 1. unfold M_bind at 1. unfold lift at 1.
  unfold mbind at 1. unfold M_bind at 1. rewrite read_run.
  cbn [set_pos_frames cap_src cap_pos cap_path].
  destruct (cap_src cap ≫= fun v => frame_at v i) as [a|]; [|reflexivity].
  cbv zeta. cbn [heap trace].
  unfold mbind at 1. unfold M_bind at 1.
  destruct (analyze_frame _ _ _) as [[[[ann kps] hp]|e] s3]; [|reflexivity].
  unfold mbind at 1. unfold M_bind at 1. unfold load at 1.
  destruct (heap s3 !! ann); reflexivity.
Qed.



(** The batch endpoint on an existing file and a list of at most 50
    integer indices. *)
Lemma analyze_batch_run (fs : gmap string video) filename data v idxs s :
  fs !! path_join UPLOAD_FOLDER (secure_filename filename) = Some v ->
  data !! "frame_indices" = Some (JList (map JInt idxs)) ->
  (length idxs <= 50)%nat ->
  analyze_batch_frames fs filename data s
  = match batch_loop (open_capture fs (path_join UPLOAD_FOLDER (secure_filename filename)))
            (mp_pose_Pose true 2) (map JInt idxs) [] s with
    | (Ok results, s') => (Ok (PResults results, 200), s')
    | (Raise e, s') => (Raise e, s')
    end.
Proof.
  intros Hv Hd Hlen. unfold analyze_batch_frames, path_exists.
  rewrite (path_exists_true _ _ _ Hv), Hd. cbn [negb default from_option id py_len py_iter].
  rewrite length_map.
  unfold mbind at 1. unfold M_bind at 1. unfold lift at 1.
  destruct (50 <? Z.of_nat (length idxs)) eqn:E; [apply Z.ltb_lt in E; lia|].
  unfold mbind at 1. unfold M_bind at 1. unfold lift at 1.
  unfold mbind at 1. unfold M_bind at 1.
  destruct (batch_loop _ _ _ _ _) as [[rs|e] s']; reflexivity.
Qed.


End BatchFacts.

(** C5, as the program has it.  A batch request with more than 50
    indices never reads or analyzes a frame: the state is left as it
    was.  When the named video exists the answer is the 400 "Too many
    frames"; when it does not, the existence test comes first and the
    answer is the 404 "Video not found". *)
Theorem oversized_batch_rejected `{OpenCV} `{VideoSource} `{Libraries}
    (fs : gmap string video) (filename : string) (data : gmap string json)
    (l : list json) (s : state) :
  data !! "frame_indices" = Some (JList l) ->
  (50 < length l)%nat ->
  let r := analyze_batch_frames fs filename data s in
  snd r = s /\
  (is_Some (fs !! path_join UPLOAD_FOLDER (secure_filename filename)) ->
     fst r = Ok (PError "Too many frames (max 50)", 400)) /\
  (fs !! path_join UPLOAD_FOLDER (secure_filename filename) = None ->
     fst r = Ok (PError "Video not found", 404)).
Proof.
  intros Hd Hlen r.
  assert (Hr : r = if bool_decide (is_Some (fs !! path_join UPLOAD_FOLDER
                                             (secure_filename filename)))
                   then (Ok (PError "Too many frames (max 50)", 400), s)
                   else (Ok (PError "Video not found", 404), s)).
  { subst r. unfold analyze_batch_frames, path_exists.
    rewrite Hd. cbn [default from_option id py_len].
    destruct (bool_decide _); cbn [negb]; [|reflexivity].
    unfold mbind at 1. unfold M_bind at 1. unfold lift at 1.
    rewrite (proj2 (Z.ltb_lt 50 (Z.of_nat (length l)))) by lia. reflexivity. }
  rewrite Hr. clear Hr r.
  destruct (bool_decide _) eqn:Hex.
  - apply bool_decide_eq_true in Hex. repeat split.
    intros Hnone. rewrite Hnone in Hex. destruct Hex as [v Hsome]. discriminate.
  - apply bool_decide_eq_false in Hex. repeat split.
    intros Hsome. contradiction.
Qed.

Lemma oversized_batch_rejected_witness :
  let r := @analyze_batch_frames Demo.cv Demo.clips (Demo.libs None) Demo.uploads
             "clip.mp4" {[ "frame_indices" := JList (replicate 51 (JInt 0)) ]}
             Demo.empty_state in
  snd r = Demo.empty_state /\
  (is_Some (Demo.uploads !! "uploads/clip.mp4") ->
     fst r = Ok (PError "Too many frames (max 50)", 400)) /\
  (Demo.uploads !! "uploads/clip.mp4" = None ->
     fst r = Ok (PError "Video not found", 404)).
Proof.
  apply (@oversized_batch_rejected Demo.cv Demo.clips (Demo.libs None) Demo.uploads
           "clip.mp4" {[ "frame_indices" := JList (replicate 51 (JInt 0)) ]}
           (replicate 51 (JInt 0)) Demo.empty_state).
  - vm_compute. reflexivity.
  - simpl. lia.
Defined.

(** C5 as the specification states it fails: 51 indices for a video
    that was never uploaded are answered 404, not 400. *)
Lemma oversized_batch_missing_video :
  let frame_indices := JList (replicate 51 (JInt 0)) in
  let r := @analyze_batch_frames Demo.cv Demo.clips (Demo.libs None) Demo.uploads
             "missing.mp4" {[ "frame_indices" := frame_indices ]}
             Demo.empty_state in
  py_len frame_indices = Ok 51 /\
  fst r = Ok (PError "Video not found", 404) /\
  fst r <> Ok (PError "Too many frames (max 50)", 400).
Proof.
  vm_compute. repeat split. discriminate.
Qed.



(** * Further properties *)

(** ** The renderer as a function of the frame contents *)

Section PureRendering.
Context `{OpenCV}.

Lemma analyze_frame_pure frame pose a s :
  heap s !! frame = Some a ->
  match analysis_of pose a with
  | Ok (img, kps, flag) =>
      exists annotated s',
        analyze_frame frame pose s = (Ok (annotated, kps, flag), s') /\
        heap s' !! annotated = Some img
  | Raise e => exists s', analyze_frame frame pose s = (Raise e, s')
  end.
Proof.
  intros Hf. rewrite (analyze_frame_run frame pose a s Hf). unfold analysis_of.
  pose proof (staged_fresh a s) as Hs.
  destruct (staged a s) as [[l1 l2] s1]. destruct Hs as (_ & _ & _ & Ha & _).
  destruct (shape a) as [h w].
  destruct (process pose (BGR2RGB a)) as [lms|].
  - destruct (rendering lms w h) as [ops [e|]]; [eexists; reflexivity|].
    cbv zeta.
    destruct (map_result (keypoint_of w h) lms) as [kps|e]; [|eexists; reflexivity].
    exists l2, (painted l2 a ops s1). split; [reflexivity|apply painted_lookup].
  - exists l2, s1. split; [reflexivity|exact Ha].
Qed.

End PureRendering.

(** X1. Rendering depends on the contents of the frame only: two calls
    of the backend renderer on frames of equal contents, from any two
    stores, end in the same exception or give the same keypoints, the
    same flag and annotated frames of equal contents. *)
Theorem rendering_depends_on_contents `{OpenCV} (pose : Pose) (a : ndarray)
    (frame1 frame2 : loc) (s1 s2 : state) :
  heap s1 !! frame1 = Some a ->
  heap s2 !! frame2 = Some a ->
  same_rendering (analyze_frame frame1 pose s1) (analyze_frame frame2 pose s2).
Proof.
  intros H1 H2.
  pose proof (analyze_frame_pure frame1 pose a s1 H1) as P1.
  pose proof (analyze_frame_pure frame2 pose a s2 H2) as P2.
  unfold same_rendering.
  destruct (analysis_of pose a) as [[[img kps] flag]|e].
  - destruct P1 as (ann1 & t1 & -> & L1). destruct P2 as (ann2 & t2 & -> & L2).
    cbn [fst snd]. rewrite L1, L2. repeat split. eauto.
  - destruct P1 as (t1 & ->). destruct P2 as (t2 & ->). reflexivity.
Qed.

Lemma rendering_depends_on_contents_witness :
  let pose := Demo.fixed_pose (Some Demo.half_seen) in
  let first := @analyze_frame Demo.cv 0%nat pose Demo.st0 in
  same_rendering first (@analyze_frame Demo.cv 0%nat pose (snd first)).
Proof.
  intros pose first.
  apply (@rendering_depends_on_contents Demo.cv pose Demo.frame3);
    vm_compute; reflexivity.
Defined.

(** X2. The desktop renderer and the backend renderer do the same to
    the store and to the trace: the same copy, the same drawing calls.
    When the backend one returns, the desktop one returns the same
    annotated frame and flag; when the desktop one returns, the backend
    one returns too unless the keypoint scaling overflows. *)
Theorem renderers_agree `{OpenCV} (frame : loc) (pose : Pose) (s : state) :
  snd (analyze_and_annotate_frame frame pose s) = snd (analyze_frame frame pose s) /\
  (forall annotated keypoints flag,
     fst (analyze_frame frame pose s) = Ok (annotated, keypoints, flag) ->
     fst (analyze_and_annotate_frame frame pose s) = Ok (annotated, flag)) /\
  (forall annotated flag,
     fst (analyze_and_annotate_frame frame pose s) = Ok (annotated, flag) ->
     (exists keypoints,
        fst (analyze_frame frame pose s) = Ok (annotated, keypoints, flag)) \/
     fst (analyze_frame frame pose s) = Raise OverflowError) /\
  (forall e,
     fst (analyze_and_annotate_frame frame pose s) = Raise e ->
     fst (analyze_frame frame pose s) = Raise e).
Proof.
  destruct (heap s !! frame) as [a|] eqn:Hf.
  - rewrite (analyze_frame_run frame pose a s Hf).
    rewrite (analyze_and_annotate_frame_run frame pose a s Hf).
    destruct (staged a s) as [[l1 l2] s1]. destruct (shape a) as [h w].
    destruct (process pose (BGR2RGB a)) as [lms|].
    + destruct (rendering lms w h) as [ops [e|]]; cbv zeta.
      * cbn [fst snd]. repeat split; try discriminate.
        intros e' E. injection E as <-. reflexivity.
      * destruct (map_result (keypoint_of w h) lms) as [kps|e] eqn:Hk; cbn [fst snd].
        -- repeat split; try discriminate.
           ++ intros ann kps' flag E. injection E as <- _ <-. reflexivity.
           ++ intros ann flag E. injection E as <- <-. left. eauto.
        -- repeat split; try discriminate.
           intros ann flag E. right.
           apply map_result_raise in Hk as (lm & _ & Hk).
           apply keypoint_of_raises in Hk as ->. reflexivity.
    + cbn [fst snd]. repeat split; try discriminate.
      * intros ann kps flag E. injection E as <- _ <-. reflexivity.
      * intros ann flag E. injection E as <- <-. left. eauto.
  - rewrite (analyze_frame_dangling frame pose s Hf).
    rewrite (analyze_and_annotate_frame_dangling frame pose s Hf).
    cbn [fst snd]. repeat split; try discriminate.
    intros e E. injection E as <-. reflexivity.
Qed.

(** ** The batch endpoint against the single-frame endpoint *)

Section BatchAgainstSingle.
Context `{OpenCV} `{VideoSource} `{Libraries}.

Lemma analyze_endpoint_pure (fs : gmap string video) filename data v i a s :
  fs !! path_join UPLOAD_FOLDER (secure_filename filename) = Some v ->
  data !! "frame_index" = Some (JInt i) ->
  frame_at v i = Some a ->
  fst (analyze_frame_endpoint fs filename data s)
  = match analysis_of (mp_pose_Pose true 2) a with
    | Ok (img, kps, flag) =>
        Ok (PAnalysis {| a_frame_index := JInt i;
                         a_has_pose := flag;
                         a_keypoints := kps;
                         a_annotated_image := data_url (jpg_base64 img) |}, 200)
    | Raise e => Raise e
    end.
Proof.
  intros Hv Hd Ha.
  rewrite (analyze_endpoint_run fs filename data v i a s Hv) by (rewrite ?Hd; auto).
  cbv zeta.
  set (frame := fresh (dom (heap s))).
  set (s1 := {| heap := <[frame := a]> (heap s); trace := _ |}).
  assert (Hf : heap s1 !! frame = Some a) by apply lookup_insert_eq.
  pose proof (analyze_frame_pure frame (mp_pose_Pose true 2) a s1 Hf) as P.
  destruct (analysis_of (mp_pose_Pose true 2) a) as [[[img kps] flag]|e].
  - destruct P as (ann & s2 & -> & L). rewrite L. reflexivity.
  - destruct P as (s2 & ->). reflexivity.
Qed.

Lemma batch_loop_entries v pose :
  forall idxs (cap : VideoCapture) acc s rs s',
    cap_src cap = Some v ->
    batch_loop cap pose (map JInt idxs) acc s = (Ok rs, s') ->
    exists new,
      rs = acc ++ new /\
      Forall2 (fun i an =>
                 exists a img kps flag,
                   frame_at v i = Some a /\
                   analysis_of pose a = Ok (img, kps, flag) /\
                   an = {| a_frame_index := JInt i;
                           a_has_pose := flag;
                           a_keypoints := kps;
                           a_annotated_image := data_url (jpg_base64 img) |})
              (List.filter (readable v) idxs) new.
Proof.
  induction idxs as [|i idxs IH]; intros cap acc s rs s' Hc Hrun.
  - simpl in Hrun. injection Hrun as <- _. exists [].
    split; [symmetry; apply app_nil_r|constructor].
  - cbn [map List.filter] in *. rewrite batch_step in Hrun. cbv zeta in Hrun.
    rewrite Hc in Hrun. cbn [mbind option_bind] in Hrun. unfold readable at 1.
    destruct (frame_at v i) as [a|] eqn:Ha.
    + cbn [trace heap] in Hrun.
      set (frame := fresh (dom (heap s))) in *.
      set (s1 := {| heap := <[frame := a]> (heap s); trace := _ |}) in *.
      assert (Hf : heap s1 !! frame = Some a) by apply lookup_insert_eq.
      pose proof (analyze_frame_pure frame pose a s1 Hf) as P.
      destruct (analysis_of pose a) as [[[img kps] flag]|e] eqn:Han.
      * destruct P as (ann & s2 & E & L). rewrite E, L in Hrun.
        apply IH in Hrun as (new & -> & Hnew); [|exact Hc].
        eexists. split; [rewrite <- app_assoc; reflexivity|].
        constructor; [|exact Hnew]. exists a, img, kps, flag. auto.
      * destruct P as (s2 & E). rewrite E in Hrun. discriminate.
    + apply IH in Hrun; [exact Hrun|exact Hc].
Qed.

End BatchAgainstSingle.

(** X3. A batch answers each readable index as the single-frame
    endpoint would: when the batch endpoint returns its results, they
    are, in request order, one entry per readable index, and each entry
    is exactly the body the analyze endpoint gives for that index of
    the same video, from any store. *)
Theorem batch_entries_match_single `{OpenCV} `{VideoSource} `{Libraries}
    (fs : gmap string video) (filename : string) (data : gmap string json)
    (v : video) (idxs : list Z) (s : state) (resp : response) :
  fs !! path_join UPLOAD_FOLDER (secure_filename filename) = Some v ->
  data !! "frame_indices" = Some (JList (map JInt idxs)) ->
  (length idxs <= 50)%nat ->
  fst (analyze_batch_frames fs filename data s) = Ok resp ->
  exists results,
    resp = (PResults results, 200) /\
    Forall2 (fun i an =>
               forall (single : gmap string json) s1,
                 single !! "frame_index" = Some (JInt i) ->
                 fst (analyze_frame_endpoint fs filename single s1)
                 = Ok (PAnalysis an, 200))
            (List.filter (readable v) idxs) results.
Proof.
  intros Hv Hd Hlen Hresp.
  rewrite (analyze_batch_run fs filename data v idxs s Hv Hd Hlen) in Hresp.
  destruct (batch_loop _ _ _ _ _) as [[rs|e] s1] eqn:Hrun; [|discriminate].
  injection Hresp as <-. exists rs. split; [reflexivity|].
  apply (batch_loop_entries v) in Hrun as (new & -> & Hnew);
    [|rewrite open_capture_src; exact Hv].
  cbn [app]. eapply Forall2_impl; [exact Hnew|].
  intros i an (a & img & kps & flag & Ha & Han & ->) single s2 Hsingle.
  rewrite (analyze_endpoint_pure fs filename single v i a s2 Hv Hsingle Ha), Han.
  reflexivity.
Qed.

Lemma batch_entries_match_single_witness :
  let data : gmap string json := {[ "frame_indices" := JList (map JInt [1; 7; 0]) ]} in
  let v : @video Demo.clips := [Demo.frame3; Demo.frame3] in
  let libs := Demo.libs (Some Demo.half_seen) in
  let r := @analyze_batch_frames Demo.cv Demo.clips libs Demo.uploads "clip.mp4"
             data Demo.empty_state in
  exists resp results,
    fst r = Ok resp /\
    resp = (PResults results, 200) /\
    Forall2 (fun i an =>
               forall (single : gmap string json) s1,
                 single !! "frame_index" = Some (JInt i) ->
                 fst (@analyze_frame_endpoint Demo.cv Demo.clips libs Demo.uploads
                        "clip.mp4" single s1)
                 = Ok (PAnalysis an, 200))
            (List.filter (@readable Demo.clips v) [1; 7; 0]) results.
Proof.
  intros data v libs r.
  destruct (fst r) as [resp|e] eqn:E; [|vm_compute in E; discriminate E].
  exists resp.
  destruct (@batch_entries_match_single Demo.cv Demo.clips libs Demo.uploads
              "clip.mp4" data v [1; 7; 0] Demo.empty_state resp)
    as (results & Hresp & Hall).
  - vm_compute. reflexivity.
  - vm_compute. reflexivity.
  - simpl. lia.
  - exact E.
  - exists results. auto.
Defined.

(** X4. A batch request without the [frame_indices] field is served as
    an empty batch: for an existing video the answer is 200 with no
    results, and no frame is read or analyzed. *)
Theorem empty_batch_reads_nothing `{OpenCV} `{VideoSource} `{Libraries}
    (fs : gmap string video) (filename : string) (data : gmap string json)
    (s : state) :
  is_Some (fs !! path_join UPLOAD_FOLDER (secure_filename filename)) ->
  data !! "frame_indices" = None \/ data !! "frame_indices" = Some (JList []) ->
  analyze_batch_frames fs filename data s = (Ok (PResults [], 200), s).
Proof.
  intros [v Hv] Hd. unfold analyze_batch_frames, path_exists.
  rewrite (path_exists_true _ _ _ Hv).
  destruct Hd as [-> | ->]; reflexivity.
Qed.

Lemma empty_batch_reads_nothing_witness :
  @analyze_batch_frames Demo.cv Demo.clips (Demo.libs None) Demo.uploads "clip.mp4"
    ∅ Demo.empty_state
  = (Ok (PResults [], 200), Demo.empty_state).
Proof.
  apply (@empty_batch_reads_nothing Demo.cv Demo.clips (Demo.libs None)
           Demo.uploads "clip.mp4" ∅ Demo.empty_state).
  - vm_compute. eauto.
  - left. reflexivity.
Defined.

(** ** Uploads *)

Section SplitFacts.

Lemma rsplit_last_none sep s :
  contains_char sep s = false -> rsplit_last sep s = None.
Proof.
  induction s as [|c s IH]; [reflexivity|].
  simpl. intros Hc. apply orb_false_iff in Hc as [Hc Hs].
  rewrite (IH Hs), Hc. reflexivity.
Qed.

Lemma rsplit_last_some sep s :
  contains_char sep s = true -> exists head tail, rsplit_last sep s = Some (head, tail).
Proof.
  induction s as [|c s IH]; [discriminate|].
  simpl. intros Hc.
  destruct (rsplit_last sep s) as [[h t]|] eqn:E; [eauto|].
  destruct (Ascii.eqb c sep) eqn:Ec; [eauto|].
  simpl in Hc. destruct (IH Hc) as (h & t & Hs). discriminate.
Qed.

(** Splitting at the last separator undoes joining. *)
Lemma rsplit_last_join sep head tail :
  contains_char sep tail = false ->
  rsplit_last sep (head +:+ String sep tail) = Some (head, tail).
Proof.
  intros Ht. induction head as [|c head IH].
  - change ("" +:+ String sep tail) with (String sep tail).
    cbn [rsplit_last]. rewrite (rsplit_last_none sep tail Ht), Ascii.eqb_refl.
    reflexivity.
  - change (String c head +:+ String sep tail)
      with (String c (head +:+ String sep tail)).
    cbn [rsplit_last]. rewrite IH. reflexivity.
Qed.

(** Joining undoes splitting at the last separator. *)
Lemma rsplit_last_inv sep s head tail :
  rsplit_last sep s = Some (head, tail) ->
  s = head +:+ String sep tail /\ contains_char sep tail = false.
Proof.
  revert head. induction s as [|c s IH]; intros head Hs; [discriminate|].
  simpl in Hs. destruct (rsplit_last sep s) as [[h t]|] eqn:E.
  - injection Hs as <- <-. destruct (IH h eq_refl) as [-> Ht].
    split; [reflexivity|exact Ht].
  - destruct (Ascii.eqb c sep) eqn:Ec; [|discriminate].
    injection Hs as <- <-. apply Ascii.eqb_eq in Ec as ->.
    split; [reflexivity|].
    destruct (contains_char sep s) eqn:Hc; [|reflexivity].
    destruct (rsplit_last_some sep s Hc) as (h & t & Hs). congruence.
Qed.

End SplitFacts.

Lemma allowed_file_total (filename : string) :
  exists b, allowed_file filename = Ok b.
Proof.
  unfold allowed_file, rsplit1.
  destruct (contains_char "." filename) eqn:Hdot; [|eexists; reflexivity].
  destruct (rsplit_last_some _ _ Hdot) as (head & tail & ->).
  eexists. reflexivity.
Qed.

(** X5. [allowed_file] never raises, and it accepts exactly the names
    of the form stem, dot, extension in which the extension holds no
    further dot and is, in lower case, one of mp4, avi, mov, mkv: only
    the part after the last dot counts, whatever its case. *)
Theorem allowed_file_by_last_extension (filename : string) :
  (exists b, allowed_file filename = Ok b) /\
  (allowed_file filename = Ok true <->
   exists stem ext,
     filename = stem +:+ String "."%char ext /\
     contains_char "."%char ext = false /\
     py_lower ext ∈ ALLOWED_EXTENSIONS).
Proof.
  unfold allowed_file, rsplit1.
  destruct (contains_char "." filename) eqn:Hdot.
  - destruct (rsplit_last_some _ _ Hdot) as (head & tail & Hs).
    rewrite Hs. cbn [getitem lookup list_lookup mbind result_mbind result_bind mret result_ret].
    apply rsplit_last_inv in Hs as [-> Htail].
    split; [eauto|]. split.
    + intros E. injection E as E. apply bool_decide_eq_true in E.
      exists head, tail. auto.
    + intros (stem & ext & Heq & Hext & Hin).
      assert (Hsame : Some (head, tail) = Some (stem, ext)).
      { rewrite <- (rsplit_last_join "." head tail Htail).
        rewrite Heq. apply rsplit_last_join. exact Hext. }
      injection Hsame as -> ->.
      f_equal. apply bool_decide_eq_true. exact Hin.
  - split; [eexists; reflexivity|]. split; [discriminate|].
    intros (stem & ext & -> & _ & _). exfalso.
    clear -Hdot. induction stem as [|c stem IH].
    + simpl in Hdot. discriminate.
    + simpl in Hdot. apply orb_false_iff in Hdot as [_ Hdot]. auto.
Qed.

Section UploadFacts.
Context `{VideoProperties} `{Libraries}.

(** The cases of [upload_video], one by one. *)
Lemma upload_video_cases (files : gmap string FileStorage) (fs : gmap string video) :
  (files !! "video" = None /\
   upload_video files fs = (Done (UError "No video file", 400), fs)) \/
  (exists file, files !! "video" = Some file /\
     ((fs_filename file = "" /\
       upload_video files fs = (Done (UError "No file selected", 400), fs)) \/
      (fs_filename file <> "" /\ allowed_file (fs_filename file) = Ok false /\
       upload_video files fs = (Done (UError "Invalid file type", 400), fs)) \/
      (fs_filename file <> "" /\ allowed_file (fs_filename file) = Ok true /\
       secure_filename (fs_filename file) = "" /\
       upload_video files fs = (Failed IsADirectoryError, fs)) \/
      (fs_filename file <> "" /\ allowed_file (fs_filename file) = Ok true /\
       secure_filename (fs_filename file) <> "" /\
       let name := secure_filename (fs_filename file) in
       let fs' := <[path_join UPLOAD_FOLDER name := fs_stream file]> fs in
       upload_video files fs
       = (describe name (open_capture fs' (path_join UPLOAD_FOLDER name)), fs')))).
Proof.
  unfold upload_video.
  destruct (files !! "video") as [file|]; [right; exists file; split; [reflexivity|]|left; auto].
  destruct (String.eqb (fs_filename file) "") eqn:En.
  { apply String.eqb_eq in En. left. auto. }
  apply String.eqb_neq in En. right.
  destruct (allowed_file_total (fs_filename file)) as [b Hb].
  rewrite Hb. destruct b; [right|left; auto].
  unfold save. destruct (secure_filename (fs_filename file)) as [|c name] eqn:Es.
  - left. auto.
  - right. repeat split; try assumption; try discriminate.
Qed.

Lemma cap_get_saved (fs : gmap string video) path v prop :
  cap_get (open_capture (<[path := v]> fs) path) prop
  = if is_opened v then get_property v prop else PyFloat.zero.
Proof.
  unfold cap_get. rewrite open_capture_src, lookup_insert_eq. reflexivity.
Qed.

Lemma describe_inv name cap payload code :
  describe name cap = Done (payload, code) ->
  exists total_frames width height duration,
    PyFloat.to_int (cap_get cap CAP_PROP_FRAME_COUNT) = Ok total_frames /\
    PyFloat.to_int (cap_get cap CAP_PROP_FRAME_WIDTH) = Ok width /\
    PyFloat.to_int (cap_get cap CAP_PROP_FRAME_HEIGHT) = Ok height /\
    (if PyFloat.gt (cap_get cap CAP_PROP_FPS) PyFloat.zero
     then exists d, truediv_int_float total_frames (cap_get cap CAP_PROP_FPS) = Done d /\
                    duration = NumFloat d
     else duration = NumInt 0) /\
    code = 200 /\
    payload = UMetadata {| m_filename := name;
                           m_total_frames := total_frames;
                           m_fps := cap_get cap CAP_PROP_FPS;
                           m_width := width;
                           m_height := height;
                           m_duration := duration |}.
Proof.
  unfold describe, mbind, attempt_mbind, attempt_bind, mret, attempt_ret, lift_builtin.
  destruct (PyFloat.to_int (cap_get cap CAP_PROP_FRAME_COUNT)) as [n|]; [|discriminate].
  destruct (PyFloat.to_int (cap_get cap CAP_PROP_FRAME_WIDTH)) as [w|]; [|discriminate].
  destruct (PyFloat.to_int (cap_get cap CAP_PROP_FRAME_HEIGHT)) as [h|]; [|discriminate].
  destruct (PyFloat.gt (cap_get cap CAP_PROP_FPS) PyFloat.zero) eqn:G.
  - destruct (truediv_int_float n (cap_get cap CAP_PROP_FPS)) as [d|] eqn:D; [|discriminate].
    intros E. injection E as <- <-.
    exists n, w, h, (NumFloat d). repeat split; eauto.
  - intros E. injection E as <- <-.
    exists n, w, h, (NumInt 0). repeat split; eauto.
Qed.

Lemma describe_no_zero_division name cap :
  describe name cap <> Failed ZeroDivisionError.
Proof.
  unfold describe, mbind, attempt_mbind, attempt_bind, mret, attempt_ret, lift_builtin.
  destruct (PyFloat.to_int (cap_get cap CAP_PROP_FRAME_COUNT)) as [n|]; [|discriminate].
  destruct (PyFloat.to_int (cap_get cap CAP_PROP_FRAME_WIDTH)) as [w|]; [|discriminate].
  destruct (PyFloat.to_int (cap_get cap CAP_PROP_FRAME_HEIGHT)) as [h|]; [|discriminate].
  destruct (PyFloat.gt (cap_get cap CAP_PROP_FPS) PyFloat.zero) eqn:G; [|discriminate].
  unfold truediv_int_float.
  destruct (PyFloat.of_int n) as [fn|]; [|discriminate].
  destruct (cap_get cap CAP_PROP_FPS) as [sg|sg| |sg m e]; try discriminate.
Qed.

End UploadFacts.

(** X6. An upload that is answered with an error has stored nothing:
    the status is 400, the files on disk are as before, and the message
    tells which test failed: no [video] part, an empty file name, or a
    name [allowed_file] refuses. *)
Theorem rejected_upload_stores_nothing `{VideoProperties} `{Libraries}
    (files : gmap string FileStorage) (fs fs' : gmap string video)
    (msg : string) (code : Z) :
  upload_video files fs = (Done (UError msg, code), fs') ->
  code = 400 /\ fs' = fs /\
  ((files !! "video" = None /\ msg = "No video file") \/
   (exists file, files !! "video" = Some file /\
      ((fs_filename file = "" /\ msg = "No file selected") \/
       (fs_filename file <> "" /\ allowed_file (fs_filename file) = Ok false /\
        msg = "Invalid file type")))).
Proof.
  intros Hrun.
  destruct (upload_video_cases files fs)
    as [[Hnone E]|(file & Hfile & [[Hn E]|[(Hn & Ha & E)|[(Hn & Ha & Hs & E)|(Hn & Ha & Hs & E)]]])];
    rewrite E in Hrun.
  - injection Hrun as <- <- <-. split; [reflexivity|]. split; [reflexivity|].
    left. split; [assumption|reflexivity].
  - injection Hrun as <- <- <-. split; [reflexivity|]. split; [reflexivity|].
    right. exists file. split; [assumption|]. left. split; [assumption|reflexivity].
  - injection Hrun as <- <- <-. split; [reflexivity|]. split; [reflexivity|].
    right. exists file. split; [assumption|]. right.
    split; [assumption|]. split; [assumption|reflexivity].
  - discriminate.
  - cbv zeta in Hrun. injection Hrun as Hd _.
    apply describe_inv in Hd as (n & w & h & d & _ & _ & _ & _ & _ & Hp).
    discriminate.
Qed.

Lemma rejected_upload_stores_nothing_witness :
  400 = 400 /\ Demo.uploads = Demo.uploads /\
  ((({[ "video" := Studio.text_upload ]} : gmap string (@FileStorage Demo.clips))
      !! "video" = None /\ "Invalid file type" = "No video file") \/
   (exists file,
      ({[ "video" := Studio.text_upload ]} : gmap string (@FileStorage Demo.clips))
        !! "video" = Some file /\
      ((fs_filename file = "" /\ "Invalid file type" = "No file selected") \/
       (fs_filename file <> "" /\ allowed_file (fs_filename file) = Ok false /\
        "Invalid file type" = "Invalid file type")))).
Proof.
  apply (@rejected_upload_stores_nothing Demo.clips Studio.props (Demo.libs None)
           {[ "video" := Studio.text_upload ]} Demo.uploads Demo.uploads).
  vm_compute. reflexivity.
Defined.


(** X8. The upload endpoint never divides by zero: the frame rate is
    used as a divisor only when it is above 0.  The duration it reports
    is the frame count divided by the frame rate in that case, and the
    integer 0 otherwise (a rate of 0, a negative one, a NaN). *)
Theorem upload_duration_is_guarded `{VideoProperties} `{Libraries}
    (files : gmap string FileStorage) (fs : gmap string video) :
  fst (upload_video files fs) <> Failed ZeroDivisionError /\
  forall m code,
    fst (upload_video files fs) = Done (UMetadata m, code) ->
    if PyFloat.gt (m_fps m) PyFloat.zero then
      exists count,
        PyFloat.of_int (m_total_frames m) = Ok count /\
        m_duration m = NumFloat (SFdiv PyFloat.prec PyFloat.emax count (m_fps m))
    else m_duration m = NumInt 0.
Proof.
  destruct (upload_video_cases files fs)
    as [[Hnone E]|(file & Hfile & [[Hn E]|[(Hn & Ha & E)|[(Hn & Ha & Hs & E)|(Hn & Ha & Hs & E)]]])];
    rewrite E; cbn [fst]; try (split; [discriminate|intros m code Hm; discriminate Hm]).
  cbv zeta. cbn [fst]. split; [apply describe_no_zero_division|].
  intros m code Hd.
  apply describe_inv in Hd as (n & w & h & d & _ & _ & _ & Hdur & _ & Hp).
  injection Hp as ->. cbn [m_fps m_total_frames m_duration].
  destruct (PyFloat.gt _ PyFloat.zero); [|exact Hdur].
  destruct Hdur as (q & Hq & ->). unfold truediv_int_float in Hq.
  destruct (PyFloat.of_int n) as [fn|]; [|discriminate].
  exists fn. split; [reflexivity|].
  destruct (cap_get _ CAP_PROP_FPS); try discriminate; injection Hq as <-; reflexivity.
Qed.

(** X9. A file with an allowed name that the decoder cannot open is
    accepted all the same: it is written to disk and described with a
    frame count, a frame rate, a width and a height of 0 and a duration
    of 0. *)
Theorem undecodable_upload_is_accepted `{VideoProperties} `{Libraries}
    (files : gmap string FileStorage) (fs : gmap string video) (file : FileStorage) :
  files !! "video" = Some file ->
  allowed_file (fs_filename file) = Ok true ->
  secure_filename (fs_filename file) <> "" ->
  is_opened (fs_stream file) = false ->
  upload_video files fs
  = (Done (UMetadata {| m_filename := secure_filename (fs_filename file);
                        m_total_frames := 0;
                        m_fps := PyFloat.zero;
                        m_width := 0;
                        m_height := 0;
                        m_duration := NumInt 0 |}, 200),
     <[path_join UPLOAD_FOLDER (secure_filename (fs_filename file)) := fs_stream file]> fs).
Proof.
  intros Hfile Hallowed Hname Hopen.
  destruct (upload_video_cases files fs)
    as [[Hnone E]|(file' & Hfile' & [[Hn E]|[(Hn & Ha & E)|[(Hn & Ha & Hs & E)|(Hn & Ha & Hs & E)]]])];
    try congruence.
  - assert (file' = file) by congruence. subst file'.
    rewrite Hn in Hallowed. vm_compute in Hallowed. discriminate.
  - assert (file' = file) by congruence. subst file'.
    rewrite E. cbv zeta. unfold describe.
    rewrite !cap_get_saved, Hopen. reflexivity.
Qed.


Lemma undecodable_upload_is_accepted_witness :
  @upload_video Demo.clips Studio.props (Demo.libs None)
    {[ "video" := Studio.broken_upload ]} Demo.uploads
  = (Done (UMetadata {| m_filename := "broken.avi";
                        m_total_frames := 0;
                        m_fps := PyFloat.zero;
                        m_width := 0;
                        m_height := 0;
                        m_duration := NumInt 0 |}, 200),
     <["uploads/broken.avi" := []]> Demo.uploads).
Proof.
  apply (@undecodable_upload_is_accepted Demo.clips Studio.props (Demo.libs None)
           {[ "video" := Studio.broken_upload ]} Demo.uploads Studio.broken_upload).
  - vm_compute. reflexivity.
  - vm_compute. reflexivity.
  - discriminate.
  - reflexivity.
Defined.

(** ** The desktop monad *)

Section DeskFacts.

Lemma grows_refl {E} (field : desk -> list E) (P : E -> Prop) d : grows field P d d.
Proof. exists []. split; [symmetry; apply app_nil_r|constructor]. Qed.

Lemma grows_trans {E} (field : desk -> list E) (P : E -> Prop) d1 d2 d3 :
  grows field P d1 d2 -> grows field P d2 d3 -> grows field P d1 d3.
Proof.
  intros (e1 & E1 & F1) (e2 & E2 & F2). exists (e1 ++ e2). split.
  - rewrite E2, E1, app_assoc. reflexivity.
  - apply Forall_app. split; assumption.
Qed.

Lemma grows_same {E} (field : desk -> list E) (P : E -> Prop) d d' :
  field d' = field d -> grows field P d d'.
Proof. intros E0. exists []. split; [rewrite app_nil_r; exact E0|constructor]. Qed.

Lemma grows_one {E} (field : desk -> list E) (P : E -> Prop) d d' ev :
  field d' = field d ++ [ev] -> P ev -> grows field P d d'.
Proof. intros E0 Hev. exists [ev]. split; [exact E0|repeat constructor; exact Hev]. Qed.

Lemma grows_weaken {E} (field : desk -> list E) (P P' : E -> Prop) d d' :
  (forall ev, P ev -> P' ev) -> grows field P d d' -> grows field P' d d'.
Proof.
  intros Hw (evs & E0 & F). exists evs. split; [exact E0|].
  eapply Forall_impl; eassumption.
Qed.

Lemma redraws_refl display d : redraws display d d.
Proof. repeat split; apply grows_refl. Qed.

Lemma redraws_trans display d1 d2 d3 :
  redraws display d1 d2 -> redraws display d2 d3 -> redraws display d1 d3.
Proof.
  intros (T1 & I1 & H1 & G1) (T2 & I2 & H2 & G2). repeat split.
  - congruence.
  - congruence.
  - intros l Hl. rewrite H2, H1 by exact Hl. reflexivity.
  - eapply grows_trans; eassumption.
Qed.

Context (R : desk -> desk -> Prop).
Context (R_refl : forall d, R d d).
Context (R_trans : forall d1 d2 d3, R d1 d2 -> R d2 d3 -> R d1 d3).

Lemma satisfies_ret {A} (a : A) (Q : A -> desk -> Prop) d :
  Q a d -> satisfies R (mret a) Q d.
Proof.
  intros HQ. split; [apply R_refl|].
  intros b E. injection E as <-. exact HQ.
Qed.

Lemma satisfies_bind {A B} (m : D A) (k : A -> D B) Q Q' d :
  satisfies R m Q d ->
  (forall a d1, R d d1 -> Q a d1 -> satisfies R (k a) Q' d1) ->
  satisfies R (m ≫= k) Q' d.
Proof.
  intros [HR HQ] Hk. unfold satisfies, mbind, D_bind.
  destruct (m d) as [[a|e] d1]; simpl in *.
  - destruct (Hk a d1 HR (HQ a eq_refl)) as [HR' HQ']. split.
    + eapply R_trans; eassumption.
    + exact HQ'.
  - split; [exact HR|discriminate].
Qed.

Lemma satisfies_weaken {A} (m : D A) (Q Q' : A -> desk -> Prop) d :
  satisfies R m Q d ->
  (forall a d1, R d d1 -> Q a d1 -> Q' a d1) ->
  satisfies R m Q' d.
Proof.
  intros [HR HQ] Hw. split; [exact HR|].
  intros a E. apply Hw; [exact HR|apply HQ; exact E].
Qed.

Lemma satisfies_attempted {A} (r : attempt A) (Q : A -> desk -> Prop) d :
  (forall a, r = Done a -> Q a d) -> satisfies R (attempted r) Q d.
Proof. intros HQ. split; [apply R_refl|exact HQ]. Qed.

Lemma satisfies_for_each {A} (l : list A) (body : A -> D unit) d :
  (forall a d1, satisfies R (body a) (fun _ _ => True) d1) ->
  satisfies R (for_each_D l body) (fun _ _ => True) d.
Proof.
  intros Hb. revert d. induction l as [|a l IH]; intros d; simpl.
  - apply satisfies_ret. exact I.
  - eapply satisfies_bind; [apply Hb|]. intros _ d1 _ _. apply IH.
Qed.

End DeskFacts.
(** ** Drawing the info text *)

Section DrawFacts.
Context `{HighGUI}.

Lemma putText_redraws img text org d : redraws img d (snd (putText img text org d)).
Proof.
  unfold putText, on_store, record, load, store, mbind, D_bind. simpl.
  destruct (heap (mem d) !! img) as [a|]; simpl.
  - repeat split; simpl; try reflexivity.
    + intros l Hl. apply lookup_insert_ne. congruence.
    + eapply grows_one; [reflexivity|exact I].
  - destruct d; apply redraws_refl.
Qed.

Lemma rectangle_redraws img pt1 pt2 color thickness d :
  redraws img d (snd (rectangle img pt1 pt2 color thickness d)).
Proof.
  unfold rectangle, on_store, record, load, store, mbind, D_bind. simpl.
  destruct (heap (mem d) !! img) as [a|]; simpl.
  - repeat split; simpl; try reflexivity.
    + intros l Hl. apply lookup_insert_ne. congruence.
    + eapply grows_one; [reflexivity|exact I].
  - destruct d; apply redraws_refl.
Qed.

Lemma imshow_redraws window img d : redraws img d (snd (imshow window img d)).
Proof.
  unfold imshow, on_store, record, load, mbind, D_bind. simpl.
  destruct (heap (mem d) !! img) as [a|]; simpl.
  - destruct d as [[hp tr] sc inp]. repeat split; simpl; try reflexivity.
    eapply grows_one; [reflexivity|exact I].
  - destruct d as [[hp tr] sc inp]; apply redraws_refl.
Qed.

Lemma load_redraws display l d : redraws display d (snd (on_store (load l) d)).
Proof.
  unfold on_store, load. destruct (heap (mem d) !! l);
    destruct d as [[hp tr] sc inp]; apply redraws_refl.
Qed.

Lemma draw_info_redraws display current total_frames fps overlay_status d :
  redraws display d (snd (draw_info display current total_frames fps overlay_status d)).
Proof.
  pose proof (redraws_refl display) as Hr.
  pose proof (redraws_trans display) as Ht.
  assert (Hgoal : satisfies (redraws display)
            (draw_info display current total_frames fps overlay_status)
            (fun _ _ => True) d); [|exact (proj1 Hgoal)].
  unfold draw_info.
  eapply (satisfies_bind _ Ht) with (Q := fun _ _ => True).
  { split; [apply load_redraws|trivial]. }
  intros a d1 _ _. destruct (shape a) as [h w].
  eapply (satisfies_bind _ Ht) with (Q := fun _ _ => True).
  { apply (satisfies_attempted _ Hr). trivial. }
  intros seconds d2 _ _.
  eapply (satisfies_bind _ Ht) with (Q := fun _ _ => True).
  { apply (satisfies_for_each _ Hr Ht). intros [i text] d3.
    split; [apply putText_redraws|trivial]. }
  intros _ d3 _ _.
  eapply (satisfies_bind _ Ht) with (Q := fun _ _ => True).
  { apply (satisfies_attempted _ Hr). trivial. }
  intros ratio d4 _ _.
  eapply (satisfies_bind _ Ht) with (Q := fun _ _ => True).
  { apply (satisfies_attempted _ Hr). trivial. }
  intros filled d5 _ _.
  eapply (satisfies_bind _ Ht) with (Q := fun _ _ => True).
  { apply (satisfies_attempted _ Hr). trivial. }
  intros bar_width d6 _ _.
  eapply (satisfies_bind _ Ht) with (Q := fun _ _ => True).
  { split; [apply rectangle_redraws|trivial]. }
  intros _ d7 _ _.
  eapply (satisfies_bind _ Ht) with (Q := fun _ _ => True).
  { split; [apply rectangle_redraws|trivial]. }
  intros _ d8 _ _.
  split; [apply imshow_redraws|trivial].
Qed.

End DrawFacts.
(** ** The renderer as the desktop tool uses it *)

Section OverlayFacts.
Context `{OpenCV}.

Lemma overlay_of_paint pose a h w lms ops :
  shape a = (h, w) ->
  process pose (BGR2RGB a) = Some lms ->
  rendering lms w h = (ops, None) ->
  overlay_of pose a (paint a ops).
Proof.
  intros Hs Hp Hr s frame Hf.
  rewrite (analyze_and_annotate_frame_run frame pose a s Hf).
  destruct (staged a s) as [[l1 l2] s1]. rewrite Hs, Hp, Hr.
  eexists _, _. split; [reflexivity|]. apply painted_lookup.
Qed.

Lemma event_of_silent buf op : silent (event_of buf op).
Proof. destruct op; exact I. Qed.

(** What a call of the renderer leaves: the buffers there were are
    kept, the decoder is not called, and the buffer returned is a new
    one that holds the overlay, or the plain copy without a pose. *)
Lemma annotate_outcome frame pose a s :
  heap s !! frame = Some a ->
  let r := analyze_and_annotate_frame frame pose s in
  (exists evs, trace (snd r) = trace s ++ evs /\ Forall silent evs) /\
  (forall l b, heap s !! l = Some b -> heap (snd r) !! l = Some b) /\
  (forall annotated flag, fst r = Ok (annotated, flag) ->
     heap s !! annotated = None /\
     exists img, heap (snd r) !! annotated = Some img /\
                 if flag then overlay_of pose a img else img = a).
Proof.
  intros Hf. cbv zeta.
  pose proof (overlay_of_paint pose a) as Hov.
  rewrite (analyze_and_annotate_frame_run frame pose a s Hf).
  pose proof (staged_fresh a s) as Hs.
  assert (Ht : trace (staged a s).2 = trace s ++ [EvProcess (BGR2RGB a)])
    by reflexivity.
  destruct (staged a s) as [[l1 l2] s1]. simpl in Ht.
  destruct Hs as (H1 & H2 & Hne & Ha & Hrgb & Hother).
  assert (Hkeep : forall l b, heap s !! l = Some b -> heap s1 !! l = Some b).
  { intros l b Hl. rewrite Hother; [exact Hl|congruence|congruence]. }
  assert (Hkeep' : forall ops l b, heap s !! l = Some b ->
                     heap (painted l2 a ops s1) !! l = Some b).
  { intros ops l b Hl. rewrite painted_lookup_ne by congruence. auto. }
  assert (Htr : forall ops, exists evs,
             trace (painted l2 a ops s1) = trace s ++ evs /\ Forall silent evs).
  { intros ops. exists (EvProcess (BGR2RGB a) :: map (event_of l2) ops). split.
    - simpl. rewrite Ht, <- app_assoc. reflexivity.
    - constructor; [exact I|]. apply Forall_forall. intros ev Hin.
      apply list_elem_of_In, in_map_iff in Hin as (op & <- & _).
      apply event_of_silent. }
  destruct (shape a) as [h w].
  destruct (process pose (BGR2RGB a)) as [lms|].
  - destruct (rendering lms w h) as [ops [e|]] eqn:Er; simpl.
    + split; [apply Htr|]. split; [apply Hkeep'|discriminate].
    + split; [apply Htr|]. split; [apply Hkeep'|].
      intros ann flag E. injection E as <- <-. split; [exact H2|].
      exists (paint a ops). split; [apply lookup_insert_eq|].
      eapply Hov; [reflexivity|reflexivity|exact Er].
  - simpl. split.
    { exists [EvProcess (BGR2RGB a)]. split; [exact Ht|repeat constructor]. }
    split; [exact Hkeep|].
    intros ann flag E. injection E as <- <-. split; [exact H2|].
    exists a. split; [exact Ha|reflexivity].
Qed.

End OverlayFacts.
(** ** One turn of the picker *)

Section TurnFacts.
Context `{OpenCV} `{HighGUI} `{VideoProperties} `{Libraries}.
Context (P : event -> Prop) (P_silent : forall ev, silent ev -> P ev).
Context (v : video) (pose : Pose).

Lemma behaves_refl d : behaves P v pose d d.
Proof. split; apply grows_refl. Qed.

Lemma behaves_trans d1 d2 d3 :
  behaves P v pose d1 d2 -> behaves P v pose d2 d3 -> behaves P v pose d1 d3.
Proof. intros [T1 S1] [T2 S2]. split; eapply grows_trans; eassumption. Qed.

Lemma quiet_saves ev : quiet ev -> saves_overlay v pose ev.
Proof. destruct ev; simpl; tauto. Qed.

Lemma redraws_behaves display d d' : redraws display d d' -> behaves P v pose d d'.
Proof.
  intros (T & _ & _ & G). split.
  - apply grows_same. exact T.
  - eapply grows_weaken; [apply quiet_saves|exact G].
Qed.

Lemma record_behaves ev (Q : unit -> desk -> Prop) d :
  quiet ev ->
  (forall d', mem d' = mem d -> Q tt d') ->
  satisfies (behaves P v pose) (record ev) Q d.
Proof.
  intros Hq HQ. split.
  - split; [apply grows_same; reflexivity|].
    eapply grows_one; [reflexivity|]. apply quiet_saves. exact Hq.
  - intros [] _. apply HQ. reflexivity.
Qed.

Lemma on_store_behaves {A} (m : M A) (Q : A -> desk -> Prop) d :
  (exists evs, trace (snd (m (mem d))) = trace (mem d) ++ evs /\ Forall P evs) ->
  (forall a, fst (m (mem d)) = Ok a ->
             Q a {| mem := snd (m (mem d)); screen := screen d; stdin := stdin d |}) ->
  satisfies (behaves P v pose) (on_store m) Q d.
Proof.
  intros Ht HQ. unfold satisfies, on_store.
  destruct (m (mem d)) as [[a|e] s]; simpl in *.
  - split; [split; [exact Ht|apply grows_same; reflexivity]|].
    intros b E. injection E as <-. apply HQ. reflexivity.
  - split; [split; [exact Ht|apply grows_same; reflexivity]|discriminate].
Qed.

Lemma draw_info_behaves display current total_frames fps overlay_status d
    (Q : unit -> desk -> Prop) :
  (forall d', redraws display d d' -> Q tt d') ->
  satisfies (behaves P v pose)
    (draw_info display current total_frames fps overlay_status) Q d.
Proof.
  intros HQ.
  pose proof (draw_info_redraws display current total_frames fps overlay_status d) as Hr.
  split; [eapply redraws_behaves; exact Hr|].
  intros [] _. apply HQ. exact Hr.
Qed.

(** Seeking and reading. *)
Lemma read_behaves (cap : VideoCapture) n d :
  cap_src cap = Some v ->
  P (EvRead (cap_path cap) n) ->
  satisfies (behaves P v pose) (on_store (read (set_pos_frames cap n)))
    (fun r d' =>
       match fst r with
       | Some frame => exists a, frame_at v n = Some a /\
                                 heap (mem d') !! frame = Some a
       | None => frame_at v n = None
       end) d.
Proof.
  intros Hc HP. apply on_store_behaves.
  - rewrite read_run. cbn [cap_src cap_pos cap_path set_pos_frames].
    rewrite Hc. cbn [mbind option_bind].
    exists [EvRead (cap_path cap) n].
    destruct (frame_at v n); simpl; (split; [reflexivity|repeat constructor; exact HP]).
  - intros [frame cap'] E. rewrite read_run in *.
    cbn [cap_src cap_pos cap_path set_pos_frames] in *.
    rewrite Hc in *. cbn [mbind option_bind] in *.
    destruct (frame_at v n) as [a|]; simpl in *.
    + injection E as <- <-. simpl. exists a. split; [reflexivity|].
      apply lookup_insert_eq.
    + injection E as <- <-. reflexivity.
Qed.

Lemma copy_behaves frame a d :
  heap (mem d) !! frame = Some a ->
  satisfies (behaves P v pose) (on_store (copy frame))
    (fun display d' => display <> frame /\ heap (mem d') !! frame = Some a) d.
Proof.
  intros Hf. apply on_store_behaves.
  - unfold copy. run_monad. rewrite Hf. simpl.
    exists []. split; [symmetry; apply app_nil_r|constructor].
  - intros display. unfold copy. run_monad. rewrite Hf. simpl.
    intros E. injection E as <-.
    assert (Hfresh : heap (mem d) !! fresh (dom (heap (mem d))) = None).
    { apply not_elem_of_dom. apply is_fresh. }
    assert (fresh (dom (heap (mem d))) <> frame) by congruence.
    split; [assumption|]. rewrite lookup_insert_ne by assumption. exact Hf.
Qed.

Lemma annotate_behaves frame a d :
  heap (mem d) !! frame = Some a ->
  satisfies (behaves P v pose) (on_store (analyze_and_annotate_frame frame pose))
    (fun r d' =>
       fst r <> frame /\ heap (mem d') !! frame = Some a /\
       exists img, heap (mem d') !! fst r = Some img /\
                   if snd r then overlay_of pose a img else img = a) d.
Proof.
  intros Hf.
  pose proof (annotate_outcome frame pose a (mem d) Hf) as (Ht & Hkeep & Hres).
  apply on_store_behaves.
  - destruct Ht as (evs & E & F). exists evs. split; [exact E|].
    eapply Forall_impl; [exact F|exact P_silent].
  - intros [annotated flag] E. simpl.
    destruct (Hres annotated flag E) as (Hnew & img & Himg & Hov).
    split; [congruence|]. split; [apply Hkeep; exact Hf|].
    exists img. split; assumption.
Qed.

(** The first half of a turn. *)
Lemma present_behaves (cap : VideoCapture) total_frames fps p d :
  cap_src cap = Some v ->
  P (EvRead (cap_path cap) (current_frame p)) ->
  satisfies (behaves P v pose) (present cap pose total_frames fps p)
    (fun shown d' =>
       match shown with
       | Some frame => exists a, frame_at v (current_frame p) = Some a /\
                                 heap (mem d') !! frame = Some a
       | None => frame_at v (current_frame p) = None
       end) d.
Proof.
  intros Hc HP. unfold present.
  eapply (satisfies_bind _ behaves_trans); [apply read_behaves; assumption|].
  intros [[frame|] cap'] d1 _ Hread; simpl in Hread.
  2:{ apply (satisfies_ret _ behaves_refl). exact Hread. }
  destruct Hread as (a & Ha & Hf).
  eapply (satisfies_bind _ behaves_trans)
    with (Q := fun display d' => display <> frame /\ heap (mem d') !! frame = Some a).
  { destruct (show_overlay p); [|apply copy_behaves; exact Hf].
    eapply (satisfies_bind _ behaves_trans); [apply annotate_behaves; exact Hf|].
    intros [annotated [|]] d2 _ (Hne & Hf2 & _); simpl in *.
    - apply (satisfies_ret _ behaves_refl). split; assumption.
    - apply copy_behaves. exact Hf2. }
  intros display d2 _ [Hne Hf2].
  eapply (satisfies_bind _ behaves_trans)
    with (Q := fun _ d' => heap (mem d') !! frame = Some a).
  { apply draw_info_behaves. intros d' (_ & _ & Hheap & _).
    rewrite Hheap by congruence. exact Hf2. }
  intros _ d3 _ Hf3. apply (satisfies_ret _ behaves_refl).
  exists a. split; assumption.
Qed.

(** The [g] command. *)
Lemma go_to_behaves total_frames p d :
  satisfies (behaves P v pose) (go_to total_frames p)
    (fun p' _ => selected_frame p' = selected_frame p /\
                 show_overlay p' = show_overlay p /\
                 (in_range total_frames p -> in_range total_frames p')) d.
Proof.
  unfold go_to.
  eapply (satisfies_bind _ behaves_trans) with (Q := fun _ _ => True).
  { apply record_behaves; [exact I|trivial]. }
  intros _ d1 _ _.
  eapply (satisfies_bind _ behaves_trans) with (Q := fun _ _ => True).
  { unfold input. split; [|trivial].
    destruct (stdin d1); simpl;
      (split; [apply grows_same; reflexivity|
               eapply grows_one; [reflexivity|exact I]]). }
  intros [text|] d2 _ _; [|apply (satisfies_ret _ behaves_refl); tauto].
  destruct (int_of_str text) as [frame_num|].
  - destruct ((0 <=? frame_num) && (frame_num <? total_frames)) eqn:E.
    + apply (satisfies_ret _ behaves_refl). split; [reflexivity|].
      split; [reflexivity|]. intros _. unfold in_range. simpl.
      apply andb_true_iff in E as [E1 E2]. lia.
    + eapply (satisfies_bind _ behaves_trans) with (Q := fun _ _ => True).
      { apply record_behaves; [exact I|trivial]. }
      intros _ d3 _ _. apply (satisfies_ret _ behaves_refl). tauto.
  - eapply (satisfies_bind _ behaves_trans) with (Q := fun _ _ => True).
    { apply record_behaves; [exact I|trivial]. }
    intros _ d3 _ _. apply (satisfies_ret _ behaves_refl). tauto.
Qed.

(** The [a] command, on the frame of the turn. *)
Lemma analyze_and_save_behaves total_frames fps frame a p d :
  frame_at v (current_frame p) = Some a ->
  heap (mem d) !! frame = Some a ->
  satisfies (behaves P v pose) (analyze_and_save pose total_frames fps frame p)
    (fun p' _ => selected_frame p' = selected_frame p /\
                 current_frame p' = current_frame p /\
                 playing p' = playing p) d.
Proof.
  intros Ha Hf. unfold analyze_and_save.
  eapply (satisfies_bind _ behaves_trans); [apply annotate_behaves; exact Hf|].
  intros [annotated [|]] d1 _ (Hne & Hf1 & img & Himg & Hov); simpl in *.
  - eapply (satisfies_bind _ behaves_trans) with (Q := fun _ _ => True).
    { unfold satisfies, imwrite, on_store, record, load, mbind, D_bind.
      rewrite Himg. simpl. split; [|trivial]. split; [apply grows_same; reflexivity|].
      eapply grows_one; [reflexivity|]. simpl.
      exists (current_frame p), a. repeat split; assumption. }
    intros _ d2 _ _.
    eapply (satisfies_bind _ behaves_trans) with (Q := fun _ _ => True).
    { apply record_behaves; [exact I|trivial]. }
    intros _ d3 _ _.
    eapply (satisfies_bind _ behaves_trans) with (Q := fun _ _ => True).
    { apply draw_info_behaves. trivial. }
    intros _ d4 _ _. apply (satisfies_ret _ behaves_refl). simpl. tauto.
  - eapply (satisfies_bind _ behaves_trans) with (Q := fun _ _ => True).
    { apply record_behaves; [exact I|trivial]. }
    intros _ d2 _ _. apply (satisfies_ret _ behaves_refl). tauto.
Qed.

Lemma advance_selected total_frames p :
  selected_frame (advance total_frames p) = selected_frame p.
Proof. unfold advance. destruct (playing p); reflexivity. Qed.

Lemma advance_in_range total_frames p :
  in_range total_frames p -> in_range total_frames (advance total_frames p).
Proof.
  unfold advance, in_range. destruct (playing p); [|tauto]. simpl.
  destruct (total_frames <=? current_frame p + 1) eqn:E; lia.
Qed.

(** The second half of a turn. *)
Lemma on_key_behaves total_frames fps frame a raw p d :
  frame_at v (current_frame p) = Some a ->
  heap (mem d) !! frame = Some a ->
  satisfies (behaves P v pose) (on_key pose total_frames fps frame raw p)
    (fun next _ =>
       match next with
       | Break p' => selected_frame p' = Some (current_frame p) /\
                     current_frame p' = current_frame p
       | Continue p' => selected_frame p' = selected_frame p /\
                        (0 < total_frames -> in_range total_frames p ->
                         in_range total_frames p')
       end) d.
Proof.
  intros Ha Hf. unfold on_key. generalize (Z.land raw 255) as key. intros key.
  destruct ((key =? 113) || (key =? 27)).
  { apply (satisfies_ret _ behaves_refl). split; reflexivity. }
  eapply (satisfies_bind _ behaves_trans)
    with (Q := fun p' _ => selected_frame p' = selected_frame p /\
                           (0 < total_frames -> in_range total_frames p ->
                            in_range total_frames p')).
  2:{ intros p' d1 _ [Hsel Hin]. apply (satisfies_ret _ behaves_refl).
      rewrite advance_selected. split; [exact Hsel|].
      intros Hpos Hp. apply advance_in_range. auto. }
  destruct ((key =? 32) || (key =? 13)).
  { apply (satisfies_ret _ behaves_refl). split; [reflexivity|]. intros _ Hp; exact Hp. }
  destruct (key =? 97).
  { eapply (satisfies_weaken _);
      [apply (analyze_and_save_behaves total_frames fps frame a); assumption|].
    intros p' d1 _ (Hsel & Hcur & _). split; [exact Hsel|].
    unfold in_range. rewrite Hcur. tauto. }
  destruct (key =? 116).
  { eapply (satisfies_bind _ behaves_trans) with (Q := fun _ _ => True).
    { apply record_behaves; [exact I|trivial]. }
    intros _ d1 _ _. apply (satisfies_ret _ behaves_refl).
    split; [reflexivity|]. intros _ Hp; exact Hp. }
  destruct ((key =? 91) || (key =? 44)).
  { apply (satisfies_ret _ behaves_refl). split; [reflexivity|].
    unfold in_range. simpl. lia. }
  destruct ((key =? 93) || (key =? 46)).
  { apply (satisfies_ret _ behaves_refl). split; [reflexivity|].
    unfold in_range. simpl. lia. }
  destruct ((key =? 45) || (key =? 95)).
  { apply (satisfies_ret _ behaves_refl). split; [reflexivity|].
    unfold in_range. simpl. lia. }
  destruct ((key =? 61) || (key =? 43)).
  { apply (satisfies_ret _ behaves_refl). split; [reflexivity|].
    unfold in_range. simpl. lia. }
  destruct (key =? 103).
  { eapply (satisfies_weaken _); [apply go_to_behaves|].
    intros p' d1 _ (Hsel & _ & Hin). split; [exact Hsel|]. intros _. exact Hin. }
  apply (satisfies_ret _ behaves_refl). split; [reflexivity|]. intros _ Hp; exact Hp.
Qed.

(** The loop: [Inv] holds of the variables all along when it is kept
    by the moves that stay in range. *)
Lemma picker_loop_behaves (cap : VideoCapture) total_frames fps (Inv : picker -> Prop) :
  cap_src cap = Some v ->
  (forall p, Inv p -> P (EvRead (cap_path cap) (current_frame p))) ->
  (forall p p', Inv p ->
     (0 < total_frames -> in_range total_frames p -> in_range total_frames p') ->
     Inv p') ->
  forall keys p d,
    Inv p -> selected_frame p = None ->
    satisfies (behaves P v pose) (picker_loop cap pose total_frames fps keys p)
      (fun ended _ =>
         forall p' rest, ended = Some (p', rest) -> Inv p' /\ left_on v p') d.
Proof.
  intros Hc Hread Hkeep keys.
  induction keys as [|raw keys IH]; intros p d Hp Hsel; simpl.
  - eapply (satisfies_bind _ behaves_trans);
      [apply present_behaves; [exact Hc|apply Hread; exact Hp]|].
    intros [frame|] d1 _ Hshown.
    + eapply (satisfies_bind _ behaves_trans) with (Q := fun _ _ => True).
      { apply record_behaves; [exact I|trivial]. }
      intros _ d2 _ _. apply (satisfies_ret _ behaves_refl). discriminate.
    + apply (satisfies_ret _ behaves_refl).
      intros p' rest E. injection E as <- <-. split; [exact Hp|].
      unfold left_on. rewrite Hsel. exact Hshown.
  - eapply (satisfies_bind _ behaves_trans);
      [apply present_behaves; [exact Hc|apply Hread; exact Hp]|].
    intros [frame|] d1 _ Hshown.
    + destruct Hshown as (a & Ha & Hf).
      eapply (satisfies_bind _ behaves_trans)
        with (Q := fun _ d' => heap (mem d') !! frame = Some a).
      { apply record_behaves; [exact I|]. intros d' ->. exact Hf. }
      intros _ d2 _ Hf2.
      eapply (satisfies_bind _ behaves_trans);
        [apply (on_key_behaves total_frames fps frame a); eassumption|].
      intros [p'|p'] d3 _ Hnext.
      * destruct Hnext as [Hsel' Hin]. apply IH.
        -- eapply Hkeep; [exact Hp|exact Hin].
        -- congruence.
      * destruct Hnext as [Hsel' Hcur]. apply (satisfies_ret _ behaves_refl).
        intros p'' rest E. injection E as <- <-. split.
        -- eapply Hkeep; [exact Hp|]. unfold in_range. rewrite Hcur. tauto.
        -- unfold left_on. rewrite Hsel', Hcur. split; [reflexivity|].
           rewrite Ha. eauto.
    + apply (satisfies_ret _ behaves_refl).
      intros p' rest E. injection E as <- <-. split; [exact Hp|].
      unfold left_on. rewrite Hsel. exact Hshown.
Qed.

End TurnFacts.
(** ** The picker as a whole *)

Section PickerFacts.
Context `{OpenCV} `{HighGUI} `{VideoProperties} `{Libraries}.
Context (P : event -> Prop) (P_silent : forall ev, silent ev -> P ev).
Context (v : video).

Lemma print_behaves line (Q : unit -> desk -> Prop) d :
  (forall d', mem d' = mem d -> Q tt d') ->
  satisfies (behaves P v (mp_pose_Pose true 2)) (print line) Q d.
Proof. intros HQ. apply record_behaves; [exact I|exact HQ]. Qed.

(** The picker on a file that exists: the moves keep [Inv], and the
    number returned is where the loop was left. *)
Lemma pick_behaves (fs : gmap string video) path keys d (Inv : Z -> picker -> Prop) :
  fs !! path = Some v ->
  (forall total p, Inv total p -> P (EvRead path (current_frame p))) ->
  (forall total p p', Inv total p ->
     (0 < total -> in_range total p -> in_range total p') -> Inv total p') ->
  (forall total,
     PyFloat.to_int (get_property v CAP_PROP_FRAME_COUNT) = Ok total ->
     Inv total {| current_frame := 0; playing := false;
                  show_overlay := false; selected_frame := None |}) ->
  satisfies (behaves P v (mp_pose_Pose true 2)) (pick_frame_interactive fs path keys)
    (fun r d' =>
       forall n rest, r = Some (n, rest) ->
         exists total p',
           is_opened v = true /\
           PyFloat.to_int (get_property v CAP_PROP_FRAME_COUNT) = Ok total /\
           Inv total p' /\ left_on v p' /\ n = current_frame p' /\
           last (screen d') =
             Some (match selected_frame p' with
                   | Some m => UiPrint (NL +:+ "Selected frame: " +:+ pretty m)
                   | None => UiDestroyAllWindows
                   end)) d.
Proof.
  intros Hfs Hread Hkeep Hinit.
  pose proof (behaves_refl P v (mp_pose_Pose true 2)) as Hr.
  pose proof (behaves_trans P v (mp_pose_Pose true 2)) as Ht.
  unfold pick_frame_interactive, isOpened, cap_get.
  cbn [open_capture cap_src]. rewrite Hfs.
  destruct (is_opened v) eqn:Hopen; cbn [negb].
  2:{ apply (satisfies_attempted _ Hr). discriminate. }
  eapply (satisfies_bind _ Ht)
    with (Q := fun total _ =>
                 PyFloat.to_int (get_property v CAP_PROP_FRAME_COUNT) = Ok total).
  { apply (satisfies_attempted _ Hr). intros total E.
    destruct (PyFloat.to_int (get_property v CAP_PROP_FRAME_COUNT));
      [injection E as <-; reflexivity|discriminate]. }
  intros total d0 _ Htotal.
  do 12 (eapply (satisfies_bind _ Ht) with (Q := fun _ _ => True);
         [apply print_behaves; trivial|intros _ ? _ _]).
  eapply (satisfies_bind _ Ht)
    with (Q := fun ended _ =>
                 forall p' rest, ended = Some (p', rest) ->
                                 Inv total p' /\ left_on v p').
  { apply (picker_loop_behaves P P_silent v (mp_pose_Pose true 2)
             (open_capture fs path) total _ (Inv total)).
    - exact Hfs.
    - intros p Hp. exact (Hread total p Hp).
    - apply Hkeep.
    - apply Hinit. exact Htotal.
    - reflexivity. }
  intros [[p' rest]|] d13 _ Hend; [|apply (satisfies_ret _ Hr); discriminate].
  destruct (Hend p' rest eq_refl) as [Hinv Hleft].
  unfold satisfies, mbind, D_bind, record, print, mret, D_ret.
  destruct (selected_frame p') as [m|] eqn:Hsel; simpl.
  - split.
    + split; [apply grows_same; reflexivity|].
      exists [UiDestroyAllWindows; UiPrint (NL +:+ "Selected frame: " +:+ pretty m)].
      split; [rewrite <- app_assoc; reflexivity|repeat constructor].
    + intros r E0 n rest' E. subst r. injection E0 as <- <-. exists total, p'.
      rewrite Hsel. repeat split; try assumption.
      * unfold left_on in Hleft. rewrite Hsel in Hleft. tauto.
      * apply last_snoc.
  - split.
    + split; [apply grows_same; reflexivity|].
      eapply grows_one; [reflexivity|exact I].
    + intros r E0 n rest' E. subst r. injection E0 as <- <-. exists total, p'.
      rewrite Hsel. repeat split; try assumption. apply last_snoc.
Qed.

End PickerFacts.
(** ** [main] after the picker *)

Section ShowFacts.
Context `{OpenCV} `{HighGUI} `{VideoProperties} `{Libraries}.

Lemma on_store_quiet {A} (m : M A) d :
  satisfies (grows screen quiet) (on_store m) (fun _ _ => True) d.
Proof.
  split; [|trivial]. apply grows_same. unfold on_store.
  destruct (m (mem d)) as [r s]. reflexivity.
Qed.

Lemma record_quiet ev d :
  quiet ev -> satisfies (grows screen quiet) (record ev) (fun _ _ => True) d.
Proof. intros Hq. split; [|trivial]. eapply grows_one; [reflexivity|exact Hq]. Qed.

(** Nothing is written to disk once the frame number is known. *)
Lemma show_frame_quiet (fs : gmap string video) frame_index keys d :
  grows screen quiet d (snd (show_frame fs frame_index keys d)).
Proof.
  pose proof (@grows_refl _ screen quiet) as Hr.
  pose proof (@grows_trans _ screen quiet) as Ht.
  assert (Hgoal : satisfies (grows screen quiet) (show_frame fs frame_index keys)
                    (fun _ _ => True) d); [|exact (proj1 Hgoal)].
  unfold show_frame.
  eapply (satisfies_bind _ Ht); [apply on_store_quiet|]. intros frame d1 _ _.
  eapply (satisfies_bind _ Ht); [apply on_store_quiet|]. intros image_rgb d2 _ _.
  eapply (satisfies_bind _ Ht); [apply on_store_quiet|]. intros [landmark|] d3 _ _.
  2:{ eapply (satisfies_bind _ Ht); [apply record_quiet; exact I|].
      intros _ d4 _ _. apply (satisfies_ret _ Hr). exact I. }
  eapply (satisfies_bind _ Ht); [apply on_store_quiet|]. intros annotated d4 _ _.
  eapply (satisfies_bind _ Ht); [apply on_store_quiet|]. intros a d5 _ _.
  destruct (shape a) as [h w].
  eapply (satisfies_bind _ Ht); [apply on_store_quiet|]. intros _ d6 _ _.
  eapply (satisfies_bind _ Ht); [apply on_store_quiet|]. intros _ d7 _ _.
  eapply (satisfies_bind _ Ht) with (Q := fun _ _ => True);
    [apply (satisfies_attempted _ Hr); trivial|]. intros keypoints d8 _ _.
  eapply (satisfies_bind _ Ht); [apply record_quiet; exact I|]. intros _ d9 _ _.
  eapply (satisfies_bind _ Ht) with (Q := fun _ _ => True).
  { split; [|trivial].
    destruct (imshow_redraws "MediaPipe Pose" annotated d9) as (_ & _ & _ & G).
    exact G. }
  intros _ d10 _ _.
  eapply (satisfies_bind _ Ht); [apply record_quiet; exact I|]. intros _ d11 _ _.
  destruct keys as [|key keys]; [apply (satisfies_ret _ Hr); exact I|].
  eapply (satisfies_bind _ Ht); [apply record_quiet; exact I|]. intros _ d12 _ _.
  apply (satisfies_ret _ Hr). exact I.
Qed.

End ShowFacts.
(** ** Runs of the desktop tool, step by step *)

Section RunFacts.
Context `{OpenCV} `{HighGUI} `{VideoProperties} `{Libraries}.

Lemma bind_run {A B} (m : D A) (k : A -> D B) d :
  (m ≫= k) d = match m d with
               | (Done a, d') => k a d'
               | (Failed e, d') => (Failed e, d')
               end.
Proof. reflexivity. Qed.

Lemma on_store_run {A} (m : M A) d :
  on_store m d
  = (lift_builtin (fst (m (mem d))),
     {| mem := snd (m (mem d)); screen := screen d; stdin := stdin d |}).
Proof. unfold on_store. destruct (m (mem d)); reflexivity. Qed.

Lemma putText_run img text org b d :
  heap (mem d) !! img = Some b ->
  exists d', putText img text org d = (Done tt, d') /\
             is_Some (heap (mem d') !! img).
Proof.
  intros Hb. unfold putText, on_store, record, load, store, mbind, D_bind.
  simpl. rewrite Hb. simpl. eexists. split; [reflexivity|].
  simpl. rewrite lookup_insert_eq. eauto.
Qed.

Lemma putText_all display (texts : list (Z * string)) b d :
  heap (mem d) !! display = Some b ->
  exists d', for_each_D texts
               (fun '(i, text) => putText display text (10, 30 + i * 25)) d
             = (Done tt, d') /\
             is_Some (heap (mem d') !! display).
Proof.
  revert b d. induction texts as [|[i text] texts IH]; intros b d Hb.
  - exists d. split; [reflexivity|eauto].
  - cbn [for_each_D]. rewrite bind_run.
    destruct (putText_run display text (10, 30 + i * 25) b d Hb)
      as (d1 & -> & [b1 Hb1]).
    apply (IH b1 d1 Hb1).
Qed.

(** The info text divides by the frame rate and by the frame count. *)
Lemma draw_info_divides display b total_frames fps overlay_status d :
  heap (mem d) !! display = Some b ->
  (exists sign, fps = S754_zero sign) \/ total_frames = 0 ->
  fst (draw_info display 0 total_frames fps overlay_status d)
  = Failed ZeroDivisionError.
Proof.
  intros Hb Hzero. unfold draw_info.
  rewrite bind_run, on_store_run. unfold load at 1 2. rewrite Hb.
  cbn [fst snd lift_builtin]. destruct (shape b) as [h w].
  rewrite bind_run. unfold attempted at 1.
  destruct fps as [sign| | |sign m e] eqn:Efps;
    try reflexivity.
  all: destruct Hzero as [[sign' E]| ->]; [discriminate E|].
  all: cbn [truediv_int_float PyFloat.of_int PyFloat.of_scaled].
  all: match goal with
       | |- context [truediv_int_float 0 ?f] =>
           assert (Hsec : exists x, truediv_int_float 0 f = Done x)
             by (eexists; reflexivity)
       end.
  all: destruct Hsec as [seconds ->].
  all: rewrite bind_run.
  all: match goal with
       | |- context [for_each_D ?texts ?body ?d0] =>
           destruct (putText_all display texts b d0 Hb) as (d1 & -> & _)
       end.
  all: reflexivity.
Qed.

Lemma read_frame_run (fs : gmap string video) path v n s :
  fs !! path = Some v ->
  read_frame fs path n s
  = if is_opened v then
      match frame_at v n with
      | Some a =>
          (Ok (fresh (dom (heap s))),
           {| heap := <[fresh (dom (heap s)) := a]> (heap s);
              trace := trace s ++ [EvRead path n] |})
      | None =>
          (Raise (RuntimeError ("Could not grab frame " +:+ pretty n)),
           {| heap := heap s; trace := trace s ++ [EvRead path n] |})
      end
    else (Raise (RuntimeError ("Cannot open video: " +:+ path)), s).
Proof.
  intros Hfs. unfold read_frame, isOpened. cbn [open_capture cap_src].
  rewrite Hfs. destruct (is_opened v); cbn [negb]; [|reflexivity].
  unfold mbind at 1. unfold M_bind at 1. rewrite read_run.
  cbn [open_capture set_pos_frames cap_src cap_pos cap_path]. rewrite Hfs.
  cbn [mbind option_bind].
  destruct (frame_at v n); reflexivity.
Qed.

End RunFacts.
Section FirstTurnFacts.
Context `{OpenCV} `{HighGUI} `{VideoProperties} `{Libraries}.

Lemma print_run line d :
  print line d
  = (Done tt, {| mem := mem d; screen := screen d ++ [UiPrint line];
                 stdin := stdin d |}).
Proof. reflexivity. Qed.

Lemma copy_run frame a s :
  heap s !! frame = Some a ->
  copy frame s
  = (Ok (fresh (dom (heap s))),
     {| heap := <[fresh (dom (heap s)) := a]> (heap s); trace := trace s |}).
Proof. intros Hf. unfold copy. run_monad. rewrite Hf. reflexivity. Qed.

(** The first turn of the picker on a decoder that reports no frame
    rate or no frame. *)
Lemma present_divides (cap : VideoCapture) pose v a total_frames fps p d :
  cap_src cap = Some v ->
  frame_at v 0 = Some a ->
  current_frame p = 0 ->
  show_overlay p = false ->
  (exists sign, fps = S754_zero sign) \/ total_frames = 0 ->
  fst (present cap pose total_frames fps p d) = Failed ZeroDivisionError.
Proof.
  intros Hc Ha Hcur Hov Hzero. unfold present. rewrite Hcur, Hov.
  rewrite bind_run, on_store_run, read_run.
  cbn [set_pos_frames cap_src cap_pos cap_path]. rewrite Hc.
  cbn [mbind option_bind]. rewrite Ha. cbn [fst snd lift_builtin].
  rewrite bind_run, on_store_run.
  rewrite (copy_run _ a) by (cbn [mem heap]; apply lookup_insert_eq).
  cbn [fst snd lift_builtin]. rewrite bind_run.
  match goal with
  | |- context [draw_info ?display 0 total_frames fps ?status ?d0] =>
      pose proof (draw_info_divides display a total_frames fps status d0) as Hd;
      destruct (draw_info display 0 total_frames fps status d0) as [[[]|e] d1]
  end.
  - exfalso. cbn [mem heap] in Hd.
    rewrite lookup_insert_eq in Hd. specialize (Hd eq_refl Hzero). discriminate Hd.
  - cbn [mem heap] in Hd. rewrite lookup_insert_eq in Hd.
    specialize (Hd eq_refl Hzero). injection Hd as ->. reflexivity.
Qed.

End FirstTurnFacts.
(** ** The picker stays on the video *)

(** X10.  On a video whose header announces [total] frames, with
    [total] positive, the picker never leaves the range of frame
    numbers: whatever keys are pressed and whatever is typed at the
    [g] prompt, every seek of the decoder is on the file given, at a
    position from 0 up to [total] excluded, and so is the frame number
    returned. *)
Theorem picker_stays_in_range `{OpenCV} `{HighGUI} `{VideoProperties} `{Libraries}
    (fs : gmap string video) (path : string) (v : video) (total : Z)
    (keys : list Z) (d : desk) :
  fs !! path = Some v ->
  PyFloat.to_int (get_property v CAP_PROP_FRAME_COUNT) = Ok total ->
  0 < total ->
  let r := pick_frame_interactive fs path keys d in
  (forall n rest, fst r = Done (Some (n, rest)) -> 0 <= n < total) /\
  grows (fun d => trace (mem d)) (seeks_within path total) d (snd r).
Proof.
  intros Hfs Htotal Hpos r.
  assert (Hsil : forall ev, silent ev -> seeks_within path total ev).
  { intros [] Hs; simpl in *; tauto. }
  destruct (pick_behaves (seeks_within path total) Hsil v fs path keys d
              (fun t p => t = total /\ in_range total p)) as [[Htr _] Hret].
  - exact Hfs.
  - intros t p [_ Hp]. simpl. split; [reflexivity|exact Hp].
  - intros t p p' [-> Hp] Hin. split; [reflexivity|]. apply Hin; assumption.
  - intros t Ht. split; [congruence|]. unfold in_range. simpl. lia.
  - split; [|exact Htr].
    intros n rest E.
    destruct (Hret (Some (n, rest)) E n rest eq_refl)
      as (t & p' & _ & _ & [_ Hp] & _ & -> & _).
    exact Hp.
Qed.

Lemma picker_stays_in_range_witness :
  let r := Desk.run [46; 46; 61; 103; 45; 113] [Some "1"] in
  (forall n rest, fst r = Done (Some (n, rest)) -> 0 <= n < 2) /\
  grows (fun d => trace (mem d)) (seeks_within "uploads/clip.mp4" 2)
    (Desk.start [Some "1"]) (snd r).
Proof.
  apply (@picker_stays_in_range Demo.cv Desk.gui Demo.clips Studio.props Desk.half_seen_libs
           Demo.uploads "uploads/clip.mp4" [Demo.frame3; Demo.frame3] 2
           [46; 46; 61; 103; 45; 113] (Desk.start [Some "1"])).
  - reflexivity.
  - vm_compute. reflexivity.
  - lia.
Defined.

(** ** What reaches the disk *)

(** X11.  Every picture [main] writes is a frame of the video with the
    overlay [analyze_and_annotate_frame] draws on it when it finds a
    pose, under the name [frame_<number on five digits>.jpg]; the info
    text and the bar drawn on the display never reach a saved
    picture. *)
Theorem saved_pictures_are_overlays `{OpenCV} `{HighGUI} `{VideoProperties} `{Libraries}
    (fs : gmap string video) (v : video) (keys : list Z) (d : desk) :
  fs !! VIDEO_PATH = Some v ->
  grows screen (saves_overlay v (mp_pose_Pose true 2)) d (snd (main fs keys d)).
Proof.
  intros Hfs. unfold main. cbn [USE_INTERACTIVE_PICKER].
  destruct (pick_behaves (fun _ => True) (fun _ _ => I) v fs VIDEO_PATH keys d
              (fun _ _ => True)) as [[_ Hscr] _]; try (intros; exact I); [exact Hfs|].
  unfold mbind, D_bind.
  destruct (pick_frame_interactive fs VIDEO_PATH keys d) as [[[[n rest]|]|e] d1];
    simpl in *; try exact Hscr.
  eapply grows_trans; [exact Hscr|].
  eapply grows_weaken; [apply quiet_saves|apply show_frame_quiet].
Qed.

Lemma saved_pictures_are_overlays_witness :
  let r := Desk.run_main [97; 46; 97; 113; 32] [] in
  fst r = Done (Some tt) /\
  In (UiWrite "frame_00001.jpg"
        (Demo.set_pixel Demo.frame3 (1, 1) GREEN)) (screen (snd r)) /\
  grows screen
    (@saves_overlay Demo.cv Demo.clips [Demo.frame3; Demo.frame3]
       (@mp_pose_Pose Desk.half_seen_libs true 2))
    (Desk.start []) (snd r).
Proof.
  split; [vm_compute; reflexivity|].
  split; [vm_compute; tauto|].
  apply (@saved_pictures_are_overlays Demo.cv Desk.gui Demo.clips Studio.props
           Desk.half_seen_libs Desk.disk [Demo.frame3; Demo.frame3] [97; 46; 97; 113; 32]
           (Desk.start [])).
  reflexivity.
Defined.

(** ** From the picker to [read_frame] *)

(** X12.  The number the picker returns composes with [read_frame] as
    [main] does it: when the picker announces [Selected frame: n] (the
    user left with [q] or ESC), frame [n] was on display and
    [read_frame] returns it; when the picker ends without the
    announcement, its loop stopped on a frame that could not be read
    and [read_frame] raises [Could not grab frame n]. *)
Theorem picked_frame_against_read_frame `{OpenCV} `{HighGUI} `{VideoProperties}
    `{Libraries} (fs : gmap string video) (path : string) (v : video)
    (keys rest : list Z) (n : Z) (d d' : desk) :
  fs !! path = Some v ->
  pick_frame_interactive fs path keys d = (Done (Some (n, rest)), d') ->
  (last (screen d') = Some (UiPrint (NL +:+ "Selected frame: " +:+ pretty n)) /\
   exists a, frame_at v n = Some a /\
             forall s, exists frame s',
               read_frame fs path n s = (Ok frame, s') /\
               heap s' !! frame = Some a) \/
  (last (screen d') = Some UiDestroyAllWindows /\
   forall s, fst (read_frame fs path n s)
             = Raise (RuntimeError ("Could not grab frame " +:+ pretty n))).
Proof.
  intros Hfs Hrun.
  destruct (pick_behaves (fun _ => True) (fun _ _ => I) v fs path keys d
              (fun _ _ => True)) as [_ Hret]; try (intros; exact I); [exact Hfs|].
  rewrite Hrun in Hret.
  destruct (Hret (Some (n, rest)) eq_refl n rest eq_refl)
    as (t & p' & Hopen & _ & _ & Hleft & -> & Hlast).
  simpl in Hlast. unfold left_on in Hleft.
  assert (Hread : forall s, read_frame fs path (current_frame p') s
            = match frame_at v (current_frame p') with
              | Some a =>
                  (Ok (fresh (dom (heap s))),
                   {| heap := <[fresh (dom (heap s)) := a]> (heap s);
                      trace := trace s ++ [EvRead path (current_frame p')] |})
              | None =>
                  (Raise (RuntimeError ("Could not grab frame "
                                        +:+ pretty (current_frame p'))),
                   {| heap := heap s;
                      trace := trace s ++ [EvRead path (current_frame p')] |})
              end).
  { intros s. unfold read_frame, isOpened. cbn [open_capture cap_src].
    rewrite Hfs, Hopen. cbn [negb].
    unfold mbind at 1. unfold M_bind at 1. rewrite read_run.
    cbn [open_capture set_pos_frames cap_src cap_pos cap_path]. rewrite Hfs.
    cbn [mbind option_bind].
    destruct (frame_at v (current_frame p')); reflexivity. }
  destruct (selected_frame p') as [m|].
  - destruct Hleft as [-> [a Ha]]. left. split; [exact Hlast|].
    exists a. split; [exact Ha|]. intros s. rewrite Hread, Ha.
    eexists _, _. split; [reflexivity|]. apply lookup_insert_eq.
  - right. split; [exact Hlast|]. intros s. rewrite Hread, Hleft. reflexivity.
Qed.

Lemma picked_frame_against_read_frame_witness :
  let d' := snd (Desk.run [46; 113; 7] []) in
  (last (screen d') = Some (UiPrint (NL +:+ "Selected frame: " +:+ pretty 1)) /\
   exists a, @frame_at Demo.clips [Demo.frame3; Demo.frame3] 1 = Some a /\
             forall s, exists frame s',
               @read_frame Demo.clips Demo.uploads "uploads/clip.mp4" 1 s
               = (Ok frame, s') /\
               heap s' !! frame = Some a) \/
  (last (screen d') = Some UiDestroyAllWindows /\
   forall s, fst (@read_frame Demo.clips Demo.uploads "uploads/clip.mp4" 1 s)
             = Raise (RuntimeError ("Could not grab frame " +:+ pretty 1))).
Proof.
  apply (@picked_frame_against_read_frame Demo.cv Desk.gui Demo.clips Studio.props
           Desk.half_seen_libs Demo.uploads "uploads/clip.mp4" [Demo.frame3; Demo.frame3]
           [46; 113; 7] [7] 1 (Desk.start [])).
  - reflexivity.
  - vm_compute. reflexivity.
Defined.

(** ** The key codes *)

(** X13.  Only the low byte of the value [waitKey] returns counts: two
    values that differ by a multiple of 256 command the same; and the
    value -1 of a wait that timed out is no command: nothing is drawn,
    printed or saved, and the frame number moves only by the
    auto-advance. *)
Theorem only_low_byte_of_key_counts `{OpenCV} `{HighGUI} (pose : Pose) (total_frames : Z) (fps : spec_float) (frame : loc)
    (raw k : Z) (p : picker) :
  on_key pose total_frames fps frame (raw + 256 * k) p
  = on_key pose total_frames fps frame raw p /\
  forall d, on_key pose total_frames fps frame (-1) p d
            = (Done (Continue (advance total_frames p)), d).
Proof.
  split.
  - unfold on_key.
    replace (Z.land (raw + 256 * k) 255) with (Z.land raw 255); [reflexivity|].
    change 255 with (Z.ones 8). rewrite !Z.land_ones by lia.
    rewrite Z.mul_comm. change (2 ^ 8) with 256.
    symmetry. apply Z_mod_plus_full.
  - intros d. reflexivity.
Qed.
(** ** Dividing by what the header says *)

(** X14.  The picker does not guard its divisions: on a video whose
    first frame decodes while the decoder reports a frame rate of
    zero, or a frame count that [int] turns into 0, it ends with
    ZeroDivisionError in its first turn, whatever the keys. *)
Theorem picker_divides_unguarded `{OpenCV} `{HighGUI} `{VideoProperties} `{Libraries}
    (fs : gmap string video) (path : string) (v : video) (a : ndarray)
    (total : Z) (keys : list Z) (d : desk) :
  fs !! path = Some v ->
  frame_at v 0 = Some a ->
  PyFloat.to_int (get_property v CAP_PROP_FRAME_COUNT) = Ok total ->
  (exists sign, get_property v CAP_PROP_FPS = S754_zero sign) \/ total = 0 ->
  fst (pick_frame_interactive fs path keys d) = Failed ZeroDivisionError.
Proof.
  intros Hfs Ha Htotal Hzero.
  assert (Hopen : is_opened v = true).
  { destruct (is_opened v) eqn:E; [reflexivity|].
    rewrite (frame_unopened v 0 E) in Ha. discriminate Ha. }
  unfold pick_frame_interactive, isOpened, cap_get.
  cbn [open_capture cap_src]. rewrite Hfs, Hopen. cbn [negb].
  rewrite bind_run. unfold attempted at 1. rewrite Htotal. cbn [lift_builtin].
  do 12 (rewrite bind_run, print_run; cbn [mem screen stdin]).
  rewrite bind_run.
  match goal with
  | |- context [picker_loop ?cap ?pose total ?fps keys ?p ?d0] =>
      assert (Hloop : fst (picker_loop cap pose total fps keys p d0)
                      = Failed ZeroDivisionError)
  end.
  { assert (Hturn : forall cap pose fps p d0 (k : option loc -> D (option (picker * list Z))),
              fst (present cap pose total fps p d0) = Failed ZeroDivisionError ->
              fst ((present cap pose total fps p ≫= k) d0) = Failed ZeroDivisionError).
    { intros cap pose fps p d0 k Hp. rewrite bind_run.
      destruct (present cap pose total fps p d0) as [[shown|e] d1];
        [discriminate Hp|].
      simpl in Hp. injection Hp as ->. reflexivity. }
    destruct keys as [|raw keys]; cbn [picker_loop]; apply Hturn;
      (apply (present_divides (open_capture fs path) _ v a);
       [exact Hfs|exact Ha|reflexivity|reflexivity|exact Hzero]). }
  match goal with
  | |- context [picker_loop ?cap ?pose total ?fps keys ?p ?d0] =>
      destruct (picker_loop cap pose total fps keys p d0) as [[ended|e] d1]
  end.
  - discriminate Hloop.
  - simpl in Hloop. injection Hloop as ->. reflexivity.
Qed.

Lemma picker_divides_unguarded_witness :
  fst (@pick_frame_interactive Demo.cv Desk.gui Demo.clips Desk.stalled Desk.half_seen_libs
         Demo.uploads "uploads/clip.mp4" [46; 113] (Desk.start []))
  = Failed ZeroDivisionError.
Proof.
  apply (@picker_divides_unguarded Demo.cv Desk.gui Demo.clips Desk.stalled Desk.half_seen_libs
           Demo.uploads "uploads/clip.mp4" [Demo.frame3; Demo.frame3] Demo.frame3
           2 [46; 113] (Desk.start [])).
  - reflexivity.
  - reflexivity.
  - vm_compute. reflexivity.
  - left. exists false. reflexivity.
Defined.
(** ** What [main] shows *)

Section ShowRunFacts.
Context `{OpenCV}.

Lemma on_store_ok {A B} (m : M A) (k : A -> D B) d a s' :
  m (mem d) = (Ok a, s') ->
  (on_store m ≫= k) d = k a {| mem := s'; screen := screen d; stdin := stdin d |}.
Proof. intros E. rewrite bind_run, on_store_run, E. reflexivity. Qed.

Lemma on_store_raise {A B} (m : M A) (k : A -> D B) d e s' :
  m (mem d) = (Raise e, s') ->
  (on_store m ≫= k) d
  = (Failed (Builtin e), {| mem := s'; screen := screen d; stdin := stdin d |}).
Proof. intros E. rewrite bind_run, on_store_run, E. reflexivity. Qed.

Lemma load_run l a s : heap s !! l = Some a -> load l s = (Ok a, s).
Proof. intros Hl. unfold load. rewrite Hl. reflexivity. Qed.

Lemma cvtColor_run frame a s :
  heap s !! frame = Some a ->
  cvtColor_BGR2RGB frame s
  = (Ok (fresh (dom (heap s))),
     {| heap := <[fresh (dom (heap s)) := BGR2RGB a]> (heap s); trace := trace s |}).
Proof. intros Hf. unfold cvtColor_BGR2RGB. run_monad. rewrite Hf. reflexivity. Qed.

Lemma pose_process_run pose image b s :
  heap s !! image = Some b ->
  pose_process pose image s
  = (Ok (process pose b),
     {| heap := heap s; trace := trace s ++ [EvProcess b] |}).
Proof. intros Hi. unfold pose_process. run_monad. rewrite Hi. reflexivity. Qed.

End ShowRunFacts.

(** X15.  The drawing code written out in [main] agrees with
    [analyze_and_annotate_frame]: when [main], from [read_frame] on,
    comes to its end on a frame that is read, it has either printed
    [No athlete detected.] and nothing else, the model having found
    no pose, or printed the array of the keypoint rows and shown in
    the window [MediaPipe Pose] exactly the picture
    [analyze_and_annotate_frame] returns for that frame. *)
Theorem main_shows_the_overlay `{OpenCV} `{HighGUI} `{VideoProperties} `{Libraries}
    (fs : gmap string video) (v : video) (n : Z) (a : ndarray)
    (keys : list Z) (d d' : desk) (r : option unit) :
  fs !! VIDEO_PATH = Some v ->
  frame_at v n = Some a ->
  show_frame fs n keys d = (Done r, d') ->
  match process (mp_pose_Pose true 2) (BGR2RGB a) with
  | None => screen d' = screen d ++ [UiPrint "No athlete detected."]
  | Some landmark =>
      exists img rows,
        overlay_of (mp_pose_Pose true 2) a img /\
        main_keypoints landmark (snd (shape a)) (fst (shape a)) = Ok rows /\
        screen d' = screen d ++ [UiPrint (str_array rows);
                                 UiShow "MediaPipe Pose" img;
                                 UiWaitKey 0]
                             ++ match keys with
                                | [] => []
                                | _ :: _ => [UiDestroyAllWindows]
                                end
  end.
Proof.
  intros Hfs Ha.
  assert (Hopen : is_opened v = true).
  { destruct (is_opened v) eqn:E; [reflexivity|].
    rewrite (frame_unopened v n E) in Ha. discriminate Ha. }
  unfold show_frame.
  erewrite on_store_ok
    by (rewrite (read_frame_run fs VIDEO_PATH v n _ Hfs), Hopen, Ha; reflexivity).
  cbn [mem screen stdin].
  set (s1 := {| heap := <[fresh (dom (heap (mem d))) := a]> (heap (mem d));
                trace := trace (mem d) ++ [EvRead VIDEO_PATH n] |}).
  set (frame := fresh (dom (heap (mem d)))).
  assert (Hf : heap s1 !! frame = Some a) by apply lookup_insert_eq.
  pose proof (staged_fresh a s1) as Hs.
  pose proof (staged_frame frame a s1 Hf) as (Hn1 & Hn2 & Hf').
  unfold staged in Hs, Hn1, Hn2, Hf'. cbn [fst snd] in Hs, Hn1, Hn2, Hf'.
  destruct Hs as (H1' & H2' & Hne & Hann & Hrgb & Hother).
  set (rgb := fresh (dom (heap s1))) in *.
  set (heap1 := <[rgb := BGR2RGB a]> (heap s1)) in *.
  set (annotated := fresh (dom heap1)) in *.
  erewrite on_store_ok by (cbn [mem]; apply (cvtColor_run frame a s1 Hf)).
  cbn [mem screen stdin]. fold rgb. fold heap1.
  erewrite on_store_ok
    by (cbn [mem]; apply (pose_process_run _ rgb (BGR2RGB a));
        cbn [heap]; apply lookup_insert_eq).
  cbn [mem screen stdin heap trace].
  destruct (process (mp_pose_Pose true 2) (BGR2RGB a)) as [landmark|] eqn:Eproc.
  2:{ rewrite bind_run, print_run. unfold mret, D_ret.
      intros E. injection E as _ <-. reflexivity. }
  erewrite on_store_ok
    by (cbn [mem]; apply (copy_run frame a);
        cbn [heap]; unfold heap1; rewrite lookup_insert_ne by congruence; exact Hf).
  cbn [mem screen stdin heap trace]. fold annotated.
  erewrite on_store_ok by (cbn [mem]; apply (load_run frame a); cbn [heap]; exact Hf').
  cbn [mem screen stdin].
  destruct (shape a) as [h w] eqn:Eshape. cbn [fst snd].
  rewrite bind_run, on_store_run. cbn [mem].
  rewrite (for_each_plan (connection_step landmark w h) _ annotated
             (draw_connection_step landmark annotated w h)
             SIMPLE_CONNECTIONS a _ Hann).
  destruct (plan (connection_step landmark w h) SIMPLE_CONNECTIONS)
    as [ops1 [e1|]] eqn:P1; cbn [fst snd outcome lift_builtin];
    [discriminate|].
  rewrite bind_run, on_store_run. cbn [mem].
  rewrite (for_each_plan (landmark_step landmark w h) _ annotated
             (draw_landmark_step landmark annotated w h)
             KEY_LANDMARKS (paint a ops1))
    by apply painted_lookup.
  destruct (plan (landmark_step landmark w h) KEY_LANDMARKS)
    as [ops2 [e2|]] eqn:P2; cbn [fst snd outcome lift_builtin];
    [discriminate|].
  rewrite painted_app.
  rewrite bind_run. unfold attempted at 1.
  destruct (main_keypoints landmark w h) as [rows|e]; cbn [lift_builtin];
    [|discriminate].
  rewrite bind_run, print_run. cbn [mem screen stdin].
  rewrite bind_run. unfold imshow at 1.
  erewrite on_store_ok by (cbn [mem]; apply load_run; apply painted_lookup).
  unfold record at 1. cbn [mem screen stdin].
  rewrite bind_run. unfold record at 1. cbn [mem screen stdin].
  assert (Hov : overlay_of (mp_pose_Pose true 2) a (paint a (ops1 ++ ops2))).
  { apply (overlay_of_paint _ a h w landmark); [exact Eshape|exact Eproc|].
    unfold rendering. rewrite P1, P2. reflexivity. }
  destruct keys as [|key keys].
  - unfold mret, D_ret. intros E. injection E as _ <-. cbn [screen].
    exists (paint a (ops1 ++ ops2)), rows. split; [exact Hov|].
    split; [reflexivity|]. rewrite <- !app_assoc. reflexivity.
  - rewrite bind_run. unfold record at 1. cbn [mem screen stdin].
    unfold mret, D_ret. intros E. injection E as _ <-. cbn [screen].
    exists (paint a (ops1 ++ ops2)), rows. split; [exact Hov|].
    split; [reflexivity|]. rewrite <- !app_assoc. reflexivity.
Qed.

Lemma main_shows_the_overlay_witness :
  let r := @show_frame Demo.cv Desk.gui Demo.clips Desk.half_seen_libs Desk.disk 1 [32]
             (Desk.start []) in
  exists img rows,
    @overlay_of Demo.cv (@mp_pose_Pose Desk.half_seen_libs true 2) Demo.frame3 img /\
    main_keypoints Demo.half_seen 3 3 = Ok rows /\
    screen (snd r) = [UiPrint (@str_array Desk.gui rows);
                      UiShow "MediaPipe Pose" img;
                      UiWaitKey 0; UiDestroyAllWindows].
Proof.
  intros r.
  destruct r as [res d'] eqn:E.
  destruct res as [res|e]; [|vm_compute in E; discriminate E].
  exact (@main_shows_the_overlay Demo.cv Desk.gui Demo.clips Studio.props Desk.half_seen_libs
           Desk.disk [Demo.frame3; Demo.frame3] 1 Demo.frame3 [32]
           (Desk.start []) d' res eq_refl eq_refl E).
Defined.
(** ** The [a] command *)

(** X16.  The [a] key on the frame of the turn: when the model finds no
    pose the tool prints [No pose detected in frame n], writes nothing
    and leaves the overlay flag as it is; when
    [analyze_and_annotate_frame] returns an overlay, that picture is
    written under [frame_<n on five digits>.jpg] before anything is
    drawn on it, so the file is there even if drawing the info text
    then fails, nothing else is written, and a turn that ends has
    switched the overlay on. *)
Theorem analyze_key_saves_before_drawing `{OpenCV} `{HighGUI} (pose : Pose) (total_frames : Z) (fps : spec_float)
    (frame : loc) (a : ndarray) (p : picker) (d : desk) :
  heap (mem d) !! frame = Some a ->
  let r := on_key pose total_frames fps frame 97 p d in
  (process pose (BGR2RGB a) = None ->
   fst r = Done (Continue (advance total_frames p)) /\
   screen (snd r)
   = screen d ++ [UiPrint ("No pose detected in frame "
                           +:+ pretty (current_frame p))]) /\
  (forall img, overlay_of pose a img ->
   let name := "frame_" +:+ format_05d (current_frame p) +:+ ".jpg" in
   exists evs,
     screen (snd r)
     = screen d ++ UiWrite name img
                   :: UiPrint ("Analyzed and saved frame "
                               +:+ pretty (current_frame p) +:+ " to " +:+ name)
                   :: evs /\
     Forall quiet evs /\
     forall next, fst r = Done next ->
       next = Continue (advance total_frames
                          {| current_frame := current_frame p;
                             playing := playing p;
                             show_overlay := true;
                             selected_frame := selected_frame p |})).
Proof.
  intros Hf r.
  assert (Er : r = (analyze_and_save pose total_frames fps frame p ≫= fun p' =>
                    mret (M := D) (Continue (advance total_frames p'))) d)
    by reflexivity.
  clearbody r. rewrite bind_run in Er. unfold analyze_and_save in Er.
  rewrite bind_run, on_store_run in Er. split.
  - intros Hnone.
    rewrite (analyze_and_annotate_frame_run frame pose a (mem d) Hf) in Er.
    destruct (staged a (mem d)) as [[l1 l2] s1]. destruct (shape a) as [h w].
    rewrite Hnone in Er. cbn [fst snd lift_builtin] in Er.
    rewrite bind_run, print_run in Er. subst r. split; reflexivity.
  - intros img Hov. cbv zeta.
    destruct (Hov (mem d) frame Hf) as (annotated & s' & Hrun & Himg).
    rewrite Hrun in Er. cbn [fst snd lift_builtin] in Er.
    rewrite bind_run in Er. unfold imwrite at 1 in Er.
    rewrite bind_run, on_store_run in Er.
    cbn [mem] in Er. unfold load at 1 2 in Er. rewrite Himg in Er.
    cbn [fst snd lift_builtin] in Er. unfold record at 1 in Er.
    cbn [mem screen stdin] in Er.
    rewrite bind_run, print_run in Er. cbn [mem screen stdin] in Er.
    rewrite bind_run in Er.
    match type of Er with
    | context [draw_info ?display ?cur total_frames fps ?status ?d0] =>
        destruct (draw_info_redraws display cur total_frames fps status d0)
          as (_ & _ & _ & evs & Hscr & Hq);
        destruct (draw_info display cur total_frames fps status d0) as [[[]|e] d1]
    end.
    + subst r. cbn [fst snd screen] in *. exists evs. split.
      * unfold mret, D_ret. cbn [fst snd]. rewrite Hscr, <- !app_assoc. reflexivity.
      * split; [exact Hq|]. unfold mret, D_ret. cbn [fst snd].
        intros next E. injection E as <-. reflexivity.
    + subst r. cbn [fst snd screen] in *. exists evs. split.
      * rewrite Hscr, <- !app_assoc. reflexivity.
      * split; [exact Hq|]. discriminate.
Qed.

Lemma analyze_key_saves_before_drawing_witness :
  let pose := Demo.fixed_pose (Some Demo.half_seen) in
  let d := {| mem := Demo.st0; screen := []; stdin := [] |} in
  let p := {| current_frame := 7; playing := true;
              show_overlay := false; selected_frame := None |} in
  let r := @on_key Demo.cv Desk.gui pose 9 Demo.three 0%nat 97 p d in
  (process pose (BGR2RGB Demo.frame3) = None ->
   fst r = Done (Continue (advance 9 p)) /\
   screen (snd r)
   = screen d ++ [UiPrint ("No pose detected in frame "
                           +:+ pretty (current_frame p))]) /\
  (forall img, @overlay_of Demo.cv pose Demo.frame3 img ->
   let name := "frame_" +:+ format_05d (current_frame p) +:+ ".jpg" in
   exists evs,
     screen (snd r)
     = screen d ++ UiWrite name img
                   :: UiPrint ("Analyzed and saved frame "
                               +:+ pretty (current_frame p) +:+ " to " +:+ name)
                   :: evs /\
     Forall quiet evs /\
     forall next, fst r = Done next ->
       next = Continue (advance 9
                          {| current_frame := current_frame p;
                             playing := playing p;
                             show_overlay := true;
                             selected_frame := selected_frame p |})).
Proof.
  intros pose d p.
  apply (@analyze_key_saves_before_drawing Demo.cv Desk.gui pose 9 Demo.three
           0%nat Demo.frame3 p d).
  reflexivity.
Defined.
(** ** Playing *)


(** ** File names *)

Section NameFacts.

Lemma append_nil_l (s : string) : "" +:+ s = s.
Proof. reflexivity. Qed.

Lemma append_cons (c : Ascii.ascii) (s t : string) :
  String c s +:+ t = String c (s +:+ t).
Proof. reflexivity. Qed.

Lemma append_length (s t : string) :
  String.length (s +:+ t) = (String.length s + String.length t)%nat.
Proof.
  induction s as [|c s IH]; [reflexivity|].
  rewrite append_cons. simpl. rewrite IH. reflexivity.
Qed.

Lemma append_cancel_r (s1 s2 t : string) : s1 +:+ t = s2 +:+ t -> s1 = s2.
Proof.
  revert s2. induction s1 as [|c s1 IH]; intros [|c2 s2] E.
  - reflexivity.
  - apply (f_equal String.length) in E. rewrite !append_length in E.
    simpl in E. lia.
  - apply (f_equal String.length) in E. rewrite !append_length in E.
    simpl in E. lia.
  - rewrite !append_cons in E. injection E as -> E. rewrite (IH s2 E). reflexivity.
Qed.

Lemma pretty_N_go_leading (x : N) (s : string) :
  (0 < x)%N -> exists c rest, pretty_N_go x s = String c rest /\
                              c <> "0"%char /\ c <> "-"%char.
Proof.
  revert s. induction (N.lt_wf_0 x) as [x _ IH]. intros s Hx.
  rewrite pretty_N_go_step by exact Hx.
  destruct (decide (x `div` 10 = 0)%N) as [E|E].
  - rewrite E, pretty_N_go_0.
    apply N.div_small_iff in E; [|discriminate].
    rewrite N.mod_small by exact E.
    eexists _, _. split; [reflexivity|].
    assert (x = 1 \/ x = 2 \/ x = 3 \/ x = 4 \/ x = 5 \/ x = 6
            \/ x = 7 \/ x = 8 \/ x = 9)%N as Hd by lia.
    destruct Hd as [->|[->|[->|[->|[->|[->|[->|[->| ->]]]]]]]];
      split; discriminate.
  - apply IH; [apply N.div_lt; lia|apply N.neq_0_lt_0; exact E].
Qed.

Lemma pretty_leading (n : Z) :
  0 < n -> exists c rest, pretty n = String c rest /\ c <> "0"%char /\ c <> "-"%char.
Proof.
  destruct n as [|q|q]; try lia. intros _.
  unfold pretty, pretty_Z, pretty, pretty_positive, pretty, pretty_N.
  destruct (decide (N.pos q = 0%N)) as [E|_]; [discriminate E|].
  apply pretty_N_go_leading. lia.
Qed.

Lemma zeros_leading (k1 k2 : nat) (s1 s2 : string) :
  leading s1 -> leading s2 ->
  zeros k1 +:+ s1 = zeros k2 +:+ s2 -> s1 = s2.
Proof.
  revert k2. induction k1 as [|k1 IH]; intros [|k2] H1 H2 E;
    cbn [zeros] in E; rewrite ?append_nil_l, ?append_cons in E.
  - exact E.
  - subst s1. simpl in H1. tauto.
  - subst s2. simpl in H2. tauto.
  - injection E as E. exact (IH k2 H1 H2 E).
Qed.

(** The digits [format_05d] pads: none for 0, which is all padding. *)
Lemma format_05d_nonneg (n : Z) :
  0 <= n -> exists k s, format_05d n = zeros k +:+ s /\ leading s /\
                        (s = "" /\ n = 0 \/ 0 < n /\ s = pretty n).
Proof.
  intros Hn. unfold format_05d. rewrite (proj2 (Z.ltb_ge n 0)) by lia.
  destruct (Z.eq_dec n 0) as [->|Hne].
  - exists 5%nat, "". split; [reflexivity|]. split; [exact I|]. left. auto.
  - destruct (pretty_leading n) as (c & rest & E & Hc); [lia|].
    exists (5 - String.length (pretty n))%nat, (pretty n).
    split; [reflexivity|]. split; [rewrite E; exact Hc|]. right. split; [lia|reflexivity].
Qed.

Lemma format_05d_neg (n : Z) :
  n < 0 -> exists k, format_05d n = String "-" (zeros k +:+ pretty (- n)) /\
                     leading (pretty (- n)).
Proof.
  intros Hn. unfold format_05d. rewrite (proj2 (Z.ltb_lt n 0)) by lia.
  destruct (pretty_leading (- n)) as (c & rest & E & Hc); [lia|].
  eexists. split; [reflexivity|]. rewrite E. exact Hc.
Qed.

Lemma format_05d_inj (n m : Z) : format_05d n = format_05d m -> n = m.
Proof.
  intros E.
  destruct (Z_lt_le_dec n 0) as [Hn|Hn]; destruct (Z_lt_le_dec m 0) as [Hm|Hm].
  - destruct (format_05d_neg n Hn) as (k1 & E1 & L1).
    destruct (format_05d_neg m Hm) as (k2 & E2 & L2).
    rewrite E1, E2 in E. injection E as E.
    apply (zeros_leading _ _ _ _ L1 L2) in E.
    apply (inj pretty) in E. lia.
  - exfalso.
    destruct (format_05d_neg n Hn) as (k1 & E1 & _).
    destruct (format_05d_nonneg m Hm) as (k2 & s & E2 & L2 & _).
    rewrite E1, E2 in E. destruct k2; cbn [zeros] in E;
      rewrite ?append_nil_l, ?append_cons in E.
    + subst s. simpl in L2. tauto.
    + discriminate E.
  - exfalso.
    destruct (format_05d_neg m Hm) as (k1 & E1 & _).
    destruct (format_05d_nonneg n Hn) as (k2 & s & E2 & L2 & _).
    rewrite E1, E2 in E. destruct k2; cbn [zeros] in E;
      rewrite ?append_nil_l, ?append_cons in E.
    + subst s. simpl in L2. tauto.
    + discriminate E.
  - destruct (format_05d_nonneg n Hn) as (k1 & s1 & E1 & L1 & C1).
    destruct (format_05d_nonneg m Hm) as (k2 & s2 & E2 & L2 & C2).
    rewrite E1, E2 in E. apply (zeros_leading _ _ _ _ L1 L2) in E.
    destruct C1 as [[-> ->]|[Hp1 ->]]; destruct C2 as [[-> ->]|[Hp2 ->]].
    + reflexivity.
    + destruct (pretty_leading m Hp2) as (c & rest & Ep & _).
      rewrite Ep in E. discriminate E.
    + destruct (pretty_leading n Hp1) as (c & rest & Ep & _).
      rewrite Ep in E. discriminate E.
    + apply (inj pretty) in E. exact E.
Qed.

End NameFacts.

(** X18.  Two frame numbers never share a file name: the name
    [frame_<n:05d>.jpg] determines [n], also beyond five digits and for
    negative numbers, so that the [a] command on one frame never
    overwrites the picture saved for another. *)
Theorem saved_names_are_distinct (n m : Z) :
  "frame_" +:+ format_05d n +:+ ".jpg" = "frame_" +:+ format_05d m +:+ ".jpg" ->
  n = m.
Proof.
  intros E. apply (inj (String.append "frame_")) in E.
  apply append_cancel_r in E. apply format_05d_inj. exact E.
Qed.

Lemma saved_names_are_distinct_witness :
  "frame_" +:+ format_05d 42 +:+ ".jpg" = "frame_00042.jpg" /\ 42 = 42.
Proof.
  split; [vm_compute; reflexivity|].
  apply (saved_names_are_distinct 42 42). reflexivity.
Defined.

(** ** Browsing *)

Section BrowsingFacts.
Context `{OpenCV} `{HighGUI} `{VideoProperties} `{Libraries}.
Context (v : video) (pose : Pose).

Lemma present_browsing (cap : VideoCapture) total_frames fps p d :
  cap_src cap = Some v ->
  show_overlay p = false ->
  satisfies (behaves decodes v pose) (present cap pose total_frames fps p)
    (fun _ _ => True) d.
Proof.
  intros Hc Hov.
  pose proof (behaves_refl decodes v pose) as Hr.
  pose proof (behaves_trans decodes v pose) as Ht.
  unfold present. rewrite Hov.
  eapply (satisfies_bind _ Ht); [apply (read_behaves decodes v pose); [exact Hc|exact I]|].
  intros [[frame|] cap'] d1 _ Hread; simpl in Hread;
    [|apply (satisfies_ret _ Hr); exact I].
  destruct Hread as (a & _ & Hf).
  eapply (satisfies_bind _ Ht); [apply (copy_behaves decodes v pose frame a); exact Hf|].
  intros display d2 _ _.
  eapply (satisfies_bind _ Ht) with (Q := fun _ _ => True);
    [apply draw_info_behaves; trivial|].
  intros _ d3 _ _. apply (satisfies_ret _ Hr). exact I.
Qed.

Lemma advance_overlay total_frames p :
  show_overlay (advance total_frames p) = show_overlay p.
Proof. unfold advance. destruct (playing p); reflexivity. Qed.

Lemma on_key_browsing total_frames fps frame raw p d :
  browsing raw = true ->
  show_overlay p = false ->
  satisfies (behaves decodes v pose) (on_key pose total_frames fps frame raw p)
    (fun next _ =>
       match next with
       | Continue p' | Break p' => show_overlay p' = false
       end) d.
Proof.
  intros Hb Hov.
  pose proof (behaves_refl decodes v pose) as Hr.
  pose proof (behaves_trans decodes v pose) as Ht.
  unfold browsing in Hb. unfold on_key. revert Hb.
  generalize (Z.land raw 255) as key. intros key Hb.
  apply negb_true_iff, orb_false_iff in Hb as [Ha Htg].
  destruct ((key =? 113) || (key =? 27)).
  { apply (satisfies_ret _ Hr). exact Hov. }
  eapply (satisfies_bind _ Ht) with (Q := fun p' _ => show_overlay p' = false).
  2:{ intros p' d1 _ Hp'. apply (satisfies_ret _ Hr).
      rewrite advance_overlay. exact Hp'. }
  destruct ((key =? 32) || (key =? 13)).
  { apply (satisfies_ret _ Hr). exact Hov. }
  rewrite Ha, Htg.
  destruct ((key =? 91) || (key =? 44)).
  { apply (satisfies_ret _ Hr). exact Hov. }
  destruct ((key =? 93) || (key =? 46)).
  { apply (satisfies_ret _ Hr). exact Hov. }
  destruct ((key =? 45) || (key =? 95)).
  { apply (satisfies_ret _ Hr). exact Hov. }
  destruct ((key =? 61) || (key =? 43)).
  { apply (satisfies_ret _ Hr). exact Hov. }
  destruct (key =? 103).
  { eapply (satisfies_weaken _); [apply (go_to_behaves decodes v pose)|].
    intros p' d1 _ (_ & Hsame & _). congruence. }
  apply (satisfies_ret _ Hr). exact Hov.
Qed.

Lemma picker_loop_browsing (cap : VideoCapture) total_frames fps keys :
  cap_src cap = Some v ->
  forallb browsing keys = true ->
  forall p d,
    show_overlay p = false ->
    satisfies (behaves decodes v pose) (picker_loop cap pose total_frames fps keys p)
      (fun _ _ => True) d.
Proof.
  intros Hc.
  pose proof (behaves_refl decodes v pose) as Hr.
  pose proof (behaves_trans decodes v pose) as Ht.
  induction keys as [|raw keys IH]; intros Hkeys p d Hov; cbn [picker_loop].
  - eapply (satisfies_bind _ Ht); [apply present_browsing; assumption|].
    intros [frame|] d1 _ _; [|apply (satisfies_ret _ Hr); exact I].
    eapply (satisfies_bind _ Ht) with (Q := fun _ _ => True);
      [apply record_behaves; [exact I|trivial]|].
    intros _ d2 _ _. apply (satisfies_ret _ Hr). exact I.
  - cbn [forallb] in Hkeys. apply andb_true_iff in Hkeys as [Hraw Hkeys].
    eapply (satisfies_bind _ Ht); [apply present_browsing; assumption|].
    intros [frame|] d1 _ _; [|apply (satisfies_ret _ Hr); exact I].
    eapply (satisfies_bind _ Ht) with (Q := fun _ _ => True);
      [apply record_behaves; [exact I|trivial]|].
    intros _ d2 _ _.
    eapply (satisfies_bind _ Ht);
      [apply (on_key_browsing total_frames fps frame raw p); assumption|].
    intros [p'|p'] d3 _ Hov'.
    + apply IH; assumption.
    + apply (satisfies_ret _ Hr). exact I.
Qed.

End BrowsingFacts.

(** X19.  Browsing costs no inference: as long as neither [a] nor [t]
    is pressed, the picker never calls the pose model and never draws a
    skeleton: the only calls to the decoder, the model and the drawing
    primitives are reads of the decoder. *)
Theorem browsing_never_runs_the_model `{OpenCV} `{HighGUI} `{VideoProperties}
    `{Libraries} (fs : gmap string video) (path : string) (v : video)
    (keys : list Z) (d : desk) :
  fs !! path = Some v ->
  forallb browsing keys = true ->
  grows (fun d => trace (mem d)) decodes d
    (snd (pick_frame_interactive fs path keys d)).
Proof.
  intros Hfs Hkeys.
  set (pose := mp_pose_Pose true 2).
  pose proof (behaves_refl decodes v pose) as Hr.
  pose proof (behaves_trans decodes v pose) as Ht.
  assert (Hgoal : satisfies (behaves decodes v pose)
                    (pick_frame_interactive fs path keys) (fun _ _ => True) d).
  { unfold pick_frame_interactive, isOpened, cap_get.
    cbn [open_capture cap_src]. rewrite Hfs.
    destruct (is_opened v); cbn [negb];
      [|apply (satisfies_attempted _ Hr); trivial].
    eapply (satisfies_bind _ Ht) with (Q := fun _ _ => True);
      [apply (satisfies_attempted _ Hr); trivial|].
    intros total d0 _ _.
    do 12 (eapply (satisfies_bind _ Ht) with (Q := fun _ _ => True);
           [apply (print_behaves decodes v); trivial|intros _ ? _ _]).
    eapply (satisfies_bind _ Ht) with (Q := fun _ _ => True).
    { apply (picker_loop_browsing v pose (open_capture fs path));
        [exact Hfs|exact Hkeys|reflexivity]. }
    intros [[p' rest]|] d13 _ _; [|apply (satisfies_ret _ Hr); exact I].
    eapply (satisfies_bind _ Ht) with (Q := fun _ _ => True);
      [apply record_behaves; [exact I|trivial]|].
    intros _ d14 _ _.
    destruct (selected_frame p') as [m|]; [|apply (satisfies_ret _ Hr); exact I].
    eapply (satisfies_bind _ Ht) with (Q := fun _ _ => True);
      [apply (print_behaves decodes v); trivial|].
    intros _ d15 _ _. apply (satisfies_ret _ Hr). exact I. }
  destruct Hgoal as [[Htr _] _]. exact Htr.
Qed.

Lemma browsing_never_runs_the_model_witness :
  grows (fun d => trace (mem d)) decodes (Desk.start [Some "1"])
    (snd (Desk.run [46; 32; -1; 103; 44; 113] [Some "1"])).
Proof.
  apply (@browsing_never_runs_the_model Demo.cv Desk.gui Demo.clips Studio.props
           Desk.half_seen_libs Demo.uploads "uploads/clip.mp4"
           [Demo.frame3; Demo.frame3] [46; 32; -1; 103; 44; 113]
           (Desk.start [Some "1"])).
  - reflexivity.
  - reflexivity.
Defined.

(** ** The plain frame and the analysed frame *)

Section FrameFacts.
Context `{OpenCV} `{VideoSource} `{Libraries}.

Lemma get_frame_run (fs : gmap string video) filename v (i : N) s :
  fs !! path_join UPLOAD_FOLDER (secure_filename filename) = Some v ->
  fst (get_frame fs filename i s)
  = match frame_at v (Z.of_N i) with
    | Some a => Ok (PFrame i (data_url (jpg_base64 a)), 200)
    | None => Ok (PError "Frame not found", 404)
    end.
Proof.
  intros Hv. unfold get_frame, path_exists.
  rewrite (path_exists_true fs _ v Hv). cbn [negb].
  unfold mbind at 1. unfold M_bind at 1. rewrite read_run.
  cbn [open_capture set_pos_frames cap_src cap_pos cap_path]. rewrite Hv.
  cbn [mbind option_bind].
  destruct (frame_at v (Z.of_N i)) as [a|]; [|reflexivity].
  unfold mbind, M_bind, load. cbn [heap]. rewrite lookup_insert_eq. reflexivity.
Qed.

Lemma analyze_endpoint_cases (fs : gmap string video) filename data i s :
  data !! "frame_index" = Some (JInt i) ->
  fst (analyze_frame_endpoint fs filename data s)
  = match fs !! path_join UPLOAD_FOLDER (secure_filename filename) with
    | None => Ok (PError "Video not found", 404)
    | Some v =>
        match frame_at v i with
        | None => Ok (PError "Frame not found", 404)
        | Some a =>
            match analysis_of (mp_pose_Pose true 2) a with
            | Ok (img, kps, flag) =>
                Ok (PAnalysis {| a_frame_index := JInt i;
                                 a_has_pose := flag;
                                 a_keypoints := kps;
                                 a_annotated_image := data_url (jpg_base64 img) |}, 200)
            | Raise e => Raise e
            end
        end
    end.
Proof.
  intros Hd.
  destruct (fs !! path_join UPLOAD_FOLDER (secure_filename filename)) as [v|] eqn:Hv.
  - destruct (frame_at v i) as [a|] eqn:Ha.
    + apply (analyze_endpoint_pure fs filename data v i a s Hv Hd Ha).
    + unfold analyze_frame_endpoint, path_exists.
      rewrite (path_exists_true fs _ v Hv), Hd. cbn [negb default from_option id].
      unfold mbind at 1. unfold M_bind at 1. unfold lift at 1. cbn [cap_set].
      unfold mbind at 1. unfold M_bind at 1. rewrite read_run.
      cbn [open_capture set_pos_frames cap_src cap_pos cap_path]. rewrite Hv.
      cbn [mbind option_bind]. rewrite Ha. reflexivity.
  - unfold analyze_frame_endpoint, path_exists.
    rewrite (path_exists_false fs _ Hv). reflexivity.
Qed.

End FrameFacts.

(** X20.  Without a pose the analyze endpoint returns the plain frame:
    when it answers with [has_pose] false, its keypoint list is empty
    and its [annotated_image] is the very [image] the frame endpoint
    serves for the same file and index. *)
Theorem no_pose_image_is_the_frame `{OpenCV} `{VideoSource} `{Libraries}
    (fs : gmap string video) (filename : string) (i : N)
    (data : gmap string json) (an : analysis) (s s' : state) :
  data !! "frame_index" = Some (JInt (Z.of_N i)) ->
  fst (analyze_frame_endpoint fs filename data s) = Ok (PAnalysis an, 200) ->
  a_has_pose an = false ->
  a_keypoints an = [] /\
  fst (get_frame fs filename i s') = Ok (PFrame i (a_annotated_image an), 200).
Proof.
  intros Hd Hrun Hflag.
  rewrite (analyze_endpoint_cases fs filename data (Z.of_N i) s Hd) in Hrun.
  destruct (fs !! path_join UPLOAD_FOLDER (secure_filename filename)) as [v|] eqn:Hv;
    [|discriminate Hrun].
  rewrite (get_frame_run fs filename v i s' Hv).
  destruct (frame_at v (Z.of_N i)) as [a|]; [|discriminate Hrun].
  unfold analysis_of in Hrun. destruct (shape a) as [h w].
  destruct (process (mp_pose_Pose true 2) (BGR2RGB a)) as [lms|].
  - destruct (rendering lms w h) as [ops [e|]]; [discriminate Hrun|].
    destruct (map_result (keypoint_of w h) lms); [|discriminate Hrun].
    injection Hrun as <-. discriminate Hflag.
  - injection Hrun as <-. split; reflexivity.
Qed.

Lemma no_pose_image_is_the_frame_witness :
  let data : gmap string json := {[ "frame_index" := JInt (Z.of_N 1) ]} in
  let an := {| a_frame_index := JInt 1;
               a_has_pose := false;
               a_keypoints := [];
               a_annotated_image := data_url (@jpg_base64 Demo.cv Demo.frame3) |} in
  a_keypoints an = [] /\
  fst (@get_frame Demo.cv Demo.clips (Demo.libs None) Demo.uploads "clip.mp4" 1
         Demo.st0)
  = Ok (PFrame 1 (a_annotated_image an), 200).
Proof.
  intros data an.
  apply (@no_pose_image_is_the_frame Demo.cv Demo.clips (Demo.libs None)
           Demo.uploads "clip.mp4" 1%N data an Demo.empty_state Demo.st0).
  - reflexivity.
  - vm_compute. reflexivity.
  - reflexivity.
Defined.
